(** * stockInfo: a shallow embedding of the server and its checked properties

    The development follows the layering of the application:

    - [Js]        the JavaScript values and helpers the code relies on;
    - [Sql], the table modules and [Db]: the rows of the SQLite database;
    - [db]        db.js, the persistence accessor (query/getOne/insert/update);
    - [storage]   storage.js, the domain storage layer;
    - [fmpApi]    services/fmp-api.js, the market-data client;
    - [auth]      auth.js, the passport strategy and the middleware;
    - [app]       the error handlers of app.js;
    - [routes_*]  one module per router of routes/;
    - [dbSetup]   db-setup.js, schema creation.

    Modelling conventions.  Asynchronous code is sequential code in the
    monad [M]: a computation reads the environment [Env] (clock, bcrypt,
    the upstream HTTP answers, the session store), threads the database
    [Db] and either returns or throws a [Js.Error]; a throw keeps the
    writes done before it.  Request fields are the scalars a JSON form
    carries; numbers are integers.  Strings are byte strings, and the
    case mappings are those of the ASCII letters: they are the
    JavaScript ones on strings of ASCII characters ([Js.is_ascii]).  The
    database never loses its connection: a row statement fails only on a
    constraint (schema creation, in [dbSetup], is run against arbitrary
    failures).  A TEXT column stores a number as its decimal text and
    compares a parameter as text; a text bound to a numeric column is
    kept as it is bound.  Every table is AUTOINCREMENT: the database
    keeps the rows only, and a statement reads the sequence of its table
    off the environment, so that a property holds whatever rowids the
    table has held before. *)

From Stdlib Require Import String Ascii List ZArith Bool Lia DecimalString.
Import ListNotations.
Local Open Scope Z_scope.
Set Warnings "-register-all".

(** Template literals and string concatenation. *)
Infix "+++" := String.append (at level 60, right associativity).

(* ===================================================================== *)
(** * JavaScript values *)
(* ===================================================================== *)

Module Js.

(** The scalar values of a request body or of a storage payload. *)
Inductive Val : Type :=
| undefined
| null
| boolean (b : bool)
| number (n : Z)
| str (s : string).

(** [if (v)], [!v], [v || w], [v ? a : b]. *)
Definition truthy (v : Val) : bool :=
  match v with
  | undefined | null => false
  | boolean b => b
  | number n => negb (n =? 0)
  | str s => negb (String.eqb s "")
  end.

(** [v !== undefined]. *)
Definition defined (v : Val) : bool :=
  match v with undefined => false | _ => true end.

(** [v || w]. *)
Definition or (v w : Val) : Val := if truthy v then v else w.

(** [typeof v], as the error messages of bcryptjs print it. *)
Definition typeof (v : Val) : string :=
  match v with
  | undefined => "undefined"
  | null => "object"
  | boolean _ => "boolean"
  | number _ => "number"
  | str _ => "string"
  end.

(** [String(v)], as a template literal prints a scalar. *)
Definition toString (v : Val) : string :=
  match v with
  | undefined => "undefined"
  | null => "null"
  | boolean b => if b then "true" else "false"
  | number n => NilZero.string_of_int (Z.to_int n)
  | str s => s
  end.

(** A thrown [Error]: its [message]; its [status], when some middleware
    set one; and, on a rejection of axios that carries an HTTP response,
    [response.status] and [response.data.error]. *)
Record Error : Type := mkError {
  message : string;
  status : option Z;
  response : option (Z * Val)
}.

(** [new Error(msg)] *)
Definition new_Error (msg : string) : Error :=
  {| message := msg; status := None; response := None |}.

(** [error.response?.status === 429] *)
Definition response_status_is (e : Error) (code : Z) : bool :=
  match response e with
  | Some (st, _) => st =? code
  | None => false
  end.

(** [error.response?.data?.error] *)
Definition response_data_error (e : Error) : Val :=
  match response e with
  | Some (_, v) => v
  | None => undefined
  end.

Definition upper_ascii (c : ascii) : ascii :=
  let n := nat_of_ascii c in
  if (Nat.leb 97 n && Nat.leb n 122)%bool then ascii_of_nat (n - 32) else c.


(** [s.toUpperCase()], on a string of ASCII characters; other bytes are
    left as they are. *)
Fixpoint toUpperCase (s : string) : string :=
  match s with
  | EmptyString => EmptyString
  | String c s' => String (upper_ascii c) (toUpperCase s')
  end.

(** [s.includes(needle)]. *)
Fixpoint includes (s needle : string) : bool :=
  if String.prefix needle s then true
  else match s with
       | EmptyString => false
       | String _ s' => includes s' needle
       end.

(** The [TypeError] of calling a string method on another value. *)
Definition not_a_function (what : string) : Error :=
  new_Error (what +++ " is not a function").

(** [s.length < 2]. *)
Definition shorter_than_2 (s : string) : bool :=
  match s with
  | EmptyString | String _ EmptyString => true
  | _ => false
  end.

(** Response bodies and upstream payloads: JSON over the scalars. *)
Inductive Json : Type :=
| J (v : Val)
| JArr (items : list Json)
| JObj (fields : list (string * Json)).

(** [o.k], [undefined] when the key is absent or [o] is not an object. *)
Fixpoint assoc (k : string) (fields : list (string * Json)) : Json :=
  match fields with
  | [] => J undefined
  | (k', v) :: rest => if String.eqb k k' then v else assoc k rest
  end.

Definition get (o : Json) (k : string) : Json :=
  match o with
  | JObj fields => assoc k fields
  | _ => J undefined
  end.

Definition truthy_json (j : Json) : bool :=
  match j with
  | J v => truthy v
  | JArr _ | JObj _ => true
  end.

(** [a || b] on JSON values. *)
Definition or_json (a b : Json) : Json := if truthy_json a then a else b.

(** [data[0]]. *)
Definition index0 (data : Json) : Json :=
  match data with
  | JArr (x :: _) => x
  | _ => J undefined
  end.

(** [const { k: _, ...rest } = o]. *)
Fixpoint without (k : string) (fields : list (string * Json))
  : list (string * Json) :=
  match fields with
  | [] => []
  | (k', v) :: rest =>
      if String.eqb k k' then without k rest else (k', v) :: without k rest
  end.

Definition lower_ascii (c : ascii) : ascii :=
  let n := nat_of_ascii c in
  if (Nat.leb 65 n && Nat.leb n 90)%bool then ascii_of_nat (n + 32) else c.

(** [s.toLowerCase()]. *)
Fixpoint toLowerCase (s : string) : string :=
  match s with
  | EmptyString => EmptyString
  | String c s' => String (lower_ascii c) (toLowerCase s')
  end.

(** The characters [\s] matches among the bytes: tab, line feed,
    vertical tab, form feed, carriage return, space. *)
Definition is_space (c : ascii) : bool :=
  let n := nat_of_ascii c in
  (Nat.leb 9 n && Nat.leb n 13)%bool || Nat.eqb n 32.

(** [s.replace(/\s+/g, '')]. *)
Fixpoint strip_spaces (s : string) : string :=
  match s with
  | EmptyString => EmptyString
  | String c s' => if is_space c then strip_spaces s' else String c (strip_spaces s')
  end.

(** [s.substring(0, n)]. *)
Definition substring0 (n : nat) (s : string) : string := String.substring 0 n s.

End Js.

Coercion Js.J : Js.Val >-> Js.Json.

(* ===================================================================== *)
(** * The database file *)
(* ===================================================================== *)

Module Sql.

(** A stored value. Timestamps are integers (a clock reading). *)
Inductive Value : Type :=
| NULL
| INTEGER (n : Z)
| TEXT (s : string).

Definition is_null (v : Value) : bool :=
  match v with NULL => true | _ => false end.

Definition eqb (a b : Value) : bool :=
  match a, b with
  | NULL, NULL => true
  | INTEGER x, INTEGER y => x =? y
  | TEXT x, TEXT y => String.eqb x y
  | _, _ => false
  end.

(** The comparison [col = ?] of a WHERE clause and of a UNIQUE index:
    NULL is equal to nothing, not even to NULL. *)
Definition same (a b : Value) : bool :=
  negb (is_null a) && eqb a b.

(** How the sqlite3 driver binds a JavaScript parameter. *)
Definition bind (v : Js.Val) : Value :=
  match v with
  | Js.undefined | Js.null => NULL
  | Js.boolean b => INTEGER (if b then 1 else 0)
  | Js.number n => INTEGER n
  | Js.str s => TEXT s
  end.

(** TEXT affinity: what a column declared TEXT makes of a value stored
    in it, and of a parameter compared with it. A number becomes its
    decimal text. *)
Definition text (v : Value) : Value :=
  match v with
  | INTEGER n => TEXT (Js.toString (Js.number n))
  | _ => v
  end.

(** A column of a row, as the driver hands it back to JavaScript. *)
Definition unbind (v : Value) : Js.Val :=
  match v with
  | NULL => Js.null
  | INTEGER n => Js.number n
  | TEXT s => Js.str s
  end.

End Sql.

(** ** Table [users] *)
Module Users.

Record Row : Type := mkRow {
  id : Z;
  username : Sql.Value;
  password : Sql.Value;
  email : Sql.Value;
  full_name : Sql.Value;
  role : Sql.Value;
  avatar : Sql.Value;
  address : Sql.Value;
  dark_mode : Sql.Value;
  created_at : Sql.Value;
  last_login : Sql.Value;
  google_id : Sql.Value
}.

(** The columns an UPDATE can name. *)
Inductive Col : Type :=
| c_username | c_password | c_email | c_full_name | c_role | c_avatar
| c_address | c_dark_mode | c_created_at | c_last_login | c_google_id.

Definition col_name (c : Col) : string :=
  match c with
  | c_username => "username" | c_password => "password"
  | c_email => "email" | c_full_name => "full_name" | c_role => "role"
  | c_avatar => "avatar" | c_address => "address"
  | c_dark_mode => "dark_mode" | c_created_at => "created_at"
  | c_last_login => "last_login" | c_google_id => "google_id"
  end.

Definition get (c : Col) (r : Row) : Sql.Value :=
  match c with
  | c_username => username r | c_password => password r
  | c_email => email r | c_full_name => full_name r | c_role => role r
  | c_avatar => avatar r | c_address => address r
  | c_dark_mode => dark_mode r | c_created_at => created_at r
  | c_last_login => last_login r | c_google_id => google_id r
  end.

Definition set (c : Col) (v : Sql.Value) (r : Row) : Row :=
  match c with
  | c_username => mkRow (id r) v (password r) (email r) (full_name r) (role r) (avatar r) (address r) (dark_mode r) (created_at r) (last_login r) (google_id r)
  | c_password => mkRow (id r) (username r) v (email r) (full_name r) (role r) (avatar r) (address r) (dark_mode r) (created_at r) (last_login r) (google_id r)
  | c_email => mkRow (id r) (username r) (password r) v (full_name r) (role r) (avatar r) (address r) (dark_mode r) (created_at r) (last_login r) (google_id r)
  | c_full_name => mkRow (id r) (username r) (password r) (email r) v (role r) (avatar r) (address r) (dark_mode r) (created_at r) (last_login r) (google_id r)
  | c_role => mkRow (id r) (username r) (password r) (email r) (full_name r) v (avatar r) (address r) (dark_mode r) (created_at r) (last_login r) (google_id r)
  | c_avatar => mkRow (id r) (username r) (password r) (email r) (full_name r) (role r) v (address r) (dark_mode r) (created_at r) (last_login r) (google_id r)
  | c_address => mkRow (id r) (username r) (password r) (email r) (full_name r) (role r) (avatar r) v (dark_mode r) (created_at r) (last_login r) (google_id r)
  | c_dark_mode => mkRow (id r) (username r) (password r) (email r) (full_name r) (role r) (avatar r) (address r) v (created_at r) (last_login r) (google_id r)
  | c_created_at => mkRow (id r) (username r) (password r) (email r) (full_name r) (role r) (avatar r) (address r) (dark_mode r) v (last_login r) (google_id r)
  | c_last_login => mkRow (id r) (username r) (password r) (email r) (full_name r) (role r) (avatar r) (address r) (dark_mode r) (created_at r) v (google_id r)
  | c_google_id => mkRow (id r) (username r) (password r) (email r) (full_name r) (role r) (avatar r) (address r) (dark_mode r) (created_at r) (last_login r) v
  end.

(** [SET c1 = ?, c2 = ?, ...], applied left to right. *)
Fixpoint assign (sets : list (Col * Sql.Value)) (r : Row) : Row :=
  match sets with
  | [] => r
  | (c, v) :: rest => assign rest (set c v r)
  end.

(** The affinity of the columns: all are TEXT but [dark_mode], an
    INTEGER, and the two timestamps. *)
Definition affinity (c : Col) (v : Sql.Value) : Sql.Value :=
  match c with
  | c_dark_mode | c_created_at | c_last_login => v
  | _ => Sql.text v
  end.

(** The values of a SET list as the columns store them. *)
Definition stored (sets : list (Col * Sql.Value)) : list (Col * Sql.Value) :=
  map (fun cv => (fst cv, affinity (fst cv) (snd cv))) sets.

(** The columns declared NOT NULL. *)
Definition not_null_cols : list Col :=
  [c_username; c_email; c_full_name; c_role].

(** The UNIQUE columns, in the order their indexes are checked: the
    last declared first. *)
Definition unique_cols : list Col := [c_google_id; c_email; c_username].

(** The row as the JavaScript object [SELECT *] yields. *)
Definition to_json (r : Row) : list (string * Js.Json) :=
  ("id"%string, Js.J (Js.number (id r))) ::
  map (fun c => (col_name c, Js.J (Sql.unbind (get c r))))
      [c_username; c_password; c_email; c_full_name; c_role; c_avatar;
       c_address; c_dark_mode; c_created_at; c_last_login; c_google_id].

End Users.

(** ** Table [user_watchlist] *)
Module UserWatchlist.

Record Row : Type := mkRow {
  id : Z;
  user_id : Z;
  symbol : string;
  created_at : Z
}.

Definition to_json (r : Row) : Js.Json :=
  Js.JObj [("id"%string, Js.J (Js.number (id r)));
           ("user_id"%string, Js.J (Js.number (user_id r)));
           ("symbol"%string, Js.J (Js.str (symbol r)));
           ("created_at"%string, Js.J (Js.number (created_at r)))].

End UserWatchlist.

(** ** Table [portfolio] *)
Module Portfolio.

Record Row : Type := mkRow {
  id : Z;
  user_id : Z;
  name : Sql.Value;
  description : Sql.Value;
  created_at : Z
}.

Inductive Col : Type := c_name | c_description.

Definition set (c : Col) (v : Sql.Value) (r : Row) : Row :=
  match c with
  | c_name => mkRow (id r) (user_id r) v (description r) (created_at r)
  | c_description => mkRow (id r) (user_id r) (name r) v (created_at r)
  end.

Fixpoint assign (sets : list (Col * Sql.Value)) (r : Row) : Row :=
  match sets with
  | [] => r
  | (c, v) :: rest => assign rest (set c v r)
  end.

(** Both columns of a SET list are TEXT. *)
Definition stored (sets : list (Col * Sql.Value)) : list (Col * Sql.Value) :=
  map (fun cv => (fst cv, Sql.text (snd cv))) sets.

Definition fields (r : Row) : list (string * Js.Json) :=
  [("id"%string, Js.J (Js.number (id r)));
   ("user_id"%string, Js.J (Js.number (user_id r)));
   ("name"%string, Js.J (Sql.unbind (name r)));
   ("description"%string, Js.J (Sql.unbind (description r)));
   ("created_at"%string, Js.J (Js.number (created_at r)))].

Definition to_json (r : Row) : Js.Json := Js.JObj (fields r).

End Portfolio.

(** ** Table [portfolio_positions] *)
Module PortfolioPositions.

Record Row : Type := mkRow {
  id : Z;
  portfolio_id : Z;
  symbol : string;
  shares : Sql.Value;
  purchase_price : Sql.Value;
  purchase_date : Sql.Value;
  notes : Sql.Value
}.

Inductive Col : Type := c_shares | c_purchase_price | c_purchase_date | c_notes.

Definition set (c : Col) (v : Sql.Value) (r : Row) : Row :=
  match c with
  | c_shares => mkRow (id r) (portfolio_id r) (symbol r) v (purchase_price r) (purchase_date r) (notes r)
  | c_purchase_price => mkRow (id r) (portfolio_id r) (symbol r) (shares r) v (purchase_date r) (notes r)
  | c_purchase_date => mkRow (id r) (portfolio_id r) (symbol r) (shares r) (purchase_price r) v (notes r)
  | c_notes => mkRow (id r) (portfolio_id r) (symbol r) (shares r) (purchase_price r) (purchase_date r) v
  end.

Fixpoint assign (sets : list (Col * Sql.Value)) (r : Row) : Row :=
  match sets with
  | [] => r
  | (c, v) :: rest => assign rest (set c v r)
  end.

(** [notes] is TEXT; the other columns of a SET list are numeric. *)
Definition affinity (c : Col) (v : Sql.Value) : Sql.Value :=
  match c with
  | c_notes => Sql.text v
  | _ => v
  end.

Definition stored (sets : list (Col * Sql.Value)) : list (Col * Sql.Value) :=
  map (fun cv => (fst cv, affinity (fst cv) (snd cv))) sets.

Definition to_json (r : Row) : Js.Json :=
  Js.JObj [("id"%string, Js.J (Js.number (id r)));
           ("portfolio_id"%string, Js.J (Js.number (portfolio_id r)));
           ("symbol"%string, Js.J (Js.str (symbol r)));
           ("shares"%string, Js.J (Sql.unbind (shares r)));
           ("purchase_price"%string, Js.J (Sql.unbind (purchase_price r)));
           ("purchase_date"%string, Js.J (Sql.unbind (purchase_date r)));
           ("notes"%string, Js.J (Sql.unbind (notes r)))].

End PortfolioPositions.

(** ** Table [api_logs] *)
Module ApiLogs.

Record Row : Type := mkRow {
  id : Z;
  user_id : Sql.Value;
  endpoint : string;
  request_time : Z;
  response_time : Z;
  success : Z;
  error_message : Sql.Value
}.

End ApiLogs.

(** ** Table [restricted_stocks] *)
Module RestrictedStocks.

Record Row : Type := mkRow {
  id : Z;
  symbol : string;
  reason : Sql.Value;
  added_at : Z;
  added_by : Z
}.

End RestrictedStocks.

(** ** Table [featured_stocks] *)
Module FeaturedStocks.

Record Row : Type := mkRow {
  id : Z;
  symbol : string;
  title : Sql.Value;
  description : Sql.Value;
  start_date : Sql.Value;
  end_date : Sql.Value;
  added_by : Z
}.

End FeaturedStocks.

(** ** The database: the rows of its tables, each table in rowid order.
    The rowid sequences that SQLite keeps beside them are a field of
    [Env]. *)
Record Db : Type := mkDb {
  users : list Users.Row;
  user_watchlist : list UserWatchlist.Row;
  portfolio : list Portfolio.Row;
  portfolio_positions : list PortfolioPositions.Row;
  api_logs : list ApiLogs.Row;
  restricted_stocks : list RestrictedStocks.Row;
  featured_stocks : list FeaturedStocks.Row
}.

Definition with_users (d : Db) (t : list Users.Row) : Db :=
  mkDb t (user_watchlist d) (portfolio d) (portfolio_positions d)
       (api_logs d) (restricted_stocks d) (featured_stocks d).

Definition with_user_watchlist (d : Db) (t : list UserWatchlist.Row) : Db :=
  mkDb (users d) t (portfolio d) (portfolio_positions d)
       (api_logs d) (restricted_stocks d) (featured_stocks d).

Definition with_portfolio (d : Db) (t : list Portfolio.Row) : Db :=
  mkDb (users d) (user_watchlist d) t (portfolio_positions d)
       (api_logs d) (restricted_stocks d) (featured_stocks d).

Definition with_portfolio_positions (d : Db) (t : list PortfolioPositions.Row) : Db :=
  mkDb (users d) (user_watchlist d) (portfolio d) t
       (api_logs d) (restricted_stocks d) (featured_stocks d).

Definition with_api_logs (d : Db) (t : list ApiLogs.Row) : Db :=
  mkDb (users d) (user_watchlist d) (portfolio d) (portfolio_positions d)
       t (restricted_stocks d) (featured_stocks d).

Definition with_restricted_stocks (d : Db) (t : list RestrictedStocks.Row) : Db :=
  mkDb (users d) (user_watchlist d) (portfolio d) (portfolio_positions d)
       (api_logs d) t (featured_stocks d).

Definition with_featured_stocks (d : Db) (t : list FeaturedStocks.Row) : Db :=
  mkDb (users d) (user_watchlist d) (portfolio d) (portfolio_positions d)
       (api_logs d) (restricted_stocks d) t.

(* ===================================================================== *)
(** * The environment and the monad of asynchronous code *)
(* ===================================================================== *)

(** What axios hands back: a response, of which the code reads [data], or
    a rejection. *)
Module Axios.

Inductive Result : Type :=
| Resolved (data : Js.Json)
| Rejected (e : Js.Error).

End Axios.

Record Env : Type := mkEnv {
  (** [CURRENT_TIMESTAMP], [new Date()], [Date.now()] *)
  now : Z;
  (** the row of [sqlite_sequence] for a table: the largest rowid the
      table has ever held, as the request finds it *)
  sqlite_sequence : string -> Z;
  (** [bcrypt.genSalt(10)] *)
  bcrypt_genSalt : string;
  (** [bcrypt.hash(password, salt)] on strings *)
  bcrypt_hash : string -> string -> string;
  (** [bcrypt.compare(password, hash)] on strings *)
  bcrypt_compare : string -> string -> bool;
  (** [fmpClient.get(url)] and the time it takes *)
  fmp_get : string -> Axios.Result;
  latency : Z;
  encodeURIComponent : string -> string;
  (** the error [req.logIn] passes to its callback, if any *)
  logIn_error : option Js.Error;
  (** [req.app.get('env') === 'development'] and how an error object
      serializes there *)
  development : bool;
  inspect : Js.Error -> Js.Json
}.

Inductive Completion (A : Type) : Type :=
| Returned (a : A)
| Thrown (e : Js.Error).

Arguments Returned {A} a.
Arguments Thrown {A} e.

(** Code that reads an environment [E], threads a state [S] and returns
    or throws. *)
Definition Eff (E S A : Type) : Type := E -> S -> Completion A * S.

Definition ret {E S A} (a : A) : Eff E S A := fun _ d => (Returned a, d).

Definition throw {E S A} (e : Js.Error) : Eff E S A := fun _ d => (Thrown e, d).

Definition bind {E S A B} (c : Eff E S A) (k : A -> Eff E S B) : Eff E S B :=
  fun env d =>
    match c env d with
    | (Returned a, d') => k a env d'
    | (Thrown e, d') => (Thrown e, d')
    end.

(** [try { c } catch (error) { h error }] *)
Definition try_catch {E S A} (c : Eff E S A) (h : Js.Error -> Eff E S A) : Eff E S A :=
  fun env d =>
    match c env d with
    | (Returned a, d') => (Returned a, d')
    | (Thrown e, d') => h e env d'
    end.

Definition ask {E S} : Eff E S E := fun env d => (Returned env, d).

(** The code of the server runs against [Env] and the database. *)
Definition M (A : Type) : Type := Eff Env Db A.

Notation "x <- c ;; k" := (bind c (fun x => k))
  (at level 61, c at next level, right associativity).

Notation "c ;;; k" := (bind c (fun _ => k))
  (at level 61, right associativity).

(* ===================================================================== *)
(** * db.js: the persistence accessor *)
(* ===================================================================== *)

Module db.

(** The statements the application sends through [connection.run], with
    their bound parameters. *)
Inductive Stmt : Type :=
| INSERT_INTO_users
    (username password email full_name role avatar address dark_mode : Sql.Value)
| UPDATE_users_SET (sets : list (Users.Col * Sql.Value)) (id : Z)
| UPDATE_users_SET_last_login_CURRENT_TIMESTAMP (id : Z)
| INSERT_INTO_user_watchlist (user_id : Z) (symbol : string)
| DELETE_FROM_user_watchlist (user_id : Z) (symbol : string)
| UPDATE_portfolio_SET (sets : list (Portfolio.Col * Sql.Value)) (id : Z)
| DELETE_FROM_portfolio (id : Z)
| INSERT_INTO_portfolio_positions
    (portfolio_id : Z) (symbol : string)
    (shares purchase_price purchase_date notes : Sql.Value)
| UPDATE_portfolio_positions_SET
    (sets : list (PortfolioPositions.Col * Sql.Value)) (id : Z)
| DELETE_FROM_portfolio_positions (id : Z)
| INSERT_INTO_api_logs
    (user_id : Sql.Value) (endpoint : string) (request_time response_time : Z)
    (success : Z) (error_message : Sql.Value)
| INSERT_INTO_restricted_stocks (symbol : string) (reason : Sql.Value) (added_by : Z)
| INSERT_INTO_featured_stocks
    (symbol : string) (title description start_date end_date : Sql.Value)
    (added_by : Z).

(** What the driver exposes on [this] in the callback of [run]. *)
Record RunResult : Type := mkRun { changes : Z; lastID : Z }.

Definition SQLITE_CONSTRAINT (what : string) : Js.Error :=
  Js.new_Error (String.append "SQLITE_CONSTRAINT: " what).

Definition NOT_NULL_failed (column : string) : Js.Error :=
  SQLITE_CONSTRAINT (String.append "NOT NULL constraint failed: " column).

Definition UNIQUE_failed (columns : string) : Js.Error :=
  SQLITE_CONSTRAINT (String.append "UNIQUE constraint failed: " columns).

Definition FOREIGN_KEY_failed : Js.Error :=
  SQLITE_CONSTRAINT "FOREIGN KEY constraint failed".

(** INTEGER PRIMARY KEY AUTOINCREMENT: one more than the largest rowid
    the table has ever held, [seq], which is at least the largest in
    use. *)
Definition next_id (seq : Z) (ids : list Z) : Z :=
  1 + Z.max seq (fold_right Z.max 0 ids).

Definition user_exists (d : Db) (uid : Z) : bool :=
  existsb (fun u => Users.id u =? uid) (users d).

Definition portfolio_exists (d : Db) (pid : Z) : bool :=
  existsb (fun p => Portfolio.id p =? pid) (portfolio d).

(** The constraints of [users] on a row about to be written, against the
    other rows of the table: NOT NULL first, then the UNIQUE indexes. *)
Definition users_violation (others : list Users.Row) (r : Users.Row)
  : option Js.Error :=
  match find (fun c => Sql.is_null (Users.get c r)) Users.not_null_cols with
  | Some c => Some (NOT_NULL_failed (String.append "users." (Users.col_name c)))
  | None =>
      match find (fun c => existsb (fun o => Sql.same (Users.get c r) (Users.get c o)) others)
                 Users.unique_cols with
      | Some c => Some (UNIQUE_failed (String.append "users." (Users.col_name c)))
      | None => None
      end
  end.

Fixpoint first_violation (others : list Users.Row) (written : list Users.Row)
  : option Js.Error :=
  match written with
  | [] => None
  | r :: rest =>
      match users_violation others r with
      | Some e => Some e
      | None => first_violation others rest
      end
  end.

Definition is_id (i : Z) (r : Users.Row) : bool := Users.id r =? i.

(** [UPDATE users SET ... WHERE id = ?] on the table. *)
Definition update_users (f : Users.Row -> Users.Row) (i : Z) (rows : list Users.Row)
  : list Users.Row :=
  map (fun r => if is_id i r then f r else r) rows.

(** One statement against the database: the new state and what [run]
    reports, or the constraint error and the state unchanged. *)
Definition exec (s : Stmt) (env : Env) (d : Db) : Completion RunResult * Db :=
  match s with
  | INSERT_INTO_users username password email full_name role avatar address dark_mode =>
      let i := next_id (sqlite_sequence env "users") (map Users.id (users d)) in
      let r := Users.mkRow i (Sql.text username) (Sql.text password) (Sql.text email)
                           (Sql.text full_name) (Sql.text role) (Sql.text avatar)
                           (Sql.text address) dark_mode (Sql.INTEGER (now env))
                           Sql.NULL Sql.NULL in
      match users_violation (users d) r with
      | Some e => (Thrown e, d)
      | None => (Returned (mkRun 1 i), with_users d (users d ++ [r]))
      end
  | UPDATE_users_SET sets i =>
      let hit := filter (is_id i) (users d) in
      let others := filter (fun r => negb (is_id i r)) (users d) in
      match first_violation others (map (Users.assign (Users.stored sets)) hit) with
      | Some e => (Thrown e, d)
      | None =>
          (Returned (mkRun (Z.of_nat (length hit)) 0),
           with_users d (update_users (Users.assign (Users.stored sets)) i (users d)))
      end
  | UPDATE_users_SET_last_login_CURRENT_TIMESTAMP i =>
      let hit := filter (is_id i) (users d) in
      (Returned (mkRun (Z.of_nat (length hit)) 0),
       with_users d
         (update_users (Users.set Users.c_last_login (Sql.INTEGER (now env))) i (users d)))
  | INSERT_INTO_user_watchlist uid sym =>
      if existsb (fun w => (UserWatchlist.user_id w =? uid)
                           && String.eqb (UserWatchlist.symbol w) sym)
                 (user_watchlist d)
      then (Thrown (UNIQUE_failed "user_watchlist.user_id, user_watchlist.symbol"), d)
      else if negb (user_exists d uid) then (Thrown FOREIGN_KEY_failed, d)
      else
        let i := next_id (sqlite_sequence env "user_watchlist")
                         (map UserWatchlist.id (user_watchlist d)) in
        (Returned (mkRun 1 i),
         with_user_watchlist d
           (user_watchlist d ++ [UserWatchlist.mkRow i uid sym (now env)]))
  | DELETE_FROM_user_watchlist uid sym =>
      let gone w := (UserWatchlist.user_id w =? uid)
                    && String.eqb (UserWatchlist.symbol w) sym in
      (Returned (mkRun (Z.of_nat (length (filter gone (user_watchlist d)))) 0),
       with_user_watchlist d (filter (fun w => negb (gone w)) (user_watchlist d)))
  | UPDATE_portfolio_SET sets i =>
      let hit := filter (fun p => Portfolio.id p =? i) (portfolio d) in
      if existsb (fun p => Sql.is_null (Portfolio.name p))
                 (map (Portfolio.assign (Portfolio.stored sets)) hit)
      then (Thrown (NOT_NULL_failed "portfolio.name"), d)
      else
        (Returned (mkRun (Z.of_nat (length hit)) 0),
         with_portfolio d
           (map (fun p => if Portfolio.id p =? i
                          then Portfolio.assign (Portfolio.stored sets) p else p)
                (portfolio d)))
  | DELETE_FROM_portfolio i =>
      let hit := filter (fun p => Portfolio.id p =? i) (portfolio d) in
      (** ON DELETE CASCADE on [portfolio_positions.portfolio_id] *)
      let d1 := with_portfolio d (filter (fun p => negb (Portfolio.id p =? i)) (portfolio d)) in
      (Returned (mkRun (Z.of_nat (length hit)) 0),
       if (0 <? Z.of_nat (length hit))
       then with_portfolio_positions d1
              (filter (fun q => negb (PortfolioPositions.portfolio_id q =? i))
                      (portfolio_positions d1))
       else d1)
  | INSERT_INTO_portfolio_positions pid sym shares price date notes =>
      if Sql.is_null shares
      then (Thrown (NOT_NULL_failed "portfolio_positions.shares"), d)
      else if Sql.is_null price
      then (Thrown (NOT_NULL_failed "portfolio_positions.purchase_price"), d)
      else if negb (portfolio_exists d pid) then (Thrown FOREIGN_KEY_failed, d)
      else
        let i := next_id (sqlite_sequence env "portfolio_positions")
                         (map PortfolioPositions.id (portfolio_positions d)) in
        (Returned (mkRun 1 i),
         with_portfolio_positions d
           (portfolio_positions d
              ++ [PortfolioPositions.mkRow i pid sym shares price date (Sql.text notes)]))
  | UPDATE_portfolio_positions_SET sets i =>
      let hit := filter (fun q => PortfolioPositions.id q =? i) (portfolio_positions d) in
      let written := map (PortfolioPositions.assign (PortfolioPositions.stored sets)) hit in
      if existsb (fun q => Sql.is_null (PortfolioPositions.shares q)) written
      then (Thrown (NOT_NULL_failed "portfolio_positions.shares"), d)
      else if existsb (fun q => Sql.is_null (PortfolioPositions.purchase_price q)) written
      then (Thrown (NOT_NULL_failed "portfolio_positions.purchase_price"), d)
      else
        (Returned (mkRun (Z.of_nat (length hit)) 0),
         with_portfolio_positions d
           (map (fun q => if PortfolioPositions.id q =? i
                          then PortfolioPositions.assign (PortfolioPositions.stored sets) q
                          else q)
                (portfolio_positions d)))
  | DELETE_FROM_portfolio_positions i =>
      let hit := filter (fun q => PortfolioPositions.id q =? i) (portfolio_positions d) in
      (Returned (mkRun (Z.of_nat (length hit)) 0),
       with_portfolio_positions d
         (filter (fun q => negb (PortfolioPositions.id q =? i)) (portfolio_positions d)))
  | INSERT_INTO_api_logs uid endpoint request_time response_time success error_message =>
      let fk_ok := match uid with
                   | Sql.NULL => true
                   | Sql.INTEGER u => user_exists d u
                   | Sql.TEXT _ => false
                   end in
      if negb fk_ok then (Thrown FOREIGN_KEY_failed, d)
      else
        let i := next_id (sqlite_sequence env "api_logs") (map ApiLogs.id (api_logs d)) in
        (Returned (mkRun 1 i),
         with_api_logs d
           (api_logs d ++ [ApiLogs.mkRow i uid endpoint request_time response_time
                                         success (Sql.text error_message)]))
  | INSERT_INTO_restricted_stocks sym reason by_ =>
      if existsb (fun r => String.eqb (RestrictedStocks.symbol r) sym) (restricted_stocks d)
      then (Thrown (UNIQUE_failed "restricted_stocks.symbol"), d)
      else if negb (user_exists d by_) then (Thrown FOREIGN_KEY_failed, d)
      else
        let i := next_id (sqlite_sequence env "restricted_stocks")
                         (map RestrictedStocks.id (restricted_stocks d)) in
        (Returned (mkRun 1 i),
         with_restricted_stocks d
           (restricted_stocks d
              ++ [RestrictedStocks.mkRow i sym (Sql.text reason) (now env) by_]))
  | INSERT_INTO_featured_stocks sym title description start_date end_date by_ =>
      if Sql.is_null title
      then (Thrown (NOT_NULL_failed "featured_stocks.title"), d)
      else if negb (user_exists d by_) then (Thrown FOREIGN_KEY_failed, d)
      else
        let i := next_id (sqlite_sequence env "featured_stocks")
                         (map FeaturedStocks.id (featured_stocks d)) in
        (Returned (mkRun 1 i),
         with_featured_stocks d
           (featured_stocks d
              ++ [FeaturedStocks.mkRow i sym (Sql.text title) (Sql.text description)
                                       start_date end_date by_]))
  end.

(** [query(sql, params)]: the rows of a table a WHERE clause keeps. *)
Definition query {R} (table : Db -> list R) (where_ : R -> bool) : M (list R) :=
  fun _ d => (Returned (filter where_ (table d)), d).

(** [getOne(sql, params)]: the first such row, [None] for [undefined]. *)
Definition getOne {R} (table : Db -> list R) (where_ : R -> bool) : M (option R) :=
  fun _ d => (Returned (find where_ (table d)), d).

(** [insert(sql, params)] resolves with [this.lastID]. *)
Definition insert (s : Stmt) : M Z :=
  r <- exec s ;; ret (lastID r).

(** [update(sql, params)] resolves with [this.changes]. *)
Definition update (s : Stmt) : M Z :=
  r <- exec s ;; ret (changes r).

End db.

(** The statements of [createPortfolio] and [removeRestrictedStock]. *)
Module db2.

Inductive Stmt : Type :=
| INSERT_INTO_portfolio (user_id : Z) (name description : Sql.Value)
| DELETE_FROM_restricted_stocks (id : Z).

Definition exec (s : Stmt) (env : Env) (d : Db) : Completion db.RunResult * Db :=
  match s with
  | INSERT_INTO_portfolio uid name description =>
      if Sql.is_null name
      then (Thrown (db.NOT_NULL_failed "portfolio.name"), d)
      else if negb (db.user_exists d uid) then (Thrown db.FOREIGN_KEY_failed, d)
      else
        let i := db.next_id (sqlite_sequence env "portfolio")
                            (map Portfolio.id (portfolio d)) in
        (Returned (db.mkRun 1 i),
         with_portfolio d
           (portfolio d
              ++ [Portfolio.mkRow i uid (Sql.text name) (Sql.text description) (now env)]))
  | DELETE_FROM_restricted_stocks i =>
      let hit := filter (fun r => RestrictedStocks.id r =? i) (restricted_stocks d) in
      (Returned (db.mkRun (Z.of_nat (length hit)) 0),
       with_restricted_stocks d
         (filter (fun r => negb (RestrictedStocks.id r =? i)) (restricted_stocks d)))
  end.

(** [update(sql, params)] resolves with [this.changes]. *)
Definition update (s : Stmt) : M Z :=
  r <- exec s ;; ret (db.changes r).

(** [SELECT COUNT( * ) as count FROM users] through [getOne]. *)
Definition count_users : M Z :=
  fun _ d => (Returned (Z.of_nat (length (users d))), d).

End db2.

(* ===================================================================== *)
(** * bcryptjs *)
(* ===================================================================== *)

Module bcrypt.

Definition Illegal_arguments (a b : string) : Js.Error :=
  Js.new_Error ("Illegal arguments: " +++ a +++ ", " +++ b).

(** [bcrypt.genSalt(10)] *)
Definition genSalt : M string := env <- ask ;; ret (bcrypt_genSalt env).

(** [bcrypt.hash(s, salt)]: rejects anything but a string. *)
Definition hash (s : Js.Val) (salt : string) : M string :=
  match s with
  | Js.str p => env <- ask ;; ret (bcrypt_hash env p salt)
  | _ => throw (Illegal_arguments (Js.typeof s) "string")
  end.

(** [bcrypt.compare(s, hash)]: rejects anything but two strings. *)
Definition compare (s : Js.Val) (h : Js.Val) : M bool :=
  match s, h with
  | Js.str p, Js.str h' => env <- ask ;; ret (bcrypt_compare env p h')
  | _, _ => throw (Illegal_arguments (Js.typeof s) (Js.typeof h))
  end.

End bcrypt.

(* ===================================================================== *)
(** * storage.js: the domain storage layer *)
(* ===================================================================== *)

Module storage.

(** [const dbRun = async (sql, params) => dbModule.update(sql, params)] *)
Definition dbRun (s : db.Stmt) : M Z := db.update s.

(** [const dbGet = async (sql, params) => dbModule.getOne(sql, params)] *)
Definition dbGet {R} (table : Db -> list R) (where_ : R -> bool) : M (option R) :=
  db.getOne table where_.

(** [const dbAll = async (sql, params) => dbModule.query(sql, params)] *)
Definition dbAll {R} (table : Db -> list R) (where_ : R -> bool) : M (list R) :=
  db.query table where_.

(** [result.lastID] where [result] is what [dbRun] resolved with, the
    number of changes: a number has no such property, so [undefined]. *)
Definition lastID (result : Z) : option Z := None.

(** [WHERE id = ?] with a parameter that may be [undefined]. *)
Definition id_is (param : option Z) (i : Z) : bool :=
  match param with
  | Some p => i =? p
  | None => false
  end.

(** An object of optional fields keyed by the columns of [users]:
    [undefined] where the caller gave none. *)
Definition UserData : Type := Users.Col -> Js.Val.

(** ** User operations *)

Definition getUser (id : Z) : M (option Users.Row) :=
  dbGet users (fun r => Users.id r =? id).

Definition getUserByUsername (username : Js.Val) : M (option Users.Row) :=
  dbGet users (fun r => Sql.same (Users.username r) (Sql.text (Sql.bind username))).

Definition getUserByEmail (email : Js.Val) : M (option Users.Row) :=
  dbGet users (fun r => Sql.same (Users.email r) (Sql.text (Sql.bind email))).

Definition createUser (userData : UserData) : M (option Users.Row) :=
  passwordHash <-
    (if Js.truthy (userData Users.c_password)
     then salt <- bcrypt.genSalt ;;
          h <- bcrypt.hash (userData Users.c_password) salt ;;
          ret (Sql.TEXT h)
     else ret Sql.NULL) ;;
  lastID <- db.insert
    (db.INSERT_INTO_users
       (Sql.bind (userData Users.c_username))
       passwordHash
       (Sql.bind (userData Users.c_email))
       (Sql.bind (userData Users.c_full_name))
       (Sql.bind (Js.or (userData Users.c_role) (Js.str "user")))
       (Sql.bind (Js.or (userData Users.c_avatar) Js.null))
       (Sql.bind (Js.or (userData Users.c_address) Js.null))
       (Sql.INTEGER (if Js.truthy (userData Users.c_dark_mode) then 1 else 0))) ;;
  getUser lastID.

(** The [if (userData.f !== undefined) { push; push }] step of the update
    builders: the SET list with one more assignment, or as it was. *)
Definition push_if_defined {C} (c : C) (v : Js.Val) (sets : list (C * Sql.Value))
  : list (C * Sql.Value) :=
  if Js.defined v then sets ++ [(c, Sql.bind v)] else sets.

Definition updateUser (id : Z) (userData : UserData) : M (option Users.Row) :=
  let sets := [] in
  let sets := push_if_defined Users.c_username (userData Users.c_username) sets in
  sets <-
    (if Js.truthy (userData Users.c_password)
     then salt <- bcrypt.genSalt ;;
          passwordHash <- bcrypt.hash (userData Users.c_password) salt ;;
          ret (sets ++ [(Users.c_password, Sql.TEXT passwordHash)])
     else ret sets) ;;
  let sets := push_if_defined Users.c_email (userData Users.c_email) sets in
  let sets := push_if_defined Users.c_full_name (userData Users.c_full_name) sets in
  let sets := push_if_defined Users.c_avatar (userData Users.c_avatar) sets in
  let sets := push_if_defined Users.c_address (userData Users.c_address) sets in
  let sets :=
    if Js.defined (userData Users.c_dark_mode)
    then sets ++ [(Users.c_dark_mode,
                   Sql.INTEGER (if Js.truthy (userData Users.c_dark_mode) then 1 else 0))]
    else sets in
  let sets := push_if_defined Users.c_google_id (userData Users.c_google_id) sets in
  if (length sets =? 0)%nat
  then getUser id
  else dbRun (db.UPDATE_users_SET sets id) ;;; getUser id.

Definition updateLastLogin (id : Z) : M bool :=
  dbRun (db.UPDATE_users_SET_last_login_CURRENT_TIMESTAMP id) ;;; ret true.

(** ** Watchlist operations *)

Record WatchlistItem : Type := mkItem {
  item_id : option Z;
  item_userId : Z;
  item_symbol : string;
  item_createdAt : Z
}.

Definition getUserWatchlist (userId : Z) : M (list UserWatchlist.Row) :=
  dbAll user_watchlist (fun w => UserWatchlist.user_id w =? userId).

Definition addToWatchlist (userId : Z) (symbol : string) : M WatchlistItem :=
  try_catch
    (result <- dbRun (db.INSERT_INTO_user_watchlist userId (Js.toUpperCase symbol)) ;;
     env <- ask ;;
     ret {| item_id := lastID result;
            item_userId := userId;
            item_symbol := Js.toUpperCase symbol;
            item_createdAt := now env |})
    (fun error =>
       if Js.includes (Js.message error) "UNIQUE constraint failed"
       then throw (Js.new_Error ("Stock " +++ symbol +++ " is already in your watchlist"))
       else throw error).

Definition removeFromWatchlist (userId : Z) (symbol : string) : M bool :=
  dbRun (db.DELETE_FROM_user_watchlist userId (Js.toUpperCase symbol)) ;;; ret true.

Definition isInWatchlist (userId : Z) (symbol : string) : M bool :=
  item <- dbGet user_watchlist
            (fun w => (UserWatchlist.user_id w =? userId)
                      && String.eqb (UserWatchlist.symbol w) (Js.toUpperCase symbol)) ;;
  ret (match item with Some _ => true | None => false end).

(** ** Portfolio operations *)

Definition getPortfolio (id : option Z) : M (option Portfolio.Row) :=
  dbGet portfolio (fun p => id_is id (Portfolio.id p)).

Definition updatePortfolio (id : Z) (portfolioData : Portfolio.Col -> Js.Val)
  : M (option Portfolio.Row) :=
  let sets := [] in
  let sets := push_if_defined Portfolio.c_name (portfolioData Portfolio.c_name) sets in
  let sets := push_if_defined Portfolio.c_description
                (portfolioData Portfolio.c_description) sets in
  if (length sets =? 0)%nat
  then getPortfolio (Some id)
  else dbRun (db.UPDATE_portfolio_SET sets id) ;;; getPortfolio (Some id).

Definition deletePortfolio (id : Z) : M bool :=
  dbRun (db.DELETE_FROM_portfolio id) ;;; ret true.

(** ** Portfolio positions operations *)

Record PositionData : Type := mkPositionData {
  pd_portfolio_id : Z;
  pd_symbol : string;
  pd_shares : Js.Val;
  pd_purchase_price : Js.Val;
  pd_purchase_date : Js.Val;
  pd_notes : Js.Val
}.

Definition getPortfolioPositions (portfolioId : Z) : M (list PortfolioPositions.Row) :=
  dbAll portfolio_positions (fun q => PortfolioPositions.portfolio_id q =? portfolioId).

Definition getPosition (id : option Z) : M (option PortfolioPositions.Row) :=
  dbGet portfolio_positions (fun q => id_is id (PortfolioPositions.id q)).

Definition addPosition (positionData : PositionData) : M (option PortfolioPositions.Row) :=
  env <- ask ;;
  result <- dbRun
    (db.INSERT_INTO_portfolio_positions
       (pd_portfolio_id positionData)
       (Js.toUpperCase (pd_symbol positionData))
       (Sql.bind (pd_shares positionData))
       (Sql.bind (pd_purchase_price positionData))
       (Sql.bind (Js.or (pd_purchase_date positionData) (Js.number (now env))))
       (Sql.bind (Js.or (pd_notes positionData) Js.null))) ;;
  getPosition (lastID result).

Definition updatePosition (id : Z) (positionData : PortfolioPositions.Col -> Js.Val)
  : M (option PortfolioPositions.Row) :=
  let sets := [] in
  let sets := push_if_defined PortfolioPositions.c_shares
                (positionData PortfolioPositions.c_shares) sets in
  let sets := push_if_defined PortfolioPositions.c_purchase_price
                (positionData PortfolioPositions.c_purchase_price) sets in
  let sets := push_if_defined PortfolioPositions.c_purchase_date
                (positionData PortfolioPositions.c_purchase_date) sets in
  let sets := push_if_defined PortfolioPositions.c_notes
                (positionData PortfolioPositions.c_notes) sets in
  if (length sets =? 0)%nat
  then getPosition (Some id)
  else dbRun (db.UPDATE_portfolio_positions_SET sets id) ;;; getPosition (Some id).

Definition deletePosition (id : Z) : M bool :=
  dbRun (db.DELETE_FROM_portfolio_positions id) ;;; ret true.

(** ** API logging operations *)

Record LogData : Type := mkLogData {
  ld_userId : Js.Val;
  ld_endpoint : string;
  ld_requestTime : Js.Val;
  ld_responseTime : Z;
  ld_success : Js.Val;
  ld_errorMessage : Js.Val
}.

Definition logApiRequest (logData : LogData) : M (option Z) :=
  env <- ask ;;
  result <- dbRun
    (db.INSERT_INTO_api_logs
       (Sql.bind (Js.or (ld_userId logData) Js.null))
       (ld_endpoint logData)
       (match Js.or (ld_requestTime logData) (Js.number (now env)) with
        | Js.number t => t
        | _ => now env
        end)
       (ld_responseTime logData)
       (if Js.truthy (ld_success logData) then 1 else 0)
       (Sql.bind (Js.or (ld_errorMessage logData) Js.null))) ;;
  ret (lastID result).

(** ** Admin operations: restricted and featured stocks *)

Record RestrictedStockData : Type := mkRestrictedStockData {
  rs_symbol : string;
  rs_reason : Js.Val;
  rs_added_by : Z
}.


Definition getRestrictedStocks : M (list RestrictedStocks.Row) :=
  dbAll restricted_stocks (fun _ => true).

Definition addRestrictedStock (stockData : RestrictedStockData) : M Js.Json :=
  result <- dbRun
    (db.INSERT_INTO_restricted_stocks
       (Js.toUpperCase (rs_symbol stockData))
       (Sql.bind (Js.or (rs_reason stockData) Js.null))
       (rs_added_by stockData)) ;;
  env <- ask ;;
  ret (Js.JObj
         [("id", Js.J (match lastID result with
                       | Some i => Js.number i
                       | None => Js.undefined
                       end));
          ("symbol", Js.J (Js.str (Js.toUpperCase (rs_symbol stockData))));
          ("reason", Js.J (rs_reason stockData));
          ("added_by", Js.J (Js.number (rs_added_by stockData)));
          ("added_at", Js.J (Js.number (now env)))]%string).


(** ** Operations the routers use besides *)

Definition getUserByGoogleId (googleId : Js.Val) : M (option Users.Row) :=
  dbGet users (fun r => Sql.same (Users.google_id r) (Sql.text (Sql.bind googleId))).

Definition getUserPortfolios (userId : Z) : M (list Portfolio.Row) :=
  dbAll portfolio (fun p => Portfolio.user_id p =? userId).

(** [createPortfolio({ user_id, name, description })] *)
Definition createPortfolio (user_id : Z) (name description : Js.Val)
  : M (option Portfolio.Row) :=
  result <- db2.update
    (db2.INSERT_INTO_portfolio user_id (Sql.bind name)
                               (Sql.bind (Js.or description Js.null))) ;;
  getPortfolio (lastID result).

Definition removeRestrictedStock (id : Z) : M bool :=
  db2.update (db2.DELETE_FROM_restricted_stocks id) ;;; ret true.

End storage.

(* ===================================================================== *)
(** * express: what a handler does with a request *)
(* ===================================================================== *)

Module express.

Record Response : Type := mkResponse { statusCode : Z; body : Js.Json }.

(** A handler answers, hands an error to [next], or redirects. *)
Inductive Outcome : Type :=
| Sent (r : Response)
| Next (e : Js.Error)
| Redirect (url : string).

(** [res.status(code).json(body)]; [res.json(body)] is [json 200 body]. *)
Definition json (code : Z) (b : Js.Json) : Outcome := Sent (mkResponse code b).

(** [{ success: false, message }] *)
Definition failure (message : string) : Js.Json :=
  Js.JObj [("success", Js.J (Js.boolean false));
           ("message", Js.J (Js.str message))]%string.

(** [{ error }] and [{ error, message }] *)
Definition error1 (error : string) : Js.Json :=
  Js.JObj [("error", Js.J (Js.str error))]%string.

Definition error2 (error message : string) : Js.Json :=
  Js.JObj [("error", Js.J (Js.str error));
           ("message", Js.J (Js.str message))]%string.

(** [{ success: true, message }] *)
Definition success (message : string) : Js.Json :=
  Js.JObj [("success", Js.J (Js.boolean true));
           ("message", Js.J (Js.str message))]%string.

(** The status and the [message] field of what was sent, for statements. *)
Definition status_of (o : Outcome) : option Z :=
  match o with
  | Sent r => Some (statusCode r)
  | _ => None
  end.

Definition message_of (o : Outcome) : option string :=
  match o with
  | Sent r =>
      match Js.get (body r) "message" with
      | Js.J (Js.str m) => Some m
      | _ => None
      end
  | _ => None
  end.

End express.

(** [v.toUpperCase()] on a request field: a [TypeError] unless a string. *)
Definition toUpperCase_of (what : string) (v : Js.Val) : M string :=
  match v with
  | Js.str s => ret (Js.toUpperCase s)
  | _ => throw (Js.not_a_function (what +++ ".toUpperCase"))
  end.

(** A request field handed to a storage function that calls a string
    method on it first thing. *)
Definition string_of (what : string) (v : Js.Val) : M string :=
  match v with
  | Js.str s => ret s
  | _ => throw (Js.not_a_function (what +++ ".toUpperCase"))
  end.

(* ===================================================================== *)
(** * services/fmp-api.js: the market-data client *)
(* ===================================================================== *)

Module fmpApi.

(** [await fmpClient.get(url)] *)
Definition fmpClient_get (url : string) : M Js.Json :=
  fun env d =>
    match fmp_get env url with
    | Axios.Resolved data => (Returned data, d)
    | Axios.Rejected e => (Thrown e, d)
    end.

Definition logApiRequest (userId : Js.Val) (endpoint : string) (success : bool)
    (responseTime : Z) (errorMessage : Js.Val) : M unit :=
  env <- ask ;;
  try_catch
    (storage.logApiRequest
       {| storage.ld_userId := userId;
          storage.ld_endpoint := endpoint;
          storage.ld_requestTime := Js.number (now env);
          storage.ld_responseTime := responseTime;
          storage.ld_success := Js.number (if success then 1 else 0);
          storage.ld_errorMessage := errorMessage |} ;;;
     ret tt)
    (fun _ => ret tt).

Definition rate_limit_message : string :=
  "API rate limit reached. Please try again later.".

(** The [catch (error)] block the six fetchers share, up to the wording
    [what] of the final message. *)
Definition failed {A} (userId : Js.Val) (endpoint what : string) (error : Js.Error)
  : M A :=
  env <- ask ;;
  let responseTime := latency env in
  let errorMessage := Js.or (Js.response_data_error error) (Js.str (Js.message error)) in
  logApiRequest userId endpoint false responseTime errorMessage ;;;
  limited <-
    (if Js.response_status_is error 429 then ret true
     else match errorMessage with
          | Js.str m => ret (Js.includes m "Limit Reach")
          | Js.undefined | Js.null => ret false
          | _ => throw (Js.not_a_function "errorMessage?.includes")
          end) ;;
  if limited : bool
  then throw (Js.new_Error rate_limit_message)
  else throw (Js.new_Error (what +++ ": " +++ Js.toString errorMessage)).

(** [response.data[0]] *)
Definition first_of (data : Js.Json) : M Js.Json :=
  match data with
  | Js.J Js.undefined =>
      throw (Js.new_Error "Cannot read properties of undefined (reading '0')")
  | Js.J Js.null =>
      throw (Js.new_Error "Cannot read properties of null (reading '0')")
  | Js.J (Js.str (String c _)) => ret (Js.J (Js.str (String c EmptyString)))
  | _ => ret (Js.index0 data)
  end.

Definition fetchStockQuote (symbol : Js.Val) (userId : Js.Val) : M Js.Json :=
  if negb (Js.truthy symbol) then ret (Js.J Js.null)
  else
    try_catch
      (env <- ask ;;
       data <- fmpClient_get ("/quote/" +++ Js.toString symbol) ;;
       logApiRequest userId ("/api/stocks/quote/" +++ Js.toString symbol)
                     true (latency env) Js.null ;;;
       x <- first_of data ;;
       ret (Js.or_json x (Js.J Js.null)))
      (failed userId ("/api/stocks/quote/" +++ Js.toString symbol)
              "Error fetching stock quote").

Definition fetchCompanyProfile (symbol : Js.Val) (userId : Js.Val) : M Js.Json :=
  if negb (Js.truthy symbol) then ret (Js.J Js.null)
  else
    try_catch
      (env <- ask ;;
       data <- fmpClient_get ("/profile/" +++ Js.toString symbol) ;;
       logApiRequest userId ("/api/stocks/profile/" +++ Js.toString symbol)
                     true (latency env) Js.null ;;;
       x <- first_of data ;;
       ret (Js.or_json x (Js.J Js.null)))
      (failed userId ("/api/stocks/profile/" +++ Js.toString symbol)
              "Error fetching company profile").

Definition fetchHistoricalData (symbol : Js.Val) (userId : Js.Val) : M Js.Json :=
  if negb (Js.truthy symbol) then ret (Js.J Js.null)
  else
    try_catch
      (env <- ask ;;
       data <- fmpClient_get
                 ("/historical-price-full/" +++ Js.toString symbol +++ "?serietype=line") ;;
       logApiRequest userId ("/api/stocks/historical/" +++ Js.toString symbol)
                     true (latency env) Js.null ;;;
       ret (Js.or_json data (Js.J Js.null)))
      (failed userId ("/api/stocks/historical/" +++ Js.toString symbol)
              "Error fetching historical data").

Definition searchStocks (query : string) (userId : Js.Val) : M Js.Json :=
  if negb (Js.truthy (Js.str query)) || Js.shorter_than_2 query then ret (Js.JArr [])
  else
    try_catch
      (env <- ask ;;
       data <- fmpClient_get
                 ("/search?query=" +++ encodeURIComponent env query +++ "&limit=10") ;;
       logApiRequest userId ("/api/stocks/search?query=" +++ query)
                     true (latency env) Js.null ;;;
       ret (Js.or_json data (Js.JArr [])))
      (failed userId ("/api/stocks/search?query=" +++ query)
              "Error searching stocks").

(** [indices.join(',')] for the five indices of the summary. *)
Definition indices : string := "^GSPC,^DJI,^IXIC,^RUT,^VIX".

Definition fetchMarketSummary (userId : Js.Val) : M Js.Json :=
  try_catch
    (env <- ask ;;
     data <- fmpClient_get ("/quote/" +++ indices) ;;
     logApiRequest userId "/api/stocks/market-summary" true (latency env) Js.null ;;;
     ret (Js.or_json data (Js.JArr [])))
    (failed userId "/api/stocks/market-summary" "Error fetching market summary").

(** [`/api/news${symbol ? `?symbol=${symbol}` : ''}`] *)
Definition news_endpoint (symbol : Js.Val) : string :=
  "/api/news" +++ (if Js.truthy symbol then "?symbol=" +++ Js.toString symbol else "").

Definition fetchFinancialNews (symbol : Js.Val) (userId : Js.Val) : M Js.Json :=
  try_catch
    (env <- ask ;;
     endpoint <-
       (if Js.truthy symbol
        then s <- toUpperCase_of "symbol" symbol ;;
             ret ("/stock_news?tickers=" +++ s +++ "&limit=10")
        else ret "/stock_news?limit=20"%string) ;;
     data <- fmpClient_get endpoint ;;
     logApiRequest userId (news_endpoint symbol) true (latency env) Js.null ;;;
     ret (Js.or_json data (Js.JArr [])))
    (failed userId (news_endpoint symbol) "Error fetching financial news").

End fmpApi.

(* ===================================================================== *)
(** * auth.js: passport configuration and middleware *)
(* ===================================================================== *)

Module auth.

(** What a strategy's verify function passes to [done]. *)
Inductive Done : Type :=
| done_error (e : Js.Error)
| done_fail (message : string)
| done_user (user : Users.Row).

(** [const { password, ...userWithoutPassword } = user] *)
Definition userWithoutPassword (user : Users.Row) : Js.Json :=
  Js.JObj (Js.without "password" (Users.to_json user)).

(** The verify callback of the [LocalStrategy]. The row it passes on
    stands for [userWithoutPassword]: its readers project the password
    away. *)
Definition local_verify (username password : Js.Val) : M Done :=
  try_catch
    (user <- storage.getUserByUsername username ;;
     match user with
     | None => ret (done_fail "Incorrect username")
     | Some user =>
         isMatch <-
           (if Js.truthy (Sql.unbind (Users.password user))
            then bcrypt.compare password (Sql.unbind (Users.password user))
            else ret false) ;;
         if isMatch : bool
         then storage.updateLastLogin (Users.id user) ;;;
              ret (done_user user)
         else ret (done_fail "Incorrect password")
     end)
    (fun error => ret (done_error error)).

(** passport-local reads the two fields off the body and fails the
    attempt itself when one is missing. *)
Definition local_authenticate (username password : Js.Val) : M Done :=
  if negb (Js.truthy username) || negb (Js.truthy password)
  then ret (done_fail "Missing credentials")
  else local_verify username password.

(** [req.logIn(user, callback)]: the error handed to the callback. *)
Definition logIn : M (option Js.Error) := env <- ask ;; ret (logIn_error env).

(** [ensureAuthenticated]: [req_user] is the deserialized session user;
    [api] tells whether the request looks like an API call. *)
Definition ensureAuthenticated (api : bool) (req_user : option Users.Row)
    (next : Users.Row -> M express.Outcome) : M express.Outcome :=
  match req_user with
  | Some user => next user
  | None =>
      if api
      then ret (express.json 401
                  (Js.JObj [("success", Js.J (Js.boolean false));
                            ("error", Js.J (Js.str "Unauthorized"))]%string))
      else ret (express.Redirect "/login")
  end.

(** What the Google strategy reads off the profile: [profile.id],
    [profile.displayName], [profile.emails[0].value] and
    [profile.photos[0].value], each of the last two [None] when the
    array is missing or empty. *)
Record Profile : Type := mkProfile {
  profile_id : string;
  displayName : string;
  first_email : option Js.Val;
  first_photo : option Js.Val
}.

(** [`${usernameBase}_${profile.id.substring(0, 5)}`] *)
Definition google_username (profile : Profile) : string :=
  Js.toLowerCase (Js.strip_spaces (displayName profile))
  +++ "_" +++ Js.substring0 5 (profile_id profile).

(** [user] where [user.id] is read next: a [TypeError] on [undefined]. *)
Definition defined_user (user : option Users.Row) : M Users.Row :=
  match user with
  | Some u => ret u
  | None => throw (Js.new_Error "Cannot read properties of undefined (reading 'id')")
  end.

(** The verify callback of the [GoogleStrategy]. *)
Definition google_verify (profile : Profile) : M Done :=
  try_catch
    (user <- storage.getUserByGoogleId (Js.str (profile_id profile)) ;;
     let email := match first_email profile with
                  | Some v => v
                  | None => Js.null
                  end in
     user <-
       match user with
       | Some _ => ret user
       | None =>
           user <-
             (if Js.truthy email
              then user <- storage.getUserByEmail email ;;
                   match user with
                   | Some u =>
                       storage.updateUser (Users.id u)
                         (fun c => match c with
                                   | Users.c_google_id => Js.str (profile_id profile)
                                   | _ => Js.undefined
                                   end)
                   | None => ret None
                   end
              else ret None) ;;
           match user with
           | Some _ => ret user
           | None =>
               storage.createUser
                 (fun c => match c with
                           | Users.c_username => Js.str (google_username profile)
                           | Users.c_email =>
                               Js.or email (Js.str (profile_id profile +++ "@google.user"))
                           | Users.c_full_name => Js.str (displayName profile)
                           | Users.c_avatar =>
                               match first_photo profile with
                               | Some v => v
                               | None => Js.null
                               end
                           | Users.c_google_id => Js.str (profile_id profile)
                           | Users.c_role => Js.str "user"
                           | _ => Js.undefined
                           end)
           end
       end ;;
     user <- defined_user user ;;
     storage.updateLastLogin (Users.id user) ;;;
     ret (done_user user))
    (fun error => ret (done_error error)).

(** [authorize(roles)] *)
Definition authorize (roles : list string) (req_user : option Users.Row)
    (next : Users.Row -> M express.Outcome) : M express.Outcome :=
  match req_user with
  | None => ret (express.json 401 (express.error1 "Unauthorized"))
  | Some user =>
      if (length roles =? 0)%nat then next user
      else if existsb (fun r => Sql.eqb (Users.role user) (Sql.TEXT r)) roles
      then next user
      else ret (express.json 403 (express.error1 "Forbidden"))
  end.

End auth.

(* ===================================================================== *)
(** * app.js: the error handler mounted on /api *)
(* ===================================================================== *)

Module app.

(** [app.use('/api', function (err, req, res, next) { ... })] *)
Definition api_error_handler (err : Js.Error) : M express.Response :=
  env <- ask ;;
  let statusCode :=
    match Js.status err with
    | Some st => if st =? 0 then 500 else st
    | None => 500
    end in
  ret (express.mkResponse statusCode
         (Js.JObj
            [("success", Js.J (Js.boolean false));
             ("message", Js.J (Js.or (Js.str (Js.message err))
                                     (Js.str "Internal Server Error")));
             ("error", if development env then inspect env err
                       else Js.JObj [("message", Js.J (Js.str "An error occurred"))])
            ]%string)).

(** A router mounted under /api: what its handler sends, or what the
    error handler sends for the error it passed to [next]. *)
Definition under_api (handler : M express.Outcome) : M express.Outcome :=
  o <- handler ;;
  match o with
  | express.Next e => r <- api_error_handler e ;; ret (express.Sent r)
  | _ => ret o
  end.

End app.

(* ===================================================================== *)
(** * routes/stock-api.js *)
(* ===================================================================== *)

Module routes_stock_api.

(** [GET /api/stocks/quote/:symbol] *)
Definition GET_quote (user : Users.Row) (params_symbol : string) : M express.Outcome :=
  try_catch
    (let symbol := Js.toUpperCase params_symbol in
     quote <- fmpApi.fetchStockQuote (Js.str symbol) (Js.number (Users.id user)) ;;
     if negb (Js.truthy_json quote)
     then ret (express.json 404
                 (express.failure ("No quote data found for symbol: " +++ symbol)))
     else ret (express.json 200 quote))
    (fun error => ret (express.Next error)).

(** [GET /api/stocks/profile/:symbol] *)
Definition GET_profile (user : Users.Row) (params_symbol : string) : M express.Outcome :=
  try_catch
    (let symbol := Js.toUpperCase params_symbol in
     profile <- fmpApi.fetchCompanyProfile (Js.str symbol) (Js.number (Users.id user)) ;;
     if negb (Js.truthy_json profile)
     then ret (express.json 404
                 (express.failure ("No company profile found for symbol: " +++ symbol)))
     else ret (express.json 200 profile))
    (fun error => ret (express.Next error)).

(** [GET /api/stocks/historical/:symbol] *)
Definition GET_historical (user : Users.Row) (params_symbol : string)
  : M express.Outcome :=
  try_catch
    (let symbol := Js.toUpperCase params_symbol in
     historicalData <-
       fmpApi.fetchHistoricalData (Js.str symbol) (Js.number (Users.id user)) ;;
     if negb (Js.truthy_json historicalData)
     then ret (express.json 404
                 (express.failure ("No historical data found for symbol: " +++ symbol)))
     else ret (express.json 200 historicalData))
    (fun error => ret (express.Next error)).

(** [GET /api/stocks/search?query=]; a query string parameter is a
    string or absent. *)
Definition GET_search (user : Users.Row) (query : option string) : M express.Outcome :=
  try_catch
    (match query with
     | None =>
         ret (express.json 400
                (express.failure "Search query must be at least 2 characters long"))
     | Some q =>
         if negb (Js.truthy (Js.str q)) || Js.shorter_than_2 q
         then ret (express.json 400
                     (express.failure "Search query must be at least 2 characters long"))
         else results <- fmpApi.searchStocks q (Js.number (Users.id user)) ;;
              ret (express.json 200 results)
     end)
    (fun error => ret (express.Next error)).

(** The four market-data read endpoints, as the application serves them:
    the router's handler, then the error handler of /api. *)
Inductive Endpoint : Type := quote | profile | historical | search.

Definition serve (e : Endpoint) (user : Users.Row) (arg : string) : M express.Outcome :=
  app.under_api
    (match e with
     | quote => GET_quote user arg
     | profile => GET_profile user arg
     | historical => GET_historical user arg
     | search => GET_search user (Some arg)
     end).

(** [GET /api/stocks/market-summary] *)
Definition GET_market_summary (user : Users.Row) : M express.Outcome :=
  try_catch
    (marketSummary <- fmpApi.fetchMarketSummary (Js.number (Users.id user)) ;;
     ret (express.json 200 marketSummary))
    (fun error => ret (express.Next error)).

(** [GET /api/stocks/news/:symbol?], the parameter [undefined] when the
    path has none. *)
Definition GET_news (user : Users.Row) (params_symbol : option string)
  : M express.Outcome :=
  try_catch
    (let symbol := match params_symbol with
                   | Some s => Js.str s
                   | None => Js.undefined
                   end in
     news <- fmpApi.fetchFinancialNews symbol (Js.number (Users.id user)) ;;
     ret (express.json 200 news))
    (fun error => ret (express.Next error)).

End routes_stock_api.

(* ===================================================================== *)
(** * routes/watchlist.js *)
(* ===================================================================== *)

Module routes_watchlist.

(** [restrictedStocks.some(stock =>
       stock.symbol.toUpperCase() === symbol.toUpperCase())] *)
Fixpoint some_restricted (restrictedStocks : list RestrictedStocks.Row) (symbol : Js.Val)
  : M bool :=
  match restrictedStocks with
  | [] => ret false
  | stock :: rest =>
      s <- toUpperCase_of "symbol" symbol ;;
      if String.eqb (Js.toUpperCase (RestrictedStocks.symbol stock)) s
      then ret true
      else some_restricted rest symbol
  end.

(** [POST /api/watchlist/items] with [req.body.symbol] *)
Definition POST_items (user : Users.Row) (body_symbol : Js.Val) : M express.Outcome :=
  try_catch
    (let userId := Users.id user in
     let symbol := body_symbol in
     if negb (Js.truthy symbol)
     then ret (express.json 400 (express.failure "Stock symbol is required"))
     else
       try_catch
         (stockData <- fmpApi.fetchStockQuote symbol (Js.number userId) ;;
          if negb (Js.truthy_json stockData)
          then ret (express.json 404
                      (express.failure ("Invalid stock symbol: " +++ Js.toString symbol)))
          else
            restrictedStocks <- storage.getRestrictedStocks ;;
            isRestricted <- some_restricted restrictedStocks symbol ;;
            if isRestricted : bool
            then ret (express.json 403
                        (express.failure
                           ("Stock " +++ Js.toString symbol
                            +++ " is restricted and cannot be added to watchlists.")))
            else
              s <- string_of "symbol" symbol ;;
              item <- storage.addToWatchlist userId s ;;
              ret (express.json 201
                     (Js.JObj
                        [("id", Js.J (match storage.item_id item with
                                      | Some i => Js.number i
                                      | None => Js.undefined
                                      end));
                         ("symbol", Js.J (Js.str (storage.item_symbol item)));
                         ("createdAt", Js.J (Js.number (storage.item_createdAt item)));
                         ("price", Js.get stockData "price");
                         ("name", Js.get stockData "name");
                         ("change", Js.get stockData "changesPercentage")]%string)))
         (fun error =>
            if Js.includes (Js.message error) "API rate limit"
            then ret (express.json 429 (express.failure (Js.message error)))
            else ret (express.json 500
                        (express.failure
                           ("Error adding stock to watchlist: " +++ Js.message error)))))
    (fun error =>
       if Js.includes (Js.message error) "already in your watchlist"
       then ret (express.json 400 (express.failure (Js.message error)))
       else ret (express.Next error)).

(** [DELETE /api/watchlist/items/:symbol] *)
Definition DELETE_items (user : Users.Row) (params_symbol : string) : M express.Outcome :=
  try_catch
    (storage.removeFromWatchlist (Users.id user) params_symbol ;;;
     ret (express.json 200 (express.success (params_symbol +++ " removed from watchlist"))))
    (fun error => ret (express.Next error)).

(** [GET /api/watchlist/check/:symbol] *)
Definition GET_check (user : Users.Row) (params_symbol : string) : M express.Outcome :=
  try_catch
    (isInWatchlist <- storage.isInWatchlist (Users.id user) params_symbol ;;
     ret (express.json 200
            (Js.JObj [("symbol", Js.J (Js.str params_symbol));
                      ("isInWatchlist", Js.J (Js.boolean isInWatchlist))]%string)))
    (fun error => ret (express.Next error)).

(** [Promise.all(items.map(f))], the callbacks run one after the other:
    what each returns does not depend on the others here. *)
Fixpoint traverse {A B} (f : A -> M B) (items : list A) : M (list B) :=
  match items with
  | [] => ret []
  | x :: rest => y <- f x ;; ys <- traverse f rest ;; ret (y :: ys)
  end.

(** The entry of [GET /items] for a row when the quote cannot be had. *)
Definition basic_info (item : UserWatchlist.Row) : Js.Json :=
  Js.JObj [("id", Js.J (Js.number (UserWatchlist.id item)));
           ("symbol", Js.J (Js.str (UserWatchlist.symbol item)));
           ("createdAt", Js.J (Js.number (UserWatchlist.created_at item)))]%string.

(** [GET /api/watchlist/items] *)
Definition GET_items (user : Users.Row) : M express.Outcome :=
  try_catch
    (let userId := Users.id user in
     watchlist <- storage.getUserWatchlist userId ;;
     watchlistWithDetails <-
       traverse
         (fun item =>
            try_catch
              (stockData <- fmpApi.fetchStockQuote (Js.str (UserWatchlist.symbol item))
                                                   (Js.number userId) ;;
               ret (Js.JObj
                      [("id", Js.J (Js.number (UserWatchlist.id item)));
                       ("symbol", Js.J (Js.str (UserWatchlist.symbol item)));
                       ("createdAt", Js.J (Js.number (UserWatchlist.created_at item)));
                       ("price", Js.or_json (Js.get stockData "price") (Js.J Js.null));
                       ("name", Js.or_json (Js.get stockData "name") (Js.J Js.null));
                       ("change", Js.or_json (Js.get stockData "changesPercentage")
                                             (Js.J Js.null))]%string))
              (fun _ => ret (basic_info item)))
         watchlist ;;
     ret (express.json 200 (Js.JArr watchlistWithDetails)))
    (fun error => ret (express.Next error)).

End routes_watchlist.

(* ===================================================================== *)
(** * routes/portfolio.js *)
(* ===================================================================== *)

Module routes_portfolio.

Definition json_opt {R} (to_json : R -> Js.Json) (r : option R) : Js.Json :=
  match r with
  | Some x => to_json x
  | None => Js.J Js.undefined
  end.

(** The check every portfolio-scoped handler opens its [try] with: load
    the portfolio, 404 when there is none, 403 when it is another
    user's, and only then [next]. *)
Definition with_own_portfolio (user : Users.Row) (portfolioId : Z)
    (next : Portfolio.Row -> M express.Outcome) : M express.Outcome :=
  portfolio <- storage.getPortfolio (Some portfolioId) ;;
  match portfolio with
  | None => ret (express.json 404 (express.error1 "Portfolio not found"))
  | Some p =>
      if negb (Portfolio.user_id p =? Users.id user)
      then ret (express.json 403 (express.error1 "Access denied"))
      else next p
  end.

(** [catch (error)] of a handler: 500 with the handler's own wording. *)
Definition failing (what : string) (c : M express.Outcome) : M express.Outcome :=
  try_catch c
    (fun error => ret (express.json 500 (express.error2 what (Js.message error)))).

(** Path parameters arrive parsed: [parseInt(req.params.id)], [None] for
    [NaN]. *)

(** [GET /:id] *)
Definition GET_id (user : Users.Row) (portfolioId : option Z) : M express.Outcome :=
  match portfolioId with
  | None => ret (express.json 400 (express.error1 "Invalid portfolio ID"))
  | Some portfolioId =>
      failing "Failed to fetch portfolio"
        (with_own_portfolio user portfolioId (fun portfolio =>
           positions <- storage.getPortfolioPositions portfolioId ;;
           ret (express.json 200
                  (Js.JObj (Portfolio.fields portfolio
                            ++ [("positions"%string,
                                 Js.JArr (map PortfolioPositions.to_json positions))])))))
  end.

(** [PUT /:id] with [req.body.name] and [req.body.description] *)
Definition PUT_id (user : Users.Row) (portfolioId : option Z) (name description : Js.Val)
  : M express.Outcome :=
  match portfolioId with
  | None => ret (express.json 400 (express.error1 "Invalid portfolio ID"))
  | Some portfolioId =>
      failing "Failed to update portfolio"
        (with_own_portfolio user portfolioId (fun _ =>
           updatedPortfolio <-
             storage.updatePortfolio portfolioId
               (fun c => match c with
                         | Portfolio.c_name => name
                         | Portfolio.c_description => description
                         end) ;;
           ret (express.json 200 (json_opt Portfolio.to_json updatedPortfolio))))
  end.

(** [DELETE /:id] *)
Definition DELETE_id (user : Users.Row) (portfolioId : option Z) : M express.Outcome :=
  match portfolioId with
  | None => ret (express.json 400 (express.error1 "Invalid portfolio ID"))
  | Some portfolioId =>
      failing "Failed to delete portfolio"
        (with_own_portfolio user portfolioId (fun _ =>
           storage.deletePortfolio portfolioId ;;;
           ret (express.json 200 (express.success "Portfolio deleted successfully"))))
  end.

(** [GET /:id/positions] *)
Definition GET_positions (user : Users.Row) (portfolioId : option Z) : M express.Outcome :=
  match portfolioId with
  | None => ret (express.json 400 (express.error1 "Invalid portfolio ID"))
  | Some portfolioId =>
      failing "Failed to fetch positions"
        (with_own_portfolio user portfolioId (fun _ =>
           positions <- storage.getPortfolioPositions portfolioId ;;
           ret (express.json 200 (Js.JArr (map PortfolioPositions.to_json positions)))))
  end.

(** The body of a position request. *)
Record PositionBody : Type := mkPositionBody {
  symbol : Js.Val;
  shares : Js.Val;
  purchase_price : Js.Val;
  purchase_date : Js.Val;
  notes : Js.Val
}.

(** [POST /:id/positions] *)
Definition POST_positions (user : Users.Row) (portfolioId : option Z) (body : PositionBody)
  : M express.Outcome :=
  match portfolioId with
  | Some portfolioId =>
      if negb (Js.truthy (symbol body)) || negb (Js.truthy (shares body))
         || negb (Js.truthy (purchase_price body))
      then ret (express.json 400
                  (express.error1 "Missing required fields: symbol, shares, purchase_price"))
      else
        failing "Failed to add position"
          (with_own_portfolio user portfolioId (fun _ =>
             s <- string_of "positionData.symbol" (symbol body) ;;
             position <-
               storage.addPosition
                 {| storage.pd_portfolio_id := portfolioId;
                    storage.pd_symbol := s;
                    storage.pd_shares := shares body;
                    storage.pd_purchase_price := purchase_price body;
                    storage.pd_purchase_date := purchase_date body;
                    storage.pd_notes := notes body |} ;;
             ret (express.json 201 (json_opt PortfolioPositions.to_json position))))
  | None =>
      ret (express.json 400
             (express.error1 "Missing required fields: symbol, shares, purchase_price"))
  end.

(** The second check of the two position handlers: the position exists
    and belongs to the portfolio of the path. *)
Definition with_position_of (portfolioId positionId : Z)
    (next : PortfolioPositions.Row -> M express.Outcome) : M express.Outcome :=
  position <- storage.getPosition (Some positionId) ;;
  match position with
  | None => ret (express.json 404 (express.error1 "Position not found"))
  | Some q =>
      if negb (PortfolioPositions.portfolio_id q =? portfolioId)
      then ret (express.json 400
                  (express.error1 "Position does not belong to this portfolio"))
      else next q
  end.

(** [PUT /:portfolioId/positions/:id] *)
Definition PUT_position (user : Users.Row) (portfolioId positionId : option Z)
    (body : PositionBody) : M express.Outcome :=
  match portfolioId, positionId with
  | Some portfolioId, Some positionId =>
      failing "Failed to update position"
        (with_own_portfolio user portfolioId (fun _ =>
           with_position_of portfolioId positionId (fun _ =>
             updatedPosition <-
               storage.updatePosition positionId
                 (fun c => match c with
                           | PortfolioPositions.c_shares => shares body
                           | PortfolioPositions.c_purchase_price => purchase_price body
                           | PortfolioPositions.c_purchase_date => purchase_date body
                           | PortfolioPositions.c_notes => notes body
                           end) ;;
             ret (express.json 200
                    (json_opt PortfolioPositions.to_json updatedPosition)))))
  | _, _ => ret (express.json 400 (express.error1 "Invalid portfolio or position ID"))
  end.

(** [DELETE /:portfolioId/positions/:id] *)
Definition DELETE_position (user : Users.Row) (portfolioId positionId : option Z)
  : M express.Outcome :=
  match portfolioId, positionId with
  | Some portfolioId, Some positionId =>
      failing "Failed to delete position"
        (with_own_portfolio user portfolioId (fun _ =>
           with_position_of portfolioId positionId (fun _ =>
             storage.deletePosition positionId ;;;
             ret (express.json 200 (express.success "Position deleted successfully")))))
  | _, _ => ret (express.json 400 (express.error1 "Invalid portfolio or position ID"))
  end.

(** The portfolio-scoped requests of the router, each with what it
    carries besides the portfolio id of its path. *)
Inductive Scoped : Type :=
| get_portfolio
| put_portfolio (name description : Js.Val)
| delete_portfolio
| get_positions
| post_position (body : PositionBody)
| put_position (positionId : option Z) (body : PositionBody)
| delete_position (positionId : option Z).

Definition handle (user : Users.Row) (portfolioId : option Z) (r : Scoped)
  : M express.Outcome :=
  match r with
  | get_portfolio => GET_id user portfolioId
  | put_portfolio name description => PUT_id user portfolioId name description
  | delete_portfolio => DELETE_id user portfolioId
  | get_positions => GET_positions user portfolioId
  | post_position body => POST_positions user portfolioId body
  | put_position positionId body => PUT_position user portfolioId positionId body
  | delete_position positionId => DELETE_position user portfolioId positionId
  end.

(** Step (1) of a handler, before storage is touched: the path ids parse
    and, for a new position, the required body fields are there. *)
Definition well_formed (portfolioId : option Z) (r : Scoped) : bool :=
  match portfolioId with
  | None => false
  | Some _ =>
      match r with
      | post_position body =>
          Js.truthy (symbol body) && Js.truthy (shares body)
          && Js.truthy (purchase_price body)
      | put_position None _ | delete_position None => false
      | _ => true
      end
  end.

(** [GET /] *)
Definition GET_all (user : Users.Row) : M express.Outcome :=
  failing "Failed to fetch portfolios"
    (portfolios <- storage.getUserPortfolios (Users.id user) ;;
     ret (express.json 200 (Js.JArr (map Portfolio.to_json portfolios)))).

(** [POST /] with [req.body.name] and [req.body.description] *)
Definition POST_create (user : Users.Row) (name description : Js.Val)
  : M express.Outcome :=
  if negb (Js.truthy name)
  then ret (express.json 400 (express.error1 "Missing required field: name"))
  else
    failing "Failed to create portfolio"
      (portfolio <- storage.createPortfolio (Users.id user) name description ;;
       ret (express.json 201 (json_opt Portfolio.to_json portfolio))).

End routes_portfolio.

(* ===================================================================== *)
(** * routes/auth.js *)
(* ===================================================================== *)

Module routes_auth.

(** [{ success: true, user }] *)
Definition success_user (user : Js.Json) : Js.Json :=
  Js.JObj [("success", Js.J (Js.boolean true)); ("user", user)]%string.

(** [const { password: _, ...userWithoutPassword } = user], a [TypeError]
    when [user] is [undefined]. *)
Definition strip_password (user : option Users.Row) : M Js.Json :=
  match user with
  | Some u => ret (auth.userWithoutPassword u)
  | None => throw (Js.new_Error "Cannot destructure 'undefined' as it is undefined.")
  end.

(** [POST /auth/login] with [req.body.username] and [req.body.password] *)
Definition POST_login (username password : Js.Val) : M express.Outcome :=
  d <- auth.local_authenticate username password ;;
  match d with
  | auth.done_error err => ret (express.Next err)
  | auth.done_fail message =>
      ret (express.json 401
             (express.failure
                (Js.toString (Js.or (Js.str message) (Js.str "Authentication failed")))))
  | auth.done_user user =>
      err <- auth.logIn ;;
      match err with
      | Some err => ret (express.Next err)
      | None =>
          env <- ask ;;
          try_catch
            (storage.updateUser (Users.id user)
               (fun c => match c with
                         | Users.c_last_login => Js.number (now env)
                         | _ => Js.undefined
                         end) ;;;
             ret tt)
            (fun _ => ret tt) ;;;
          ret (express.json 200 (success_user (auth.userWithoutPassword user)))
      end
  end.

(** [POST /auth/register] with the four fields of [req.body] *)
Definition POST_register (username email password fullName : Js.Val)
  : M express.Outcome :=
  try_catch
    (if negb (Js.truthy username) || negb (Js.truthy email)
        || negb (Js.truthy password) || negb (Js.truthy fullName)
     then ret (express.json 400 (express.failure "All fields are required"))
     else
       existingUsername <- storage.getUserByUsername username ;;
       match existingUsername with
       | Some _ => ret (express.json 400 (express.failure "Username already taken"))
       | None =>
           existingEmail <- storage.getUserByEmail email ;;
           match existingEmail with
           | Some _ =>
               ret (express.json 400 (express.failure "Email already registered"))
           | None =>
               user <- storage.createUser
                         (fun c => match c with
                                   | Users.c_username => username
                                   | Users.c_email => email
                                   | Users.c_password => password
                                   | Users.c_full_name => fullName
                                   | Users.c_role => Js.str "user"
                                   | _ => Js.undefined
                                   end) ;;
               userWithoutPassword <- strip_password user ;;
               err <- auth.logIn ;;
               match err with
               | Some err => ret (express.Next err)
               | None => ret (express.json 200 (success_user userWithoutPassword))
               end
           end
       end)
    (fun _ =>
       ret (express.json 500 (express.failure "An error occurred during registration"))).

(** [PUT /auth/user] with the five fields of [req.body] *)
Definition PUT_user (user : Users.Row) (fullName email avatar address darkMode : Js.Val)
  : M express.Outcome :=
  try_catch
    (let userId := Users.id user in
     let updateData : storage.UserData :=
       fun c => match c with
                | Users.c_full_name => fullName
                | Users.c_email => email
                | Users.c_avatar => avatar
                | Users.c_address => address
                | Users.c_dark_mode =>
                    if Js.defined darkMode then Js.boolean (Js.truthy darkMode)
                    else Js.undefined
                | _ => Js.undefined
                end in
     updatedUser <- storage.updateUser userId updateData ;;
     userWithoutPassword <- strip_password updatedUser ;;
     ret (express.json 200 (success_user userWithoutPassword)))
    (fun _ =>
       ret (express.json 500
              (express.failure "An error occurred while updating profile"))).

End routes_auth.

(* ===================================================================== *)
(** * routes/admin.js *)
(* ===================================================================== *)

Module routes_admin.

(** [ensureAdmin] *)
Definition ensureAdmin (req_user : option Users.Row)
    (next : Users.Row -> M express.Outcome) : M express.Outcome :=
  match req_user with
  | None => ret (express.json 401 (express.error1 "Authentication required"))
  | Some user =>
      if negb (Sql.eqb (Users.role user) (Sql.TEXT "admin"))
      then ret (express.json 403 (express.error1 "Admin privileges required"))
      else next user
  end.

(** The eight fields [PUT /users/:id] reads off [req.body] and passes on. *)
Definition picked (body : storage.UserData) : storage.UserData :=
  fun c => match c with
           | Users.c_created_at | Users.c_last_login | Users.c_google_id => Js.undefined
           | _ => body c
           end.

(** [PUT /api/admin/users/:id] *)
Definition PUT_users_id (req_user : option Users.Row) (userId : option Z)
    (body : storage.UserData) : M express.Outcome :=
  ensureAdmin req_user (fun _ =>
    match userId with
    | None => ret (express.json 400 (express.error1 "Invalid user ID"))
    | Some userId =>
        try_catch
          (user <- storage.updateUser userId (picked body) ;;
           match user with
           | None => ret (express.json 404 (express.error1 "User not found"))
           | Some u => ret (express.json 200 (auth.userWithoutPassword u))
           end)
          (fun error =>
             ret (express.json 500
                    (express.error2 "Failed to update user" (Js.message error))))
    end).

(** [POST /api/admin/restricted-stocks] with [req.body.symbol] and
    [req.body.reason] *)
Definition POST_restricted_stocks (req_user : option Users.Row) (symbol reason : Js.Val)
  : M express.Outcome :=
  ensureAdmin req_user (fun user =>
    if negb (Js.truthy symbol)
    then ret (express.json 400 (express.error1 "Missing required field: symbol"))
    else
      try_catch
        (s <- string_of "stockData.symbol" symbol ;;
         restrictedStock <-
           storage.addRestrictedStock
             {| storage.rs_symbol := s;
                storage.rs_reason := reason;
                storage.rs_added_by := Users.id user |} ;;
         ret (express.json 201 restrictedStock))
        (fun error =>
           ret (express.json 500
                  (express.error2 "Failed to add restricted stock" (Js.message error))))).

(** [DELETE /api/admin/restricted-stocks/:id] *)
Definition DELETE_restricted_stocks (req_user : option Users.Row)
    (restrictedStockId : option Z) : M express.Outcome :=
  ensureAdmin req_user (fun _ =>
    match restrictedStockId with
    | None => ret (express.json 400 (express.error1 "Invalid restricted stock ID"))
    | Some restrictedStockId =>
        try_catch
          (storage.removeRestrictedStock restrictedStockId ;;;
           ret (express.json 200
                  (express.success "Restricted stock removed successfully")))
          (fun error =>
             ret (express.json 500
                    (express.error2 "Failed to remove restricted stock"
                                    (Js.message error))))
    end).

End routes_admin.

(* ===================================================================== *)
(** * db-setup.js: schema creation *)
(* ===================================================================== *)

Module dbSetup.

(** The statements [initializeDatabase] sends. *)
Inductive Statement : Type :=
| BEGIN_TRANSACTION
| CREATE_TABLE_IF_NOT_EXISTS (table : string)
| COMMIT
| ROLLBACK.

(** The schema side of the database file behind the one connection: the
    tables the file holds; inside a transaction, the tables as the
    connection sees them, not yet in the file; and the statements sent
    so far. *)
Record Engine : Type := mkEngine {
  schema : list string;
  transaction : option (list string);
  sent : list Statement
}.

(** Which statements fail for a reason of their own (disk, lock, ...):
    the error of the [n]-th statement sent, if it is to fail. *)
Definition Faults : Type := nat -> option Js.Error.

Definition create (table : string) (tables : list string) : list string :=
  if existsb (String.eqb table) tables then tables else tables ++ [table].

(** [db.update(sql)] on a transaction-control or DDL statement. A failed
    statement changes nothing. *)
Definition update (s : Statement) : Eff Faults Engine unit :=
  fun faults e =>
    let e1 := mkEngine (schema e) (transaction e) (sent e ++ [s]) in
    match faults (length (sent e)) with
    | Some err => (Thrown err, e1)
    | None =>
        match s, transaction e with
        | BEGIN_TRANSACTION, None =>
            (Returned tt, mkEngine (schema e) (Some (schema e)) (sent e1))
        | BEGIN_TRANSACTION, Some _ =>
            (Thrown (Js.new_Error
                       "SQLITE_ERROR: cannot start a transaction within a transaction"),
             e1)
        | CREATE_TABLE_IF_NOT_EXISTS t, None =>
            (Returned tt, mkEngine (create t (schema e)) None (sent e1))
        | CREATE_TABLE_IF_NOT_EXISTS t, Some seen =>
            (Returned tt, mkEngine (schema e) (Some (create t seen)) (sent e1))
        | COMMIT, Some seen => (Returned tt, mkEngine seen None (sent e1))
        | COMMIT, None =>
            (Thrown (Js.new_Error
                       "SQLITE_ERROR: cannot commit - no transaction is active"),
             e1)
        | ROLLBACK, Some _ => (Returned tt, mkEngine (schema e) None (sent e1))
        | ROLLBACK, None =>
            (Thrown (Js.new_Error
                       "SQLITE_ERROR: cannot rollback - no transaction is active"),
             e1)
        end
    end.

(** The tables, in the order the function creates them. *)
Definition tables : list string :=
  ["users"; "user_watchlist"; "portfolio"; "portfolio_positions";
   "screening_criteria"; "app_settings"; "api_logs"; "restricted_stocks";
   "featured_stocks"; "achievements"]%string.



(** [createAdminUserIfNeeded], against the rows of the database. The
    INSERT names five columns; the others take their defaults. *)
Definition createAdminUserIfNeeded : M unit :=
  try_catch
    (count <- db2.count_users ;;
     if count =? 0
     then salt <- bcrypt.genSalt ;;
          hashedPassword <- bcrypt.hash (Js.str "admin123") salt ;;
          db.update
            (db.INSERT_INTO_users (Sql.TEXT "admin") (Sql.TEXT hashedPassword)
               (Sql.TEXT "admin@stockinfo.com") (Sql.TEXT "Administrator")
               (Sql.TEXT "admin") Sql.NULL Sql.NULL (Sql.INTEGER 0)) ;;;
          ret tt
     else ret tt)
    (fun error => throw error).

End dbSetup.

(* ===================================================================== *)
(** * Sample data: a small database and environment for concrete runs *)
(* ===================================================================== *)

Module sample.

Definition alice : Users.Row :=
  Users.mkRow 1 (Sql.TEXT "alice") (Sql.TEXT "$2a$10$salt.wonderland")
              (Sql.TEXT "alice@example.com") (Sql.TEXT "Alice Liddell")
              (Sql.TEXT "user") Sql.NULL (Sql.TEXT "Oxford") (Sql.INTEGER 0)
              (Sql.INTEGER 100) Sql.NULL Sql.NULL.

Definition bob : Users.Row :=
  Users.mkRow 2 (Sql.TEXT "bob") (Sql.TEXT "$2a$10$salt.builder")
              (Sql.TEXT "bob@example.com") (Sql.TEXT "Bob Builder")
              (Sql.TEXT "user") Sql.NULL Sql.NULL (Sql.INTEGER 1)
              (Sql.INTEGER 110) (Sql.INTEGER 500) Sql.NULL.

Definition root : Users.Row :=
  Users.mkRow 3 (Sql.TEXT "admin") (Sql.TEXT "$2a$10$salt.admin123")
              (Sql.TEXT "admin@stockinfo.com") (Sql.TEXT "Administrator")
              (Sql.TEXT "admin") Sql.NULL Sql.NULL (Sql.INTEGER 0)
              (Sql.INTEGER 90) Sql.NULL Sql.NULL.

(** Alice owns portfolio 7 with one position; XYZ is restricted. *)
Definition db0 : Db :=
  mkDb [alice; bob; root]
       [UserWatchlist.mkRow 1 2 "MSFT" 120]
       [Portfolio.mkRow 7 1 (Sql.TEXT "Growth") Sql.NULL 130]
       [PortfolioPositions.mkRow 4 7 "AAPL" (Sql.INTEGER 10) (Sql.INTEGER 150)
                                 (Sql.INTEGER 131) Sql.NULL]
       []
       [RestrictedStocks.mkRow 1 "XYZ" (Sql.TEXT "under review") 95 3]
       [].

(** An environment in which every upstream call gets [answer]. The toy
    hash only has to be some function. *)
Definition env_with (answer : Axios.Result) : Env :=
  {| now := 1000;
     sqlite_sequence := fun _ => 0;
     bcrypt_genSalt := "salt";
     bcrypt_hash := fun p salt => "$2a$10$" +++ salt +++ "." +++ p;
     bcrypt_compare := fun p h => String.eqb h ("$2a$10$salt." +++ p);
     fmp_get := fun _ => answer;
     latency := 5;
     encodeURIComponent := fun s => s;
     logIn_error := None;
     development := false;
     inspect := fun _ => Js.J Js.null |}.

(** The upstream knows the symbol. *)
Definition a_quote : Js.Json :=
  Js.JObj [("symbol", Js.J (Js.str "AMZN")); ("price", Js.J (Js.number 180));
           ("name", Js.J (Js.str "Amazon.com, Inc."));
           ("changesPercentage", Js.J (Js.number 1))]%string.

Definition env_quote : Env := env_with (Axios.Resolved (Js.JArr [a_quote])).

(** The upstream knows no such symbol. *)
Definition env_unknown : Env := env_with (Axios.Resolved (Js.JArr [])).

(** The upstream answers 429. *)
Definition env_429 : Env :=
  env_with (Axios.Rejected
              {| Js.message := "Request failed with status code 429";
                 Js.status := None;
                 Js.response := Some (429, Js.undefined) |}).

(** The upstream answers with its limit message in the body. *)
Definition env_limit_reach : Env :=
  env_with (Axios.Rejected
              {| Js.message := "Request failed with status code 403";
                 Js.status := None;
                 Js.response :=
                   Some (403, Js.str "Limit Reach . Please upgrade your plan") |}).

End sample.

(* ===================================================================== *)
(** * Vocabulary of the statements *)
(* ===================================================================== *)

(** The state a computation leaves, and what it returned or threw. *)
Definition state_after {E S A} (c : Eff E S A) (env : E) (s : S) : S := snd (c env s).

Definition result_of {E S A} (c : Eff E S A) (env : E) (s : S) : Completion A :=
  fst (c env s).

(** [SELECT * FROM users WHERE id = ?] as a function of the database. *)
Definition user_by_id (d : Db) (id : Z) : option Users.Row :=
  find (db.is_id id) (users d).

(** [typeof v === 'string'] *)
Definition is_str (v : Js.Val) : bool :=
  match v with Js.str _ => true | _ => false end.

Module patch.

(** The fields [updateUser] recognizes. *)
Definition recognized (c : Users.Col) : bool :=
  match c with
  | Users.c_role | Users.c_created_at | Users.c_last_login => false
  | _ => true
  end.

(** A recognized field counts as supplied when it is not [undefined]; a
    password, when it is truthy. *)
Definition supplied (userData : storage.UserData) (c : Users.Col) : bool :=
  recognized c &&
  match c with
  | Users.c_password => Js.truthy (userData c)
  | _ => Js.defined (userData c)
  end.

(** The parameter [updateUser] binds for a supplied field: the value
    itself; for the password its salted hash; for the dark-mode flag 1
    or 0. *)
Definition bound (env : Env) (userData : storage.UserData) (c : Users.Col)
  : Sql.Value :=
  match c with
  | Users.c_password =>
      match userData c with
      | Js.str p => Sql.TEXT (bcrypt_hash env p (bcrypt_genSalt env))
      | _ => Sql.NULL
      end
  | Users.c_dark_mode => Sql.INTEGER (if Js.truthy (userData c) then 1 else 0)
  | _ => Sql.bind (userData c)
  end.

(** The value a supplied field is stored as: the parameter, as the
    column takes it (a number in a TEXT column as its decimal text). *)
Definition stored (env : Env) (userData : storage.UserData) (c : Users.Col)
  : Sql.Value :=
  Users.affinity c (bound env userData c).

(** The SET list [updateUser] builds, in the order it pushes. *)
Definition sets (env : Env) (userData : storage.UserData)
  : list (Users.Col * Sql.Value) :=
  map (fun c => (c, bound env userData c))
      (filter (supplied userData)
              [Users.c_username; Users.c_password; Users.c_email; Users.c_full_name;
               Users.c_avatar; Users.c_address; Users.c_dark_mode; Users.c_google_id]).

(** The update goes through: a truthy password is a string, the only
    thing bcrypt hashes; and, when there is something to write, the rows
    the UPDATE is to write break no NOT NULL and no UNIQUE constraint of
    [users] against the other rows. *)
Definition accepted (env : Env) (d : Db) (id : Z) (userData : storage.UserData) : bool :=
  (negb (Js.truthy (userData Users.c_password)) || is_str (userData Users.c_password))
  && ((length (sets env userData) =? 0)%nat
      || match db.first_violation
                 (filter (fun r => negb (db.is_id id r)) (users d))
                 (map (Users.assign (Users.stored (sets env userData)))
                      (filter (db.is_id id) (users d))) with
         | None => true
         | Some _ => false
         end).

End patch.

(** Two databases that differ in the table [api_logs] at most. *)
Definition same_but_logs (d d' : Db) : Prop := d' = with_api_logs d (api_logs d').

(** A rate-limit signal: status 429, or the marker in the message the
    client reads off the rejection. *)
Definition rate_limited (error : Js.Error) : Prop :=
  Js.response_status_is error 429 = true
  \/ exists m, Js.or (Js.response_data_error error) (Js.str (Js.message error)) = Js.str m
               /\ Js.includes m "Limit Reach" = true.

(** Whether a symbol is on the restricted list, compared
    case-insensitively, as [POST /items] decides it. *)
Definition restricted (d : Db) (s : string) : bool :=
  existsb (fun stock => String.eqb (Js.toUpperCase (RestrictedStocks.symbol stock))
                                   (Js.toUpperCase s))
          (restricted_stocks d).

(** The row of [user_watchlist] a lookup, a delete or the UNIQUE index
    matches against a user and an upper-cased symbol. *)
Definition watches (userId : Z) (upper : string) (w : UserWatchlist.Row) : bool :=
  (UserWatchlist.user_id w =? userId) && String.eqb (UserWatchlist.symbol w) upper.

(** When the table takes the row of an insert: the constraints of the
    schema on it, as [db.exec] checks them. *)
Module takes.

(** [UNIQUE(user_id, symbol)] and the foreign key to [users]. *)
Definition watchlist (d : Db) (userId : Z) (symbol : string) : bool :=
  negb (existsb (watches userId (Js.toUpperCase symbol)) (user_watchlist d))
  && db.user_exists d userId.

(** [shares] and [purchase_price] NOT NULL, the foreign key to
    [portfolio]. *)
Definition position (d : Db) (positionData : storage.PositionData) : bool :=
  negb (Sql.is_null (Sql.bind (storage.pd_shares positionData)))
  && negb (Sql.is_null (Sql.bind (storage.pd_purchase_price positionData)))
  && db.portfolio_exists d (storage.pd_portfolio_id positionData).

(** [symbol] UNIQUE and the foreign key to [users]. *)
Definition restricted (d : Db) (stockData : storage.RestrictedStockData) : bool :=
  negb (existsb (fun r => String.eqb (RestrictedStocks.symbol r)
                                     (Js.toUpperCase (storage.rs_symbol stockData)))
                (restricted_stocks d))
  && db.user_exists d (storage.rs_added_by stockData).


End takes.

(** The error [addToWatchlist] throws on a duplicate. *)
Definition already_in_your_watchlist (symbol : string) : Js.Error :=
  Js.new_Error ("Stock " +++ symbol +++ " is already in your watchlist").

(** What [POST /items] answers to an error of its inner [try]. *)
Definition inner_catch (error : Js.Error) : express.Outcome :=
  if Js.includes (Js.message error) "API rate limit"
  then express.json 429 (express.failure (Js.message error))
  else express.json 500
         (express.failure ("Error adding stock to watchlist: " +++ Js.message error)).

(** The path the client requests for an endpoint and its argument. *)
Definition upstream_url (env : Env) (e : routes_stock_api.Endpoint) (arg : string)
  : string :=
  match e with
  | routes_stock_api.quote => "/quote/" +++ Js.toUpperCase arg
  | routes_stock_api.profile => "/profile/" +++ Js.toUpperCase arg
  | routes_stock_api.historical =>
      "/historical-price-full/" +++ Js.toUpperCase arg +++ "?serietype=line"
  | routes_stock_api.search => "/search?query=" +++ encodeURIComponent env arg +++ "&limit=10"
  end.

(** The argument gets past the checks made before the upstream call: a
    symbol is not empty, a query has two characters at least. *)
Definition reaches_upstream (e : routes_stock_api.Endpoint) (arg : string) : bool :=
  match e with
  | routes_stock_api.search => negb (Js.shorter_than_2 arg)
  | _ => negb (String.eqb arg "")
  end.

(** What the error handler of /api sends for the rate-limit error. *)
Definition rate_limit_answer (env : Env) : express.Outcome :=
  express.json 500
    (Js.JObj [("success", Js.J (Js.boolean false));
              ("message", Js.J (Js.str fmpApi.rate_limit_message));
              ("error", if development env
                        then inspect env (Js.new_Error fmpApi.rate_limit_message)
                        else Js.JObj [("message", Js.J (Js.str "An error occurred"))])
             ]%string).

Module atomicity.





End atomicity.

(** ** Vocabulary of the further properties *)

(** Every table of [d'] holds the rows it holds in [d]. The rowid
    sequences are not rows of these tables: an insert that is undone by
    a delete leaves the sequence of its table advanced. *)
Definition same_rows (d d' : Db) : Prop :=
  users d' = users d
  /\ user_watchlist d' = user_watchlist d
  /\ portfolio d' = portfolio d
  /\ portfolio_positions d' = portfolio_positions d
  /\ api_logs d' = api_logs d
  /\ restricted_stocks d' = restricted_stocks d
  /\ featured_stocks d' = featured_stocks d.

(** What identifies an account and what it is trusted with: the columns
    a profile update has no business with. *)
Definition credentials (r : Users.Row)
  : Z * Sql.Value * Sql.Value * Sql.Value * Sql.Value * Sql.Value * Sql.Value :=
  (Users.id r, Users.username r, Users.password r, Users.role r,
   Users.google_id r, Users.created_at r, Users.last_login r).

(** Where a position sits and what it is a position in. *)
Definition placement (q : PortfolioPositions.Row) : Z * Z * string :=
  (PortfolioPositions.id q, PortfolioPositions.portfolio_id q, PortfolioPositions.symbol q).

(** Whose a portfolio is, and since when. *)
Definition ownership (p : Portfolio.Row) : Z * Z * Z :=
  (Portfolio.id p, Portfolio.user_id p, Portfolio.created_at p).

(** The portfolio is the user's. *)
Definition owned_by (user : Users.Row) (p : Portfolio.Row) : bool :=
  Portfolio.user_id p =? Users.id user.

(** The position sits in a portfolio of the user's, as the database has
    the portfolios. *)
Definition held_by (d : Db) (user : Users.Row) (q : PortfolioPositions.Row) : bool :=
  existsb (fun p => (Portfolio.id p =? PortfolioPositions.portfolio_id q) && owned_by user p)
          (portfolio d).

(** The sample database once Bob has a portfolio of his own, with a
    position in it. *)
Definition db_two_portfolios : Db :=
  with_portfolio_positions
    (with_portfolio sample.db0
       (portfolio sample.db0 ++ [Portfolio.mkRow 8 2 (Sql.TEXT "Income") Sql.NULL 140]))
    (portfolio_positions sample.db0
       ++ [PortfolioPositions.mkRow 5 8 "KO" (Sql.INTEGER 40) (Sql.INTEGER 60)
                                    (Sql.INTEGER 141) Sql.NULL]).

(** What identifies an entry of the list [GET /api/watchlist/items]
    answers with. *)
Definition entry_key (e : Js.Json) : Js.Json * Js.Json * Js.Json :=
  (Js.get e "id", Js.get e "symbol", Js.get e "createdAt").

Definition row_key (w : UserWatchlist.Row) : Js.Json * Js.Json * Js.Json :=
  (Js.J (Js.number (UserWatchlist.id w)), Js.J (Js.str (UserWatchlist.symbol w)),
   Js.J (Js.number (UserWatchlist.created_at w))).

(** What a handler sent or passed on, [Next] standing in for a throw. *)
Definition outcome_of (c : M express.Outcome) (env : Env) (d : Db) : express.Outcome :=
  match fst (c env d) with
  | Returned o => o
  | Thrown e => express.Next e
  end.

(** The calls the market-data client offers. *)
Inductive Call : Type :=
| quote_of (symbol : Js.Val)
| profile_of (symbol : Js.Val)
| history_of (symbol : Js.Val)
| search_for (query : string)
| market_summary
| news_of (symbol : Js.Val).

Definition call (c : Call) (userId : Js.Val) : M Js.Json :=
  match c with
  | quote_of symbol => fmpApi.fetchStockQuote symbol userId
  | profile_of symbol => fmpApi.fetchCompanyProfile symbol userId
  | history_of symbol => fmpApi.fetchHistoricalData symbol userId
  | search_for query => fmpApi.searchStocks query userId
  | market_summary => fmpApi.fetchMarketSummary userId
  | news_of symbol => fmpApi.fetchFinancialNews symbol userId
  end.

(** A computation that writes to the request log at most and whose
    outcome does not depend on the database it runs against. *)
Definition logs_only {A} (c : M A) : Prop :=
  forall env d, same_but_logs d (snd (c env d))
                /\ forall d2, fst (c env d2) = fst (c env d).

(** The path the client requests for the news of a symbol, or for the
    general news. *)
Definition news_url (symbol : option string) : string :=
  match symbol with
  | Some s => if Js.truthy (Js.str s)
              then "/stock_news?tickers=" +++ Js.toUpperCase s +++ "&limit=10"
              else "/stock_news?limit=20"
  | None => "/stock_news?limit=20"
  end.

(** The password column [createUser] writes: the salted hash of a
    truthy password, NULL without one. *)
Definition password_column (env : Env) (password : Js.Val) : Sql.Value :=
  if Js.truthy password
  then match password with
       | Js.str p => Sql.TEXT (bcrypt_hash env p (bcrypt_genSalt env))
       | _ => Sql.NULL
       end
  else Sql.NULL.

(** The row [createUser] adds to the table for a payload. *)
Definition new_user (env : Env) (d : Db) (userData : storage.UserData) : Users.Row :=
  Users.mkRow (db.next_id (sqlite_sequence env "users") (map Users.id (users d)))
    (Sql.text (Sql.bind (userData Users.c_username)))
    (password_column env (userData Users.c_password))
    (Sql.text (Sql.bind (userData Users.c_email)))
    (Sql.text (Sql.bind (userData Users.c_full_name)))
    (Sql.text (Sql.bind (Js.or (userData Users.c_role) (Js.str "user"))))
    (Sql.text (Sql.bind (Js.or (userData Users.c_avatar) Js.null)))
    (Sql.text (Sql.bind (Js.or (userData Users.c_address) Js.null)))
    (Sql.INTEGER (if Js.truthy (userData Users.c_dark_mode) then 1 else 0))
    (Sql.INTEGER (now env)) Sql.NULL Sql.NULL.

(** The account [createAdminUserIfNeeded] creates on an empty table,
    under the id the table gives it. *)
Definition default_admin (env : Env) (id : Z) : Users.Row :=
  Users.mkRow id (Sql.TEXT "admin")
    (Sql.TEXT (bcrypt_hash env "admin123" (bcrypt_genSalt env)))
    (Sql.TEXT "admin@stockinfo.com") (Sql.TEXT "Administrator") (Sql.TEXT "admin")
    Sql.NULL Sql.NULL (Sql.INTEGER 0) (Sql.INTEGER (now env)) Sql.NULL Sql.NULL.

(* ===================================================================== *)
(** * Lemmas on rows and tables *)
(* ===================================================================== *)

Lemma id_set c v r : Users.id (Users.set c v r) = Users.id r.
Proof. destruct c; reflexivity. Qed.

Lemma id_assign sets r : Users.id (Users.assign sets r) = Users.id r.
Proof.
  revert r. induction sets as [|[c v] l IH]; intros r; simpl; [reflexivity|].
  rewrite IH. apply id_set.
Qed.

(** What [patch.sets] does to a row, column by column. *)
Lemma get_assign_sets env userData c r :
  Users.get c (Users.assign (Users.stored (patch.sets env userData)) r)
  = if patch.supplied userData c then patch.stored env userData c else Users.get c r.
Proof.
  unfold patch.sets, patch.stored, Users.stored. simpl filter.
  destruct (patch.supplied userData Users.c_username) eqn:E1;
  destruct (patch.supplied userData Users.c_password) eqn:E2;
  destruct (patch.supplied userData Users.c_email) eqn:E3;
  destruct (patch.supplied userData Users.c_full_name) eqn:E4;
  destruct (patch.supplied userData Users.c_avatar) eqn:E5;
  destruct (patch.supplied userData Users.c_address) eqn:E6;
  destruct (patch.supplied userData Users.c_dark_mode) eqn:E7;
  destruct (patch.supplied userData Users.c_google_id) eqn:E8;
  destruct c; simpl; rewrite ?E1, ?E2, ?E3, ?E4, ?E5, ?E6, ?E7, ?E8; reflexivity.
Qed.

(* ===================================================================== *)
(** * Updating a user *)
(* ===================================================================== *)

(** Case analysis on which optional fields of a payload are defined,
    then on the outcome of the one statement left in the goal. *)
Ltac by_defined userData :=
  destruct (Js.defined (userData Users.c_username));
  destruct (Js.defined (userData Users.c_email));
  destruct (Js.defined (userData Users.c_full_name));
  destruct (Js.defined (userData Users.c_avatar));
  destruct (Js.defined (userData Users.c_address));
  destruct (Js.defined (userData Users.c_dark_mode));
  destruct (Js.defined (userData Users.c_google_id));
  cbn -[db.exec];
  repeat match goal with
         | H : userData Users.c_password = _ |- _ => rewrite H
         end;
  try reflexivity;
  match goal with
  | |- context [db.exec ?s ?e ?dd] => destruct (db.exec s e dd) as [[?|?] ?]
  end;
  reflexivity.

(** [updateUser], run: the hashing step may reject the password; then
    either nothing is written or one UPDATE with [patch.sets] is. *)
Lemma updateUser_run id userData env d :
  storage.updateUser id userData env d =
  if Js.truthy (userData Users.c_password) && negb (is_str (userData Users.c_password))
  then (Thrown (bcrypt.Illegal_arguments (Js.typeof (userData Users.c_password)) "string"), d)
  else if (length (patch.sets env userData) =? 0)%nat
  then (Returned (user_by_id d id), d)
  else match db.exec (db.UPDATE_users_SET (patch.sets env userData) id) env d with
       | (Returned _, d') => (Returned (user_by_id d' id), d')
       | (Thrown e, d') => (Thrown e, d')
       end.
Proof.
  unfold storage.updateUser, storage.push_if_defined, patch.sets, patch.supplied,
    patch.bound, storage.getUser, storage.dbGet, storage.dbRun, db.getOne, db.update,
    bcrypt.genSalt, bcrypt.hash, user_by_id, bind, ret, throw, ask.
  cbn [filter patch.recognized andb].
  destruct (userData Users.c_password) as [| |b|n|s] eqn:Ep;
    cbn [Js.truthy is_str negb andb Js.typeof];
    [ | | destruct b; cbn [andb]; [reflexivity|]
      | destruct (n =? 0); cbn [negb andb]; [|reflexivity]
      | destruct (String.eqb s ""); cbn [negb andb] ];
    by_defined userData.
Qed.

Lemma find_update_users_same f i rows :
  (forall r, Users.id (f r) = Users.id r) ->
  find (db.is_id i) (db.update_users f i rows) = option_map f (find (db.is_id i) rows).
Proof.
  intros Hf. induction rows as [|r rows IH]; simpl; [reflexivity|].
  destruct (db.is_id i r) eqn:E.
  - assert (E' : db.is_id i (f r) = true) by (unfold db.is_id in *; rewrite Hf; exact E).
    rewrite E'. reflexivity.
  - rewrite E. apply IH.
Qed.

Lemma find_update_users_other f i j rows :
  (forall r, Users.id (f r) = Users.id r) -> j <> i ->
  find (db.is_id j) (db.update_users f i rows) = find (db.is_id j) rows.
Proof.
  intros Hf Hne. induction rows as [|r rows IH]; simpl; [reflexivity|].
  destruct (db.is_id i r) eqn:E.
  - assert (E' : db.is_id j (f r) = db.is_id j r) by (unfold db.is_id; rewrite Hf; reflexivity).
    rewrite E'. destruct (db.is_id j r) eqn:Ej; [|apply IH].
    unfold db.is_id in E, Ej. apply Z.eqb_eq in E, Ej. congruence.
  - destruct (db.is_id j r); [reflexivity|apply IH].
Qed.

Lemma find_is_id i rows r : find (db.is_id i) rows = Some r -> Users.id r = i.
Proof.
  intros H. apply find_some in H as [_ H]. apply Z.eqb_eq. exact H.
Qed.

(** An UPDATE of [users] either fails and writes nothing or rewrites the
    rows with the given id, and nothing but the table [users]. *)
Lemma exec_UPDATE_users sets i env d :
  (exists e, db.exec (db.UPDATE_users_SET sets i) env d = (Thrown e, d)) \/
  (exists r, db.exec (db.UPDATE_users_SET sets i) env d
             = (Returned r, with_users d (db.update_users (Users.assign (Users.stored sets)) i (users d)))).
Proof.
  simpl. destruct (db.first_violation _ _); [left|right]; eauto.
Qed.

Lemma with_users_same d : with_users d (users d) = d.
Proof. destruct d; reflexivity. Qed.

Lemma update_users_keeps (A : Type) (g : Users.Row -> A) f i rows :
  (forall r, g (f r) = g r) -> map g (db.update_users f i rows) = map g rows.
Proof.
  intros Hf. unfold db.update_users. rewrite map_map. apply map_ext.
  intros r. destruct (db.is_id i r); [apply Hf|reflexivity].
Qed.

Lemma role_assign_sets env userData r :
  Users.role (Users.assign (Users.stored (patch.sets env userData)) r) = Users.role r.
Proof. exact (get_assign_sets env userData Users.c_role r). Qed.

(** [updateUser] touches no table but [users], and in it no id and no
    role. *)
Lemma updateUser_roles id userData env d :
  map (fun r => (Users.id r, Users.role r))
      (users (state_after (storage.updateUser id userData) env d))
  = map (fun r => (Users.id r, Users.role r)) (users d).
Proof.
  unfold state_after. rewrite updateUser_run.
  destruct (_ && _); [reflexivity|].
  destruct (_ =? _)%nat; [reflexivity|].
  destruct (exec_UPDATE_users (patch.sets env userData) id env d) as [[e H]|[r H]];
    rewrite H; [reflexivity|].
  simpl. apply update_users_keeps. intros r0.
  rewrite id_assign, role_assign_sets. reflexivity.
Qed.

(** C10. For every user id and every update payload, [updateUser] leaves
    the role of every user as it was, also when the payload carries a
    role, as the payload of [PUT /api/admin/users/:id] does: whoever
    calls that endpoint with whatever body, the ids and roles stored in
    [users] are the same before and after. *)
Theorem updateUser_never_changes_role :
  forall (env : Env) (d : Db) (id : Z) (userData : storage.UserData)
         (req_user : option Users.Row) (userId : option Z) (body : storage.UserData),
    map (fun r => (Users.id r, Users.role r))
        (users (state_after (storage.updateUser id userData) env d))
    = map (fun r => (Users.id r, Users.role r)) (users d)
    /\
    map (fun r => (Users.id r, Users.role r))
        (users (state_after (routes_admin.PUT_users_id req_user userId body) env d))
    = map (fun r => (Users.id r, Users.role r)) (users d).
Proof.
  intros. split; [apply updateUser_roles|].
  unfold state_after, routes_admin.PUT_users_id, routes_admin.ensureAdmin.
  destruct req_user as [user|]; [|reflexivity].
  destruct (negb _); [reflexivity|].
  destruct userId as [uid|]; [|reflexivity].
  pose proof (updateUser_roles uid (routes_admin.picked body) env d) as H.
  unfold state_after in H. unfold try_catch, bind, ret.
  destruct (storage.updateUser uid (routes_admin.picked body) env d) as [[[u|]|e] d'];
    exact H.
Qed.

(** The admin asks for bob to become an admin: the answer is 200 and
    bob is a user as before. *)
Example admin_cannot_promote :
  let body : storage.UserData :=
    fun c => match c with Users.c_role => Js.str "admin" | _ => Js.undefined end in
  let run := routes_admin.PUT_users_id (Some sample.root) (Some 2) body
               sample.env_quote sample.db0 in
  express.status_of
    match fst run with Returned o => o | Thrown e => express.Next e end = Some 200
  /\ option_map Users.role (user_by_id (snd run) 2) = Some (Sql.TEXT "user").
Proof. vm_compute. split; reflexivity. Qed.

Lemma sets_empty env userData :
  (length (patch.sets env userData) =? 0)%nat = true <->
  (forall c, patch.supplied userData c = false).
Proof.
  unfold patch.sets. rewrite length_map. split.
  - intros H c. apply Nat.eqb_eq in H. apply length_zero_iff_nil in H.
    destruct (patch.supplied userData c) eqn:E; [|reflexivity].
    assert (In c (filter (patch.supplied userData)
              [Users.c_username; Users.c_password; Users.c_email; Users.c_full_name;
               Users.c_avatar; Users.c_address; Users.c_dark_mode; Users.c_google_id])).
    { apply filter_In. split; [|exact E].
      destruct c; simpl; auto 10; discriminate E. }
    rewrite H in H0. destruct H0.
  - intros H. apply Nat.eqb_eq. apply length_zero_iff_nil.
    simpl. rewrite !H. reflexivity.
Qed.

(** A payload whose password is truthy but no string makes bcrypt
    reject; a supplied password that is hashed is a string. *)
Lemma supplied_everywhere_false_password userData :
  (forall c, patch.supplied userData c = false) ->
  Js.truthy (userData Users.c_password) = false.
Proof. intros H. exact (H Users.c_password). Qed.

(** C4, as stated, fails: a payload may supply a field and the row keep
    its old value. Alice asks for Bob's e-mail address: the UNIQUE index
    of [users.email] refuses the UPDATE, [updateUser] throws and her row
    is what it was. And a payload with the empty string as password
    supplies a password that is not written: the record comes back with
    the old hash. *)
Lemma taken_email_is_not_written :
  let taken : storage.UserData :=
    fun c => match c with
             | Users.c_email => Js.str "bob@example.com"
             | _ => Js.undefined
             end in
  let empty : storage.UserData :=
    fun c => match c with
             | Users.c_password => Js.str ""
             | _ => Js.undefined
             end in
  user_by_id sample.db0 1 = Some sample.alice
  /\ Js.defined (taken Users.c_email) = true
  /\ storage.updateUser 1 taken sample.env_quote sample.db0
     = (Thrown (db.UNIQUE_failed "users.email"), sample.db0)
  /\ Users.email sample.alice = Sql.TEXT "alice@example.com"
  /\ Js.defined (empty Users.c_password) = true
  /\ storage.updateUser 1 empty sample.env_quote sample.db0
     = (Returned (Some sample.alice), sample.db0)
  /\ Users.password sample.alice = Sql.TEXT "$2a$10$salt.wonderland".
Proof. repeat split. Qed.

Lemma password_check userData :
  Js.truthy (userData Users.c_password) && negb (is_str (userData Users.c_password))
  = negb (negb (Js.truthy (userData Users.c_password))
          || is_str (userData Users.c_password)).
Proof.
  destruct (Js.truthy (userData Users.c_password)), (is_str (userData Users.c_password));
    reflexivity.
Qed.

(** C4, amended. For every existing user id and every payload,
    [updateUser] leaves every field that the payload does not supply as
    a recognized field, every other user and every other table as they
    were (omitted fields are not nulled). When the update is accepted (a
    truthy password is a string and the row to write breaks no
    constraint of [users]) it returns the updated record, in which
    exactly the recognized fields the payload supplies hold the supplied
    values as their columns store them; when it is not, it throws and
    writes nothing. With no recognized field supplied nothing is written
    and the current record is returned, so that reading, updating with
    no fields and reading again yields the same object. *)
Theorem updateUser_partial_update :
  forall (env : Env) (d : Db) (id : Z) (userData : storage.UserData) (u : Users.Row),
    user_by_id d id = Some u ->
    let d' := state_after (storage.updateUser id userData) env d in
    let result := result_of (storage.updateUser id userData) env d in
    (forall c, patch.supplied userData c = false ->
               option_map (Users.get c) (user_by_id d' id) = Some (Users.get c u))
    /\ (forall j, j <> id -> user_by_id d' j = user_by_id d j)
    /\ with_users d' (users d) = d
    /\ (if patch.accepted env d id userData
        then exists u',
               result = Returned (Some u') /\ user_by_id d' id = Some u'
               /\ Users.id u' = id
               /\ forall c, Users.get c u'
                            = if patch.supplied userData c
                              then patch.stored env userData c
                              else Users.get c u
        else exists e, result = Thrown e /\ d' = d)
    /\ ((forall c, patch.supplied userData c = false) ->
          d' = d /\ result = Returned (Some u)
          /\ storage.getUser id env d' = (Returned (Some u), d')).
Proof.
  intros env d id userData u Hu d' result. subst d' result.
  unfold state_after, result_of. rewrite updateUser_run.
  assert (Hid : Users.id u = id) by (eapply find_is_id; exact Hu).
  unfold patch.accepted. rewrite password_check.
  destruct (negb (Js.truthy (userData Users.c_password))
            || is_str (userData Users.c_password)) eqn:Epw; cbn [negb andb].
  2: { (* bcrypt rejects the password: nothing is written *)
    cbn [fst snd]. rewrite Hu, with_users_same.
    split; [reflexivity|]. split; [reflexivity|]. split; [reflexivity|].
    split; [eexists; split; reflexivity|].
    intros Hnone. apply supplied_everywhere_false_password in Hnone.
    rewrite Hnone in Epw. discriminate. }
  destruct (length (patch.sets env userData) =? 0)%nat eqn:Elen; cbn [orb].
  { (* no recognized field: no write *)
    cbn [fst snd]. rewrite Hu, with_users_same.
    pose proof (proj1 (sets_empty env userData) Elen) as Hnone.
    split; [reflexivity|]. split; [reflexivity|]. split; [reflexivity|].
    split.
    - exists u.
      split; [reflexivity|]. split; [reflexivity|]. split; [exact Hid|].
      intros c. rewrite Hnone. reflexivity.
    - intros _. split; [reflexivity|]. split; [reflexivity|].
      unfold storage.getUser, storage.dbGet, db.getOne. f_equal. f_equal. exact Hu. }
  assert (Hsome : (forall c, patch.supplied userData c = false) -> False).
  { intros Hnone. apply (proj2 (sets_empty env userData)) in Hnone.
    rewrite Hnone in Elen. discriminate. }
  cbn [db.exec].
  destruct (db.first_violation _ _) as [e|].
  { (* the UPDATE violates a constraint: nothing is written *)
    cbn [fst snd]. rewrite Hu, with_users_same.
    split; [reflexivity|]. split; [reflexivity|]. split; [reflexivity|].
    split; [eexists; split; reflexivity|].
    intros Hnone. destruct (Hsome Hnone). }
  (* the UPDATE went through *)
  cbn [fst snd]. unfold user_by_id in *. cbn [users with_users].
  rewrite find_update_users_same by (intros; apply id_assign).
  rewrite Hu. cbn [option_map].
  split; [|split; [|split; [|split]]].
  - intros c Hc. rewrite get_assign_sets, Hc. reflexivity.
  - intros j Hj. apply find_update_users_other; [intros; apply id_assign|exact Hj].
  - destruct d; reflexivity.
  - eexists.
    split; [reflexivity|]. split; [reflexivity|]. split.
    + rewrite id_assign. exact Hid.
    + intros c. apply get_assign_sets.
  - intros Hnone. destruct (Hsome Hnone).
Qed.

(** Alice changes her e-mail address only: the update is accepted, the
    address is stored and her full name is what it was. *)
Lemma updateUser_partial_update_witness :
  let userData : storage.UserData :=
    fun c => match c with
             | Users.c_email => Js.str "alice@wonderland.org"
             | _ => Js.undefined
             end in
  let d' := state_after (storage.updateUser 1 userData) sample.env_quote sample.db0 in
  user_by_id sample.db0 1 = Some sample.alice
  /\ patch.accepted sample.env_quote sample.db0 1 userData = true
  /\ option_map Users.full_name (user_by_id d' 1) = Some (Sql.TEXT "Alice Liddell")
  /\ option_map Users.email (user_by_id d' 1) = Some (Sql.TEXT "alice@wonderland.org").
Proof.
  intros userData d'.
  destruct (updateUser_partial_update sample.env_quote sample.db0 1 userData sample.alice
              eq_refl) as (Hframe & _ & _ & Hwritten & _).
  change (patch.accepted sample.env_quote sample.db0 1 userData) with true in Hwritten.
  destruct Hwritten as (u' & _ & Hrow & _ & Hfields).
  split; [reflexivity|]. split; [reflexivity|]. split.
  - exact (Hframe Users.c_full_name eq_refl).
  - fold d' in Hrow. rewrite Hrow. cbn [option_map]. f_equal.
    exact (Hfields Users.c_email).
Defined.

(** With no recognized field in the payload [updateUser] is a read. *)
Lemma updateUser_no_fields id userData env d :
  (forall c, patch.supplied userData c = false) ->
  storage.updateUser id userData env d = (Returned (user_by_id d id), d).
Proof.
  intros H. rewrite updateUser_run.
  rewrite (supplied_everywhere_false_password _ H). simpl.
  rewrite (proj2 (sets_empty env userData) H). reflexivity.
Qed.

(** [PUT /auth/user] with an empty body: the answer is 200 with the
    current record, less its password, and nothing is written. *)
Lemma PUT_user_empty_body user env d u :
  user_by_id d (Users.id user) = Some u ->
  routes_auth.PUT_user user Js.undefined Js.undefined Js.undefined Js.undefined
    Js.undefined env d
  = (Returned (express.json 200 (routes_auth.success_user (auth.userWithoutPassword u))),
     d).
Proof.
  intros Hu. unfold routes_auth.PUT_user, try_catch. unfold bind at 1.
  rewrite updateUser_no_fields by (intros c; destruct c; reflexivity).
  rewrite Hu. reflexivity.
Qed.

(* ===================================================================== *)
(** * Login *)
(* ===================================================================== *)

Lemma find_some_id (P : Users.Row -> bool) rows u :
  find P rows = Some u -> exists u0, find (db.is_id (Users.id u)) rows = Some u0.
Proof.
  intros H. apply find_some in H as [Hin _].
  destruct (find (db.is_id (Users.id u)) rows) eqn:E; [eauto|].
  exfalso. eapply find_none in E; [|exact Hin].
  unfold db.is_id in E. rewrite Z.eqb_refl in E. discriminate.
Qed.

(** C3. After every successful local login (the answer to
    [POST /auth/login] is 200) the user found under the submitted
    username had the submitted password verified against the stored
    hash, and the stored record of that user carries the time of the
    login as its last-login timestamp. *)
Theorem login_updates_last_login :
  forall (env : Env) (d d' : Db) (username password : Js.Val) (o : express.Outcome),
    routes_auth.POST_login username password env d = (Returned o, d') ->
    express.status_of o = Some 200 ->
    exists u,
      storage.getUserByUsername username env d = (Returned (Some u), d)
      /\ bcrypt.compare password (Sql.unbind (Users.password u)) env d = (Returned true, d)
      /\ option_map Users.last_login (user_by_id d' (Users.id u))
         = Some (Sql.INTEGER (now env)).
Proof.
  intros env d d' username password o Hrun Hst.
  unfold routes_auth.POST_login, auth.local_authenticate in Hrun.
  unfold bind at 1 in Hrun.
  destruct (negb (Js.truthy username) || negb (Js.truthy password)).
  { simpl in Hrun. injection Hrun as <- <-. discriminate Hst. }
  unfold auth.local_verify, try_catch, bind at 1 in Hrun.
  unfold storage.getUserByUsername, storage.dbGet, db.getOne in *.
  destruct (find _ (users d)) as [u|] eqn:Efind.
  2: { simpl in Hrun. injection Hrun as <- <-. discriminate Hst. }
  exists u. split; [reflexivity|].
  unfold bind at 1 in Hrun.
  destruct (Js.truthy (Sql.unbind (Users.password u))).
  2: { simpl in Hrun. injection Hrun as <- <-. discriminate Hst. }
  destruct (bcrypt.compare password (Sql.unbind (Users.password u)) env d)
    as [[[|]|e] d1] eqn:Ecmp.
  3: { simpl in Hrun. injection Hrun as <- <-. discriminate Hst. }
  2: { assert (d1 = d).
       { unfold bcrypt.compare in Ecmp.
         destruct password, (Sql.unbind (Users.password u)); simpl in Ecmp;
           try discriminate; injection Ecmp as _ <-; reflexivity. }
       subst d1. simpl in Hrun. injection Hrun as <- <-. discriminate Hst. }
  assert (d1 = d).
  { unfold bcrypt.compare in Ecmp.
    destruct password, (Sql.unbind (Users.password u)); simpl in Ecmp;
      try discriminate; injection Ecmp as _ <-; reflexivity. }
  subst d1. split; [reflexivity|].
  cbv beta iota zeta delta [storage.updateLastLogin storage.dbRun db.update bind ret
                         auth.logIn ask try_catch db.exec] in Hrun.
  destruct (logIn_error env).
  { injection Hrun as <- <-. discriminate Hst. }
  rewrite updateUser_no_fields in Hrun.
  2: { intros c; destruct c; reflexivity. }
  injection Hrun as _ <-.
  unfold user_by_id. simpl.
  rewrite find_update_users_same by (intros; apply id_set).
  destruct (find_some_id _ _ _ Efind) as [u0 Hu0]. rewrite Hu0. reflexivity.
Qed.

(** Alice logs in with her password: 200, and her record says so. *)
Lemma login_updates_last_login_witness :
  let run := routes_auth.POST_login (Js.str "alice") (Js.str "wonderland")
               sample.env_quote sample.db0 in
  express.status_of match fst run with Returned o => o | Thrown e => express.Next e end
  = Some 200
  /\ option_map Users.last_login (user_by_id (snd run) 1) = Some (Sql.INTEGER 1000).
Proof.
  intros run. split; [reflexivity|].
  destruct (login_updates_last_login sample.env_quote sample.db0 (snd run)
              (Js.str "alice") (Js.str "wonderland")
              match fst run with Returned o => o | Thrown e => express.Next e end
              eq_refl eq_refl) as (u & Hu & _ & Hlast).
  injection Hu as <-. exact Hlast.
Defined.

(* ===================================================================== *)
(** * Registration *)
(* ===================================================================== *)

(** C6, as stated, fails: a registration request may name a taken
    username and lack another required field. Alice exists; a request
    with her username and no e-mail address is answered 400 with the
    message of the field check, not "Username already taken". *)
Lemma registration_without_email_is_turned_down :
  let run := routes_auth.POST_register (Js.str "alice") Js.undefined (Js.str "secret")
               (Js.str "Alice") sample.env_quote sample.db0 in
  storage.getUserByUsername (Js.str "alice") sample.env_quote sample.db0
  = (Returned (Some sample.alice), sample.db0)
  /\ run = (Returned (express.json 400 (express.failure "All fields are required")),
            sample.db0)
  /\ express.message_of (express.json 400 (express.failure "All fields are required"))
     <> Some "Username already taken"%string.
Proof.
  split; [reflexivity|]. split; [reflexivity|]. discriminate.
Qed.

(** C6, amended. For every registration request that carries all four
    required fields and whose username is that of an existing user,
    [POST /auth/register] answers 400 with the message "Username already
    taken" and the database, the table [users] in it, is unchanged. *)
Theorem register_taken_username :
  forall (env : Env) (d : Db) (name : string) (email password fullName : Js.Val)
         (u : Users.Row),
    Js.truthy (Js.str name) = true -> Js.truthy email = true ->
    Js.truthy password = true -> Js.truthy fullName = true ->
    In u (users d) -> Users.username u = Sql.TEXT name ->
    routes_auth.POST_register (Js.str name) email password fullName env d
    = (Returned (express.json 400 (express.failure "Username already taken")), d).
Proof.
  intros env d name email password fullName u H1 H2 H3 H4 Hin Hname.
  unfold routes_auth.POST_register, try_catch.
  rewrite H1, H2, H3, H4. cbn [negb orb].
  unfold bind at 1, storage.getUserByUsername, storage.dbGet, db.getOne.
  destruct (find _ (users d)) as [u'|] eqn:Efind; [reflexivity|].
  exfalso. eapply find_none in Efind; [|exact Hin].
  rewrite Hname in Efind.
  cbn [Sql.bind Sql.text Sql.same Sql.is_null Sql.eqb negb andb] in Efind.
  rewrite String.eqb_refl in Efind. discriminate Efind.
Qed.

(** Alice exists; a complete request under her username. *)
Lemma register_taken_username_witness :
  routes_auth.POST_register (Js.str "alice") (Js.str "a@b.c") (Js.str "secret")
    (Js.str "Alice") sample.env_quote sample.db0
  = (Returned (express.json 400 (express.failure "Username already taken")), sample.db0).
Proof.
  apply (register_taken_username sample.env_quote sample.db0 "alice"
           (Js.str "a@b.c") (Js.str "secret") (Js.str "Alice") sample.alice);
    try reflexivity.
  left. reflexivity.
Defined.

(* ===================================================================== *)
(** * Portfolio-scoped requests *)
(* ===================================================================== *)

Lemma own_portfolio_404 what user pid next env d :
  storage.getPortfolio (Some pid) env d = (Returned None, d) ->
  routes_portfolio.failing what (routes_portfolio.with_own_portfolio user pid next) env d
  = (Returned (express.json 404 (express.error1 "Portfolio not found")), d).
Proof.
  intros H. unfold routes_portfolio.failing, routes_portfolio.with_own_portfolio,
    try_catch, bind. rewrite H. reflexivity.
Qed.

Lemma own_portfolio_403 what user pid next env d p :
  storage.getPortfolio (Some pid) env d = (Returned (Some p), d) ->
  Portfolio.user_id p <> Users.id user ->
  routes_portfolio.failing what (routes_portfolio.with_own_portfolio user pid next) env d
  = (Returned (express.json 403 (express.error1 "Access denied")), d).
Proof.
  intros H Hne. unfold routes_portfolio.failing, routes_portfolio.with_own_portfolio,
    try_catch, bind. rewrite H.
  apply Z.eqb_neq in Hne. rewrite Hne. reflexivity.
Qed.

(** C7, as stated, fails: bob posts a position without a symbol to
    portfolio 9, which does not exist, and to portfolio 7, which is
    Alice's; both answers are 400, not 404 and not 403. *)
Lemma new_position_without_symbol_is_turned_down :
  let body := routes_portfolio.mkPositionBody Js.undefined (Js.number 3) (Js.number 10)
                Js.undefined Js.undefined in
  let missing := express.json 400
    (express.error1 "Missing required fields: symbol, shares, purchase_price") in
  storage.getPortfolio (Some 9) sample.env_quote sample.db0 = (Returned None, sample.db0)
  /\ routes_portfolio.handle sample.bob (Some 9) (routes_portfolio.post_position body)
       sample.env_quote sample.db0 = (Returned missing, sample.db0)
  /\ option_map Portfolio.user_id
       (match fst (storage.getPortfolio (Some 7) sample.env_quote sample.db0) with
        | Returned p => p
        | Thrown _ => None
        end) = Some (Users.id sample.alice)
  /\ routes_portfolio.handle sample.bob (Some 7) (routes_portfolio.post_position body)
       sample.env_quote sample.db0 = (Returned missing, sample.db0).
Proof. repeat split. Qed.

(** C7, amended. For every portfolio-scoped request that passes the
    check of its parameters (the ids of the path parse and, for a new
    position, symbol, shares and purchase price are there): when no
    portfolio has the id the answer is 404, whoever asks; when one has
    and it is another user's the answer is 403; in both cases the answer
    carries the error alone and the database is left as it was. *)
Theorem portfolio_scope_404_then_403 :
  forall (env : Env) (d : Db) (user : Users.Row) (portfolioId : Z)
         (r : routes_portfolio.Scoped),
    routes_portfolio.well_formed (Some portfolioId) r = true ->
    (storage.getPortfolio (Some portfolioId) env d = (Returned None, d) ->
     routes_portfolio.handle user (Some portfolioId) r env d
     = (Returned (express.json 404 (express.error1 "Portfolio not found")), d))
    /\
    (forall p,
       storage.getPortfolio (Some portfolioId) env d = (Returned (Some p), d) ->
       Portfolio.user_id p <> Users.id user ->
       routes_portfolio.handle user (Some portfolioId) r env d
       = (Returned (express.json 403 (express.error1 "Access denied")), d)).
Proof.
  intros env d user pid r Hwf. split.
  - intros H. destruct r as [| | | |body|[pos|] body|[pos|]]; simpl in Hwf;
      try discriminate Hwf; simpl;
      try (apply own_portfolio_404; exact H).
    apply andb_true_iff in Hwf as [Hwf H3]. apply andb_true_iff in Hwf as [H1 H2].
    rewrite H1, H2, H3. simpl. apply own_portfolio_404; exact H.
  - intros p H Hne. destruct r as [| | | |body|[pos|] body|[pos|]]; simpl in Hwf;
      try discriminate Hwf; simpl;
      try (eapply own_portfolio_403; eassumption).
    apply andb_true_iff in Hwf as [Hwf H3]. apply andb_true_iff in Hwf as [H1 H2].
    rewrite H1, H2, H3. simpl. eapply own_portfolio_403; eassumption.
Qed.

(** Bob asks to delete portfolio 9, which does not exist, and portfolio
    7, which is Alice's. *)
Lemma portfolio_scope_404_then_403_witness :
  routes_portfolio.handle sample.bob (Some 9) routes_portfolio.delete_portfolio
    sample.env_quote sample.db0
  = (Returned (express.json 404 (express.error1 "Portfolio not found")), sample.db0)
  /\
  routes_portfolio.handle sample.bob (Some 7) routes_portfolio.delete_portfolio
    sample.env_quote sample.db0
  = (Returned (express.json 403 (express.error1 "Access denied")), sample.db0).
Proof.
  split.
  - apply (proj1 (portfolio_scope_404_then_403 sample.env_quote sample.db0 sample.bob 9
                    routes_portfolio.delete_portfolio eq_refl)).
    reflexivity.
  - apply (proj2 (portfolio_scope_404_then_403 sample.env_quote sample.db0 sample.bob 7
                    routes_portfolio.delete_portfolio eq_refl)
             (Portfolio.mkRow 7 1 (Sql.TEXT "Growth") Sql.NULL 130)).
    + reflexivity.
    + discriminate.
Defined.

(* ===================================================================== *)
(** * The market-data client *)
(* ===================================================================== *)

Lemma same_but_logs_refl d : same_but_logs d d.
Proof. unfold same_but_logs. destruct d; reflexivity. Qed.

Lemma same_but_logs_trans d1 d2 d3 :
  same_but_logs d1 d2 -> same_but_logs d2 d3 -> same_but_logs d1 d3.
Proof.
  unfold same_but_logs. intros H12 H23. rewrite H23 at 1. rewrite H12 at 1.
  reflexivity.
Qed.

Lemma same_but_logs_watchlist d d' :
  same_but_logs d d' -> user_watchlist d' = user_watchlist d.
Proof. intros H. rewrite H. reflexivity. Qed.

Lemma same_but_logs_restricted d d' :
  same_but_logs d d' -> restricted_stocks d' = restricted_stocks d.
Proof. intros H. rewrite H. reflexivity. Qed.

Lemma same_but_logs_users d d' : same_but_logs d d' -> users d' = users d.
Proof. intros H. rewrite H. reflexivity. Qed.

(** Logging never fails and writes to [api_logs] alone. *)
Lemma logApiRequest_run userId endpoint success responseTime errorMessage env d :
  exists d', fmpApi.logApiRequest userId endpoint success responseTime errorMessage env d
             = (Returned tt, d') /\ same_but_logs d d'.
Proof.
  unfold fmpApi.logApiRequest, storage.logApiRequest, storage.dbRun, db.update,
    try_catch, bind, ret, ask.
  cbn [storage.ld_userId storage.ld_endpoint storage.ld_requestTime
       storage.ld_responseTime storage.ld_success storage.ld_errorMessage].
  simpl db.exec.
  destruct (negb _).
  - eexists. split; [reflexivity|apply same_but_logs_refl].
  - eexists. split; [reflexivity|]. unfold same_but_logs. reflexivity.
Qed.

(** The [catch] block of a fetcher always throws, after logging. *)
Lemma failed_run (A : Type) userId endpoint what error env d :
  exists e d', @fmpApi.failed A userId endpoint what error env d = (Thrown e, d')
               /\ same_but_logs d d'.
Proof.
  unfold fmpApi.failed. unfold bind at 1, ask. unfold bind at 1.
  destruct (logApiRequest_run userId endpoint false (latency env)
              (Js.or (Js.response_data_error error) (Js.str (Js.message error))) env d)
    as (d' & -> & Hd').
  unfold bind.
  destruct (Js.response_status_is error 429);
    [|destruct (Js.or _ _) as [| |b|n|m]; [| | | |destruct (Js.includes m _)]];
    simpl; do 2 eexists; (split; [reflexivity|exact Hd']).
Qed.

Lemma failed_rate_limited (A : Type) userId endpoint what error env d :
  rate_limited error ->
  exists d', @fmpApi.failed A userId endpoint what error env d
             = (Thrown (Js.new_Error fmpApi.rate_limit_message), d')
             /\ same_but_logs d d'.
Proof.
  intros Hlim. unfold rate_limited in Hlim.
  unfold fmpApi.failed. unfold bind at 1, ask. unfold bind at 1.
  destruct (logApiRequest_run userId endpoint false (latency env)
              (Js.or (Js.response_data_error error) (Js.str (Js.message error))) env d)
    as (d' & -> & Hd').
  exists d'. split; [|exact Hd']. unfold bind.
  destruct (Js.response_status_is error 429) eqn:E429; [reflexivity|].
  destruct Hlim as [H|(m & Hm & Hinc)]; [discriminate H|].
  rewrite Hm. simpl. rewrite Hinc. reflexivity.
Qed.

(** [fetchStockQuote] writes to [api_logs] alone. *)
Lemma fetchStockQuote_logs symbol userId env d :
  same_but_logs d (state_after (fmpApi.fetchStockQuote symbol userId) env d).
Proof.
  unfold state_after, fmpApi.fetchStockQuote.
  destruct (negb (Js.truthy symbol)); [apply same_but_logs_refl|].
  unfold try_catch. unfold bind at 1, ask. unfold bind at 1, fmpApi.fmpClient_get.
  destruct (fmp_get env _) as [data|err].
  - unfold bind at 1.
    destruct (logApiRequest_run userId ("/api/stocks/quote/" +++ Js.toString symbol)
                true (latency env) Js.null env d) as (d1 & -> & Hd1).
    unfold bind.
    destruct (fmpApi.first_of data env d1) as [[x|e] d2] eqn:Efirst.
    + assert (d2 = d1) as ->.
      { unfold fmpApi.first_of in Efirst.
        destruct data as [[| | | |[|]]| |]; simpl in Efirst;
          injection Efirst as _ <-; reflexivity. }
      exact Hd1.
    + assert (d2 = d1) as ->.
      { unfold fmpApi.first_of in Efirst.
        destruct data as [[| | | |[|]]| |]; simpl in Efirst;
          injection Efirst as _ <-; reflexivity. }
      destruct (failed_run Js.Json userId ("/api/stocks/quote/" +++ Js.toString symbol)
                  "Error fetching stock quote" e env d1) as (e' & d3 & -> & Hd3).
      simpl. eapply same_but_logs_trans; eassumption.
  - destruct (failed_run Js.Json userId ("/api/stocks/quote/" +++ Js.toString symbol)
                "Error fetching stock quote" err env d) as (e' & d3 & -> & Hd3).
    exact Hd3.
Qed.

(* ===================================================================== *)
(** * The watchlist *)
(* ===================================================================== *)

Lemma some_restricted_str rows s env d :
  routes_watchlist.some_restricted rows (Js.str s) env d
  = (Returned (existsb (fun stock =>
                          String.eqb (Js.toUpperCase (RestrictedStocks.symbol stock))
                                     (Js.toUpperCase s)) rows), d).
Proof.
  induction rows as [|stock rows IH]; simpl; [reflexivity|].
  unfold bind, ret. simpl.
  destruct (String.eqb _ _); [reflexivity|exact IH].
Qed.

Lemma restricted_In d s row :
  In row (restricted_stocks d) ->
  Js.toUpperCase (RestrictedStocks.symbol row) = Js.toUpperCase s ->
  restricted d s = true.
Proof.
  intros Hin Heq. apply existsb_exists. exists row. split; [exact Hin|].
  rewrite Heq. apply String.eqb_refl.
Qed.

(** [POST /items] for a string symbol, by the outcome of the quote. *)
Lemma POST_items_run user s env d :
  Js.truthy (Js.str s) = true ->
  routes_watchlist.POST_items user (Js.str s) env d =
  match fmpApi.fetchStockQuote (Js.str s) (Js.number (Users.id user)) env d with
  | (Thrown error, d1) =>
      (Returned
         (if Js.includes (Js.message error) "API rate limit"
          then express.json 429 (express.failure (Js.message error))
          else express.json 500
                 (express.failure ("Error adding stock to watchlist: " +++ Js.message error))),
       d1)
  | (Returned stockData, d1) =>
      if negb (Js.truthy_json stockData)
      then (Returned (express.json 404 (express.failure ("Invalid stock symbol: " +++ s))),
            d1)
      else if restricted d1 s
      then (Returned
              (express.json 403
                 (express.failure
                    ("Stock " +++ s +++ " is restricted and cannot be added to watchlists."))),
            d1)
      else
        match storage.addToWatchlist (Users.id user) s env d1 with
        | (Returned item, d2) =>
            (Returned
               (express.json 201
                  (Js.JObj
                     [("id", Js.J (match storage.item_id item with
                                   | Some i => Js.number i
                                   | None => Js.undefined
                                   end));
                      ("symbol", Js.J (Js.str (storage.item_symbol item)));
                      ("createdAt", Js.J (Js.number (storage.item_createdAt item)));
                      ("price", Js.get stockData "price");
                      ("name", Js.get stockData "name");
                      ("change", Js.get stockData "changesPercentage")]%string)),
             d2)
        | (Thrown error, d2) =>
            (Returned
               (if Js.includes (Js.message error) "API rate limit"
                then express.json 429 (express.failure (Js.message error))
                else express.json 500
                       (express.failure
                          ("Error adding stock to watchlist: " +++ Js.message error))),
             d2)
        end
  end.
Proof.
  intros Ht. unfold routes_watchlist.POST_items. rewrite Ht. cbn [negb].
  unfold try_catch at 1 2. unfold bind at 1.
  destruct (fmpApi.fetchStockQuote _ _ env d) as [[stockData|error] d1].
  2: { destruct (Js.includes _ _); reflexivity. }
  destruct (negb (Js.truthy_json stockData)); [reflexivity|].
  unfold bind at 1. unfold storage.getRestrictedStocks, storage.dbAll, db.query at 1.
  unfold bind at 1. rewrite some_restricted_str.
  replace (filter (fun _ => true) (restricted_stocks d1)) with (restricted_stocks d1).
  2: { induction (restricted_stocks d1) as [|x l IH]; simpl; [reflexivity|].
       f_equal. exact IH. }
  fold (restricted d1 s). destruct (restricted d1 s); [reflexivity|].
  unfold bind at 1. unfold string_of, ret at 1. unfold bind at 1.
  destruct (storage.addToWatchlist _ _ env d1) as [[item|error] d2]; [reflexivity|].
  destruct (Js.includes _ _); reflexivity.
Qed.

(** C2. For every authenticated user and every symbol on the restricted
    list (compared case-insensitively), [POST /api/watchlist/items]
    leaves the watchlist as it was, whatever it answers; it answers 403
    when the quote of the symbol resolves; and the list is consulted
    only then: for a symbol the request does carry and whose quote does
    not resolve the answer is 404. *)
Theorem restricted_symbol_is_refused :
  forall (env : Env) (d : Db) (user : Users.Row) (s : string)
         (stock : RestrictedStocks.Row),
    In stock (restricted_stocks d) ->
    Js.toUpperCase (RestrictedStocks.symbol stock) = Js.toUpperCase s ->
    let quote := result_of (fmpApi.fetchStockQuote (Js.str s)
                              (Js.number (Users.id user))) env d in
    let answer := result_of (routes_watchlist.POST_items user (Js.str s)) env d in
    let d' := state_after (routes_watchlist.POST_items user (Js.str s)) env d in
    user_watchlist d' = user_watchlist d
    /\ (forall q, quote = Returned q -> Js.truthy_json q = true ->
          answer = Returned
                     (express.json 403
                        (express.failure
                           ("Stock " +++ s
                            +++ " is restricted and cannot be added to watchlists."))))
    /\ (forall q, Js.truthy (Js.str s) = true ->
          quote = Returned q -> Js.truthy_json q = false ->
          answer = Returned
                     (express.json 404 (express.failure ("Invalid stock symbol: " +++ s)))).
Proof.
  intros env d user s stock Hin Heq quote answer d'.
  subst quote answer d'. unfold result_of, state_after.
  destruct (Js.truthy (Js.str s)) eqn:Ht.
  - rewrite (POST_items_run user s env d Ht).
    pose proof (fetchStockQuote_logs (Js.str s) (Js.number (Users.id user)) env d) as Hlogs.
    unfold state_after in Hlogs.
    destruct (fmpApi.fetchStockQuote _ _ env d) as [[q|error] d1]; simpl in Hlogs.
    + assert (Hr : restricted d1 s = true).
      { unfold restricted. rewrite (same_but_logs_restricted _ _ Hlogs).
        eapply restricted_In; eassumption. }
      rewrite Hr. destruct (Js.truthy_json q) eqn:Eq; simpl.
      * split; [apply same_but_logs_watchlist; exact Hlogs|].
        split; [reflexivity|]. intros q' _ Hq' Hf. injection Hq' as <-. congruence.
      * split; [apply same_but_logs_watchlist; exact Hlogs|].
        split; [|reflexivity]. intros q' Hq' Hf. injection Hq' as <-. congruence.
    + simpl. split; [apply same_but_logs_watchlist; exact Hlogs|].
      split; intros; discriminate.
  - (* no symbol to speak of: the request is turned down at once *)
    unfold routes_watchlist.POST_items, fmpApi.fetchStockQuote, try_catch.
    rewrite Ht. simpl.
    split; [reflexivity|]. split.
    + intros q Hq Hf. injection Hq as <-. discriminate Hf.
    + intros q Hf. discriminate Hf.
Qed.

(** Alice asks for xyz, which is restricted as XYZ: 403 when the
    upstream knows the symbol, and her watchlist is what it was. *)
Lemma restricted_symbol_is_refused_witness :
  result_of (routes_watchlist.POST_items sample.alice (Js.str "xyz"))
            sample.env_quote sample.db0
  = Returned (express.json 403
                (express.failure
                   "Stock xyz is restricted and cannot be added to watchlists."))
  /\ user_watchlist (state_after (routes_watchlist.POST_items sample.alice (Js.str "xyz"))
                                 sample.env_quote sample.db0)
     = user_watchlist sample.db0.
Proof.
  destruct (restricted_symbol_is_refused sample.env_quote sample.db0 sample.alice "xyz"
              (RestrictedStocks.mkRow 1 "XYZ" (Sql.TEXT "under review") 95 3)
              (or_introl eq_refl) eq_refl) as (Hsame & H403 & _).
  split; [|exact Hsame].
  exact (H403 sample.a_quote eq_refl eq_refl).
Defined.

(** [addToWatchlist], run. *)
Lemma addToWatchlist_run userId symbol env d :
  storage.addToWatchlist userId symbol env d =
  if existsb (watches userId (Js.toUpperCase symbol)) (user_watchlist d)
  then (Thrown (already_in_your_watchlist symbol), d)
  else if negb (db.user_exists d userId)
  then (Thrown db.FOREIGN_KEY_failed, d)
  else (Returned {| storage.item_id := None;
                    storage.item_userId := userId;
                    storage.item_symbol := Js.toUpperCase symbol;
                    storage.item_createdAt := now env |},
        with_user_watchlist d
          (user_watchlist d
             ++ [UserWatchlist.mkRow (db.next_id (sqlite_sequence env "user_watchlist")
                               (map UserWatchlist.id (user_watchlist d)))
                                     userId (Js.toUpperCase symbol) (now env)])).
Proof.
  unfold storage.addToWatchlist, storage.dbRun, db.update, try_catch, bind, ret, ask.
  simpl db.exec. fold (watches userId (Js.toUpperCase symbol)).
  destruct (existsb _ _); [reflexivity|].
  destruct (negb _); reflexivity.
Qed.

Lemma isInWatchlist_run userId symbol env d :
  storage.isInWatchlist userId symbol env d
  = (Returned (existsb (watches userId (Js.toUpperCase symbol)) (user_watchlist d)), d).
Proof.
  unfold storage.isInWatchlist, storage.dbGet, db.getOne, bind, ret.
  fold (watches userId (Js.toUpperCase symbol)).
  induction (user_watchlist d) as [|w l IH]; simpl; [reflexivity|].
  destruct (watches _ _ w); [reflexivity|]. simpl in IH.
  destruct (find _ l); injection IH as <-; reflexivity.
Qed.

Lemma removeFromWatchlist_run userId symbol env d :
  storage.removeFromWatchlist userId symbol env d
  = (Returned true,
     with_user_watchlist d
       (filter (fun w => negb (watches userId (Js.toUpperCase symbol) w))
               (user_watchlist d))).
Proof. reflexivity. Qed.

Lemma existsb_app_last (A : Type) (P : A -> bool) l x :
  P x = true -> existsb P (l ++ [x]) = true.
Proof.
  intros H. rewrite existsb_app. simpl. rewrite H. apply orb_true_iff. right. reflexivity.
Qed.



Lemma inner_catch_status error :
  express.status_of (inner_catch error) = Some 429
  \/ express.status_of (inner_catch error) = Some 500.
Proof. unfold inner_catch. destruct (Js.includes _ _); auto. Qed.

(** Adding a symbol twice, in general: once an add was answered 201,
    an identical add whose quote resolves again is answered by the inner
    [catch] of the handler, with 429 or 500 and never with 400 or 409:
    the [catch] written for the duplicate is out of reach. *)
Lemma second_add_is_caught_inside :
  forall (env env' : Env) (d d1 : Db) (user : Users.Row) (s : string) (body : Js.Json),
    routes_watchlist.POST_items user (Js.str s) env d
    = (Returned (express.json 201 body), d1) ->
    forall q d2,
      fmpApi.fetchStockQuote (Js.str s) (Js.number (Users.id user)) env' d1
      = (Returned q, d2) ->
      Js.truthy_json q = true ->
      routes_watchlist.POST_items user (Js.str s) env' d1
      = (Returned (inner_catch (already_in_your_watchlist s)), d2).
Proof.
  intros env env' d d1 user s body H1 q d2 Hq Hqt.
  assert (Ht : Js.truthy (Js.str s) = true).
  { destruct (Js.truthy (Js.str s)) eqn:E; [reflexivity|].
    unfold routes_watchlist.POST_items, try_catch in H1. rewrite E in H1.
    simpl in H1. discriminate H1. }
  rewrite (POST_items_run user s env d Ht) in H1.
  pose proof (fetchStockQuote_logs (Js.str s) (Js.number (Users.id user)) env d) as L0.
  unfold state_after in L0.
  destruct (fmpApi.fetchStockQuote _ _ env d) as [[q0|e0] d0]; simpl in L0.
  2: { destruct (Js.includes _ _); discriminate H1. }
  destruct (negb (Js.truthy_json q0)); [discriminate H1|].
  destruct (restricted d0 s) eqn:Er; [discriminate H1|].
  rewrite addToWatchlist_run in H1.
  destruct (existsb _ (user_watchlist d0)); [destruct (Js.includes _ _); discriminate H1|].
  destruct (negb (db.user_exists d0 (Users.id user)));
    [destruct (Js.includes _ _); discriminate H1|].
  injection H1 as _ <-.
  rewrite (POST_items_run user s env' _ Ht), Hq, Hqt. cbn [negb].
  pose proof (fetchStockQuote_logs (Js.str s) (Js.number (Users.id user)) env'
                (with_user_watchlist d0
                   (user_watchlist d0
                      ++ [UserWatchlist.mkRow
                            (db.next_id (sqlite_sequence env "user_watchlist")
                               (map UserWatchlist.id (user_watchlist d0)))
                            (Users.id user) (Js.toUpperCase s) (now env)]))) as L1.
  unfold state_after in L1. rewrite Hq in L1. simpl snd in L1.
  assert (Er2 : restricted d2 s = false).
  { unfold restricted in *. rewrite (same_but_logs_restricted _ _ L1). exact Er. }
  rewrite Er2, addToWatchlist_run.
  assert (Hdup : existsb (watches (Users.id user) (Js.toUpperCase s)) (user_watchlist d2)
                 = true).
  { rewrite (same_but_logs_watchlist _ _ L1). simpl. apply existsb_app_last.
    unfold watches. simpl. rewrite Z.eqb_refl, String.eqb_refl. reflexivity. }
  rewrite Hdup. reflexivity.
Qed.

(** C1 (the code departs from it). Alice adds AMZN twice. The first
    answer is 201. The second is 500, not 400 or 409, and its message
    says "already in your watchlist", in which the substring "already in
    watchlist" does not occur. *)
Theorem second_add_of_AMZN_is_500 :
  let first := routes_watchlist.POST_items sample.alice (Js.str "AMZN")
                 sample.env_quote sample.db0 in
  let second := routes_watchlist.POST_items sample.alice (Js.str "AMZN")
                  sample.env_quote (snd first) in
  option_map express.status_of
    (match fst first with Returned o => Some o | Thrown _ => None end) = Some (Some 201)
  /\ fst second
     = Returned
         (express.json 500
            (express.failure
               "Error adding stock to watchlist: Stock AMZN is already in your watchlist"))
  /\ Js.includes
       "Error adding stock to watchlist: Stock AMZN is already in your watchlist"
       "already in watchlist" = false
  /\ user_watchlist (snd second) = user_watchlist (snd first).
Proof. vm_compute. repeat split. Qed.

(* ===================================================================== *)
(** * The market-data endpoints *)
(* ===================================================================== *)

Lemma toUpperCase_empty s : String.eqb (Js.toUpperCase s) "" = String.eqb s "".
Proof. destruct s; reflexivity. Qed.

(** The four endpoints, in general: when the upstream rejects the call
    with a rate-limit signal, the answer is the one of the error handler
    for an error without a status, 500, with the rate-limit message. *)
Lemma rate_limit_is_500 :
  forall (env : Env) (d : Db) (user : Users.Row) (e : routes_stock_api.Endpoint)
         (arg : string) (error : Js.Error),
    reaches_upstream e arg = true ->
    fmp_get env (upstream_url env e arg) = Axios.Rejected error ->
    rate_limited error ->
    result_of (routes_stock_api.serve e user arg) env d = Returned (rate_limit_answer env).
Proof.
  intros env d user e arg error Hreach Hget Hlim.
  unfold result_of, routes_stock_api.serve, app.under_api.
  destruct e; cbn [reaches_upstream] in Hreach; cbn [upstream_url] in Hget;
    unfold routes_stock_api.GET_quote, routes_stock_api.GET_profile,
      routes_stock_api.GET_historical, routes_stock_api.GET_search,
      fmpApi.fetchStockQuote, fmpApi.fetchCompanyProfile, fmpApi.fetchHistoricalData,
      fmpApi.searchStocks;
    cbn [Js.truthy Js.toString];
    rewrite ?toUpperCase_empty;
    try (apply negb_true_iff in Hreach);
    try rewrite Hreach; cbn [negb orb].
  4: { destruct (String.eqb arg "") eqn:E.
       { apply String.eqb_eq in E. subst arg. discriminate Hreach. }
       cbn [negb orb].
       unfold bind at 1. unfold try_catch at 1. unfold bind at 1.
       unfold try_catch at 1. unfold bind at 1, ask. unfold bind at 1, fmpApi.fmpClient_get.
       rewrite Hget.
       destruct (failed_rate_limited Js.Json (Js.number (Users.id user))
                   ("/api/stocks/search?query=" +++ arg) "Error searching stocks"
                   error env d Hlim) as (d' & -> & _).
       reflexivity. }
  all: unfold bind at 1; unfold try_catch at 1; unfold bind at 1;
    unfold try_catch at 1; unfold bind at 1, ask; unfold bind at 1, fmpApi.fmpClient_get;
    rewrite Hget.
  - destruct (failed_rate_limited Js.Json (Js.number (Users.id user))
                ("/api/stocks/quote/" +++ Js.toUpperCase arg) "Error fetching stock quote"
                error env d Hlim) as (d' & -> & _).
    reflexivity.
  - destruct (failed_rate_limited Js.Json (Js.number (Users.id user))
                ("/api/stocks/profile/" +++ Js.toUpperCase arg)
                "Error fetching company profile"
                error env d Hlim) as (d' & -> & _).
    reflexivity.
  - destruct (failed_rate_limited Js.Json (Js.number (Users.id user))
                ("/api/stocks/historical/" +++ Js.toUpperCase arg)
                "Error fetching historical data"
                error env d Hlim) as (d' & -> & _).
    reflexivity.
Qed.

(** C5 (the code departs from it). The upstream answers 429, or 403
    with its "Limit Reach" message: each of the four read endpoints
    answers 500, not 429; the message does contain "rate limit". *)
Theorem rate_limit_is_answered_500 :
  forall e : routes_stock_api.Endpoint,
    let on_429 := result_of (routes_stock_api.serve e sample.alice "aapl")
                            sample.env_429 sample.db0 in
    let on_marker := result_of (routes_stock_api.serve e sample.alice "aapl")
                               sample.env_limit_reach sample.db0 in
    on_429 = Returned (rate_limit_answer sample.env_429)
    /\ on_marker = Returned (rate_limit_answer sample.env_limit_reach)
    /\ express.status_of (rate_limit_answer sample.env_429) = Some 500
    /\ express.message_of (rate_limit_answer sample.env_429)
       = Some "API rate limit reached. Please try again later."%string
    /\ Js.includes "API rate limit reached. Please try again later." "rate limit" = true.
Proof. intros e. destruct e; vm_compute; repeat split. Qed.

(* ===================================================================== *)
(** * Schema creation *)
(* ===================================================================== *)

Local Open Scope nat_scope.








Local Close Scope nat_scope.


(* ===================================================================== *)
(** * Upper case *)
(* ===================================================================== *)

Lemma upper_ascii_idem c : Js.upper_ascii (Js.upper_ascii c) = Js.upper_ascii c.
Proof.
  destruct c as [b0 b1 b2 b3 b4 b5 b6 b7].
  destruct b0, b1, b2, b3, b4, b5, b6, b7; reflexivity.
Qed.

Lemma toUpperCase_idem s : Js.toUpperCase (Js.toUpperCase s) = Js.toUpperCase s.
Proof.
  induction s as [|c s IH]; [reflexivity|].
  cbn [Js.toUpperCase]. rewrite upper_ascii_idem, IH. reflexivity.
Qed.
(* ===================================================================== *)
(** * More on login and registration *)
(* ===================================================================== *)

Lemma compare_keeps_db s h env d c d' :
  bcrypt.compare s h env d = (c, d') -> d' = d.
Proof.
  unfold bcrypt.compare. destruct s, h; simpl; intros H; injection H as _ <-; reflexivity.
Qed.

(** X1. A login attempt that is answered 401 has written nothing, and
    its message names one of three reasons: a credential is missing, no
    user has the username, or the password does not match. *)
Theorem failed_login_writes_nothing :
  forall (env : Env) (d d' : Db) (username password : Js.Val) (o : express.Outcome),
    routes_auth.POST_login username password env d = (Returned o, d') ->
    express.status_of o = Some 401 ->
    d' = d
    /\ (express.message_of o = Some "Missing credentials"%string
        \/ express.message_of o = Some "Incorrect username"%string
        \/ express.message_of o = Some "Incorrect password"%string).
Proof.
  intros env d d' username password o Hrun Hst.
  unfold routes_auth.POST_login, auth.local_authenticate in Hrun.
  unfold bind at 1 in Hrun.
  destruct (negb (Js.truthy username) || negb (Js.truthy password)).
  { simpl in Hrun. injection Hrun as <- <-. split; [reflexivity|]. left. reflexivity. }
  unfold auth.local_verify, try_catch, bind at 1 in Hrun.
  unfold storage.getUserByUsername, storage.dbGet, db.getOne in Hrun.
  destruct (find _ (users d)) as [u|].
  2: { simpl in Hrun. injection Hrun as <- <-. split; [reflexivity|].
       right. left. reflexivity. }
  unfold bind at 1 in Hrun.
  destruct (Js.truthy (Sql.unbind (Users.password u))).
  2: { simpl in Hrun. injection Hrun as <- <-. split; [reflexivity|].
       right. right. reflexivity. }
  destruct (bcrypt.compare password (Sql.unbind (Users.password u)) env d)
    as [[[|]|e] d1] eqn:Ecmp; apply compare_keeps_db in Ecmp; subst d1.
  - exfalso.
    cbv beta iota zeta delta [storage.updateLastLogin storage.dbRun db.update bind ret
                              auth.logIn ask try_catch db.exec] in Hrun.
    destruct (logIn_error env); [injection Hrun as <- <-; discriminate Hst|].
    rewrite updateUser_no_fields in Hrun by (intros c; destruct c; reflexivity).
    injection Hrun as <- _. discriminate Hst.
  - simpl in Hrun. injection Hrun as <- <-. split; [reflexivity|].
    right. right. reflexivity.
  - simpl in Hrun. injection Hrun as <- <-. discriminate Hst.
Qed.

(** Alice mistypes her password. *)
Lemma failed_login_writes_nothing_witness :
  snd (routes_auth.POST_login (Js.str "alice") (Js.str "wonderlnad")
         sample.env_quote sample.db0) = sample.db0.
Proof.
  destruct (failed_login_writes_nothing sample.env_quote sample.db0
              (snd (routes_auth.POST_login (Js.str "alice") (Js.str "wonderlnad")
                      sample.env_quote sample.db0))
              (Js.str "alice") (Js.str "wonderlnad")
              (express.json 401 (express.failure "Incorrect password"))
              eq_refl eq_refl) as [H _].
  exact H.
Defined.

(** X2. An account without a password hash, as a Google login creates
    it, cannot be logged into with a username and a password: whatever
    password is submitted, the answer is 401 "Incorrect password", no
    hash comparison is attempted and nothing is written. *)
Theorem no_hash_no_local_login :
  forall (env : Env) (d : Db) (username password : Js.Val) (u : Users.Row),
    Js.truthy username = true -> Js.truthy password = true ->
    storage.getUserByUsername username env d = (Returned (Some u), d) ->
    Users.password u = Sql.NULL ->
    routes_auth.POST_login username password env d
    = (Returned (express.json 401 (express.failure "Incorrect password")), d).
Proof.
  intros env d username password u Hu Hp Hfind Hnull.
  unfold routes_auth.POST_login, auth.local_authenticate.
  unfold bind at 1. rewrite Hu, Hp. cbn [negb orb].
  unfold auth.local_verify, try_catch. unfold bind at 1. rewrite Hfind.
  unfold bind at 1. rewrite Hnull. reflexivity.
Qed.

(** An account a Google sign-in has created, and a login to it with a
    password. *)
Lemma no_hash_no_local_login_witness :
  let profile := auth.mkProfile "104329" "Carol Danvers" None None in
  let d1 := snd (auth.google_verify profile sample.env_quote sample.db0) in
  map Users.password (users d1)
  = map Users.password (users sample.db0) ++ [Sql.NULL]
  /\ routes_auth.POST_login (Js.str "caroldanvers_10432") (Js.str "guess")
       sample.env_quote d1
     = (Returned (express.json 401 (express.failure "Incorrect password")), d1).
Proof.
  intros profile d1. split; [reflexivity|].
  apply (no_hash_no_local_login sample.env_quote d1 (Js.str "caroldanvers_10432")
           (Js.str "guess") (nth 3 (users d1) sample.alice)
           eq_refl eq_refl eq_refl eq_refl).
Defined.
(* ===================================================================== *)
(** * What an update leaves alone *)
(* ===================================================================== *)

Lemma credentials_assign_sets env userData r :
  patch.supplied userData Users.c_username = false ->
  patch.supplied userData Users.c_password = false ->
  patch.supplied userData Users.c_google_id = false ->
  credentials (Users.assign (Users.stored (patch.sets env userData)) r) = credentials r.
Proof.
  intros Hu Hp Hg. unfold credentials.
  rewrite id_assign.
  pose proof (get_assign_sets env userData Users.c_username r) as H1.
  pose proof (get_assign_sets env userData Users.c_password r) as H2.
  pose proof (get_assign_sets env userData Users.c_role r) as H3.
  pose proof (get_assign_sets env userData Users.c_google_id r) as H4.
  pose proof (get_assign_sets env userData Users.c_created_at r) as H5.
  pose proof (get_assign_sets env userData Users.c_last_login r) as H6.
  rewrite Hu in H1. rewrite Hp in H2. rewrite Hg in H4.
  cbn [Users.get patch.supplied patch.recognized andb] in H1, H2, H3, H4, H5, H6.
  rewrite H1, H2, H3, H4, H5, H6. reflexivity.
Qed.

Lemma updateUser_state id userData env d :
  state_after (storage.updateUser id userData) env d = d
  \/ state_after (storage.updateUser id userData) env d
     = with_users d (db.update_users (Users.assign (Users.stored (patch.sets env userData)))
                        id (users d)).
Proof.
  unfold state_after. rewrite updateUser_run.
  destruct (Js.truthy (userData Users.c_password)
            && negb (is_str (userData Users.c_password))); [left; reflexivity|].
  destruct (length (patch.sets env userData) =? 0)%nat; [left; reflexivity|].
  destruct (exec_UPDATE_users (patch.sets env userData) id env d) as [[e He]|[r Hr]].
  - rewrite He. left. reflexivity.
  - rewrite Hr. right. reflexivity.
Qed.

Lemma try_catch_state_ret (A B : Type) (c : M A) (k : A -> M B) (h : Js.Error -> B)
    env d :
  (forall a e' d', snd (k a e' d') = d') ->
  snd (try_catch (bind c k) (fun e => ret (h e)) env d) = snd (c env d).
Proof.
  intros Hk. unfold try_catch, bind.
  destruct (c env d) as [[a|e] d1]; cbn [snd].
  - specialize (Hk a env d1). destruct (k a env d1) as [[b|e] d2]; exact Hk.
  - reflexivity.
Qed.

(** X3. A profile update through PUT /auth/user, whatever its body and
    whoever sends it, changes no account's id, username, password hash,
    role, Google id, creation time or last login, and touches no table
    but [users]. *)
Theorem profile_update_keeps_credentials :
  forall (env : Env) (d : Db) (user : Users.Row)
         (fullName email avatar address darkMode : Js.Val),
    let d' := state_after
                (routes_auth.PUT_user user fullName email avatar address darkMode) env d in
    map credentials (users d') = map credentials (users d)
    /\ with_users d' (users d) = d.
Proof.
  intros env d user fullName email avatar address darkMode d'.
  assert (Hd' : d' = state_after
                       (storage.updateUser (Users.id user)
                          (fun c => match c with
                                    | Users.c_full_name => fullName
                                    | Users.c_email => email
                                    | Users.c_avatar => avatar
                                    | Users.c_address => address
                                    | Users.c_dark_mode =>
                                        if Js.defined darkMode
                                        then Js.boolean (Js.truthy darkMode)
                                        else Js.undefined
                                    | _ => Js.undefined
                                    end)) env d).
  { unfold d', state_after, routes_auth.PUT_user.
    apply try_catch_state_ret.
    intros a e' d1. unfold bind, routes_auth.strip_password.
    destruct a; reflexivity. }
  rewrite Hd'.
  match goal with
  | |- context [storage.updateUser ?i ?u] =>
      destruct (updateUser_state i u env d) as [H|H]; rewrite H
  end.
  - split; [reflexivity | apply with_users_same].
  - split.
    + cbn [users with_users]. apply update_users_keeps.
      intros r. apply credentials_assign_sets; reflexivity.
    + destruct d; reflexivity.
Qed.

Lemma placement_assign sets q :
  placement (PortfolioPositions.assign sets q) = placement q.
Proof.
  revert q. induction sets as [|[c v] rest IH]; intros q; [reflexivity|].
  simpl. rewrite IH. destruct c; reflexivity.
Qed.

Lemma ownership_assign sets p : ownership (Portfolio.assign sets p) = ownership p.
Proof.
  revert p. induction sets as [|[c v] rest IH]; intros p; [reflexivity|].
  simpl. rewrite IH. destruct c; reflexivity.
Qed.

Lemma map_if_keeps (R A : Type) (g : R -> A) (P : R -> bool) (f : R -> R) rows :
  (forall r, g (f r) = g r) ->
  map g (map (fun r => if P r then f r else r) rows) = map g rows.
Proof.
  intros Hf. rewrite map_map. apply map_ext. intros r.
  destruct (P r); [apply Hf | reflexivity].
Qed.

Lemma updatePosition_state id positionData env d :
  state_after (storage.updatePosition id positionData) env d = d
  \/ exists sets,
       state_after (storage.updatePosition id positionData) env d
       = with_portfolio_positions d
           (map (fun q => if PortfolioPositions.id q =? id
                          then PortfolioPositions.assign sets q else q)
                (portfolio_positions d)).
Proof.
  unfold state_after, storage.updatePosition.
  match goal with
  | |- context [(length ?s =? 0)%nat] => generalize s; intros sets
  end.
  destruct (length sets =? 0)%nat; [left; reflexivity|].
  unfold storage.dbRun, db.update, bind, ret, storage.getPosition, storage.dbGet,
    db.getOne, db.exec.
  destruct (existsb _ _); [left; reflexivity|].
  destruct (existsb _ _); [left; reflexivity|].
  right. exists (PortfolioPositions.stored sets). reflexivity.
Qed.

Lemma updatePortfolio_state id portfolioData env d :
  state_after (storage.updatePortfolio id portfolioData) env d = d
  \/ exists sets,
       state_after (storage.updatePortfolio id portfolioData) env d
       = with_portfolio d
           (map (fun p => if Portfolio.id p =? id then Portfolio.assign sets p else p)
                (portfolio d)).
Proof.
  unfold state_after, storage.updatePortfolio.
  match goal with
  | |- context [(length ?s =? 0)%nat] => generalize s; intros sets
  end.
  destruct (length sets =? 0)%nat; [left; reflexivity|].
  unfold storage.dbRun, db.update, bind, ret, storage.getPortfolio, storage.dbGet,
    db.getOne, db.exec.
  destruct (existsb _ _); [left; reflexivity|].
  right. exists (Portfolio.stored sets). reflexivity.
Qed.

(** X4. Updating a position never changes its id, the portfolio it
    belongs to or its symbol, and updating a portfolio never changes its
    id, its owner or its creation time: the rows keep their number and
    order, and no other table is touched. *)
Theorem updates_keep_placement_and_ownership :
  forall (env : Env) (d : Db) (id : Z)
         (positionData : PortfolioPositions.Col -> Js.Val)
         (portfolioData : Portfolio.Col -> Js.Val),
    let d1 := state_after (storage.updatePosition id positionData) env d in
    let d2 := state_after (storage.updatePortfolio id portfolioData) env d in
    (map placement (portfolio_positions d1) = map placement (portfolio_positions d)
     /\ with_portfolio_positions d1 (portfolio_positions d) = d)
    /\ (map ownership (portfolio d2) = map ownership (portfolio d)
        /\ with_portfolio d2 (portfolio d) = d).
Proof.
  intros env d id positionData portfolioData d1 d2. split.
  - subst d1. destruct (updatePosition_state id positionData env d) as [H|[sets H]];
      rewrite H.
    + split; [reflexivity | destruct d; reflexivity].
    + split; [|destruct d; reflexivity].
      cbn [portfolio_positions with_portfolio_positions].
      apply map_if_keeps. intros q. apply placement_assign.
  - subst d2. destruct (updatePortfolio_state id portfolioData env d) as [H|[sets H]];
      rewrite H.
    + split; [reflexivity | destruct d; reflexivity].
    + split; [|destruct d; reflexivity].
      cbn [portfolio with_portfolio].
      apply map_if_keeps. intros p. apply ownership_assign.
Qed.
(* ===================================================================== *)
(** * What an insert resolves with *)
(* ===================================================================== *)

Lemma find_never (R : Type) (rows : list R) : find (fun _ => false) rows = None.
Proof. induction rows; simpl; auto. Qed.

Lemma addPosition_run positionData env d :
  storage.addPosition positionData env d
  = match db.exec
            (db.INSERT_INTO_portfolio_positions
               (storage.pd_portfolio_id positionData)
               (Js.toUpperCase (storage.pd_symbol positionData))
               (Sql.bind (storage.pd_shares positionData))
               (Sql.bind (storage.pd_purchase_price positionData))
               (Sql.bind (Js.or (storage.pd_purchase_date positionData)
                                (Js.number (now env))))
               (Sql.bind (Js.or (storage.pd_notes positionData) Js.null))) env d with
    | (Returned _, d') => (Returned None, d')
    | (Thrown e, d') => (Thrown e, d')
    end.
Proof.
  unfold storage.addPosition, storage.dbRun, db.update, bind, ask, ret.
  destruct (db.exec _ env d) as [[r|e] d']; [|reflexivity].
  unfold storage.getPosition, storage.dbGet, db.getOne, storage.lastID, storage.id_is.
  rewrite find_never. reflexivity.
Qed.

Lemma createPortfolio_run user_id name description env d :
  storage.createPortfolio user_id name description env d
  = match db2.exec (db2.INSERT_INTO_portfolio user_id (Sql.bind name)
                      (Sql.bind (Js.or description Js.null))) env d with
    | (Returned _, d') => (Returned None, d')
    | (Thrown e, d') => (Thrown e, d')
    end.
Proof.
  unfold storage.createPortfolio, db2.update, bind, ret.
  destruct (db2.exec _ env d) as [[r|e] d']; [|reflexivity].
  unfold storage.getPortfolio, storage.dbGet, db.getOne, storage.lastID, storage.id_is.
  rewrite find_never. reflexivity.
Qed.

Lemma getPortfolio_run pid env d :
  storage.getPortfolio (Some pid) env d
  = (Returned (find (fun p => Portfolio.id p =? pid) (portfolio d)), d).
Proof. reflexivity. Qed.

Lemma getPosition_run i env d :
  storage.getPosition (Some i) env d
  = (Returned (find (fun q => PortfolioPositions.id q =? i) (portfolio_positions d)), d).
Proof. reflexivity. Qed.

Lemma exec_INSERT_position pid sym shares price date notes env d :
  (exists e, db.exec (db.INSERT_INTO_portfolio_positions pid sym shares price date notes)
               env d = (Thrown e, d))
  \/ (db.portfolio_exists d pid = true
      /\ exists r,
        db.exec (db.INSERT_INTO_portfolio_positions pid sym shares price date notes) env d
        = (Returned r,
           with_portfolio_positions d
             (portfolio_positions d
                ++ [PortfolioPositions.mkRow
                      (db.next_id (sqlite_sequence env "portfolio_positions")
                                  (map PortfolioPositions.id (portfolio_positions d)))
                      pid sym shares price date (Sql.text notes)]))).
Proof.
  unfold db.exec.
  destruct (Sql.is_null shares); [left; eexists; reflexivity|].
  destruct (Sql.is_null price); [left; eexists; reflexivity|].
  destruct (db.portfolio_exists d pid); [|left; eexists; reflexivity].
  right. split; [reflexivity|]. eexists. reflexivity.
Qed.

Lemma exec_INSERT_portfolio uid name description env d :
  (exists e, db2.exec (db2.INSERT_INTO_portfolio uid name description) env d = (Thrown e, d))
  \/ (exists r,
        db2.exec (db2.INSERT_INTO_portfolio uid name description) env d
        = (Returned r,
           with_portfolio d
             (portfolio d
                ++ [Portfolio.mkRow (db.next_id (sqlite_sequence env "portfolio")
                                                (map Portfolio.id (portfolio d)))
                                    uid (Sql.text name) (Sql.text description)
                                    (now env)]))).
Proof.
  unfold db2.exec.
  destruct (Sql.is_null name); [left; eexists; reflexivity|].
  destruct (db.user_exists d uid); [|left; eexists; reflexivity].
  right. eexists. reflexivity.
Qed.

(** X5. [addPosition] and [createPortfolio] insert their row and then
    resolve with [undefined], not with the row: they look the new row up
    by [result.lastID], which the number of changes [dbRun] resolves
    with does not have. So a 201 of POST /:id/positions or of
    POST /api/portfolio carries no body, although exactly one row was
    added, for the portfolio of the path or the user of the session. *)
Theorem created_rows_are_not_returned :
  forall (env : Env) (d d' : Db) (user : Users.Row) (o : express.Outcome),
    (forall portfolioId body,
       routes_portfolio.POST_positions user portfolioId body env d = (Returned o, d') ->
       express.status_of o = Some 201 ->
       o = express.json 201 (Js.J Js.undefined)
       /\ exists q, portfolio_positions d' = portfolio_positions d ++ [q]
                    /\ Some (PortfolioPositions.portfolio_id q) = portfolioId)
    /\ (forall name description,
          routes_portfolio.POST_create user name description env d = (Returned o, d') ->
          express.status_of o = Some 201 ->
          o = express.json 201 (Js.J Js.undefined)
          /\ exists p, portfolio d' = portfolio d ++ [p]
                       /\ Portfolio.user_id p = Users.id user).
Proof.
  intros env d d' user o. split.
  - intros portfolioId body Hrun Hst.
    unfold routes_portfolio.POST_positions in Hrun.
    destruct portfolioId as [pid|];
      [|injection Hrun as <- <-; discriminate Hst].
    destruct (negb (Js.truthy (routes_portfolio.symbol body))
              || negb (Js.truthy (routes_portfolio.shares body))
              || negb (Js.truthy (routes_portfolio.purchase_price body)));
      [injection Hrun as <- <-; discriminate Hst|].
    unfold routes_portfolio.failing, routes_portfolio.with_own_portfolio, try_catch in Hrun.
    unfold bind at 1 in Hrun. rewrite getPortfolio_run in Hrun.
    destruct (find _ (portfolio d)) as [p|];
      [|injection Hrun as <- <-; discriminate Hst].
    destruct (negb (Portfolio.user_id p =? Users.id user));
      [injection Hrun as <- <-; discriminate Hst|].
    unfold bind at 1 in Hrun.
    destruct (routes_portfolio.symbol body) as [| |b|n|s];
      try (cbn in Hrun; injection Hrun as <- <-; discriminate Hst).
    cbn [string_of ret] in Hrun.
    unfold bind at 1 in Hrun. rewrite addPosition_run in Hrun.
    cbn [storage.pd_portfolio_id storage.pd_symbol storage.pd_shares
         storage.pd_purchase_price storage.pd_purchase_date storage.pd_notes] in Hrun.
    match type of Hrun with
    | context [db.exec (db.INSERT_INTO_portfolio_positions ?a ?b ?c ?dd ?e ?f) _ _] =>
        destruct (exec_INSERT_position a b c dd e f env d) as [[e0 He]|[_ [r Hr]]]
    end.
    + rewrite He in Hrun. cbn in Hrun. injection Hrun as <- <-. discriminate Hst.
    + rewrite Hr in Hrun. cbn in Hrun. injection Hrun as <- <-.
      split; [reflexivity|]. eexists. split; reflexivity.
  - intros name description Hrun Hst.
    unfold routes_portfolio.POST_create in Hrun.
    destruct (negb (Js.truthy name));
      [injection Hrun as <- <-; discriminate Hst|].
    unfold routes_portfolio.failing, try_catch in Hrun.
    unfold bind at 1 in Hrun. rewrite createPortfolio_run in Hrun.
    match type of Hrun with
    | context [db2.exec (db2.INSERT_INTO_portfolio ?a ?b ?c) _ _] =>
        destruct (exec_INSERT_portfolio a b c env d) as [[e0 He]|[r Hr]]
    end.
    + rewrite He in Hrun. cbn in Hrun. injection Hrun as <- <-. discriminate Hst.
    + rewrite Hr in Hrun. cbn in Hrun. injection Hrun as <- <-.
      split; [reflexivity|]. eexists. split; reflexivity.
Qed.

(** Alice adds ten shares of a stock to her portfolio 7. *)
Lemma created_rows_are_not_returned_witness :
  let body := routes_portfolio.mkPositionBody (Js.str "msft") (Js.number 10)
                (Js.number 300) Js.undefined Js.undefined in
  let run := routes_portfolio.POST_positions sample.alice (Some 7) body
               sample.env_quote sample.db0 in
  let o := match fst run with Returned o => o | Thrown e => express.Next e end in
  express.status_of o = Some 201
  /\ o = express.json 201 (Js.J Js.undefined)
  /\ length (portfolio_positions (snd run)) = 2%nat.
Proof.
  intros body run o.
  destruct (created_rows_are_not_returned sample.env_quote sample.db0 (snd run)
              sample.alice o) as [H _].
  destruct (H (Some 7) body eq_refl eq_refl) as [Ho [q [Hq _]]].
  split; [reflexivity|]. split; [exact Ho|]. rewrite Hq. reflexivity.
Defined.
(* ===================================================================== *)
(** * Portfolios: what a request can reach *)
(* ===================================================================== *)

Lemma bind_ret_state (A B : Type) (c : M A) (f : A -> B) env d :
  snd ((x <- c ;; ret (f x)) env d) = snd (c env d).
Proof. unfold bind, ret. destruct (c env d) as [[a|e] d1]; reflexivity. Qed.

Lemma ret_bind (A B : Type) (a : A) (k : A -> M B) env d :
  (x <- ret a ;; k x) env d = k a env d.
Proof. reflexivity. Qed.

Lemma failing_state what c env d :
  snd (routes_portfolio.failing what c env d) = snd (c env d).
Proof.
  unfold routes_portfolio.failing, try_catch.
  destruct (c env d) as [[o|e] d1]; reflexivity.
Qed.

Lemma with_own_portfolio_state user pid next env d :
  snd (routes_portfolio.with_own_portfolio user pid next env d) = d
  \/ exists p, find (fun p => Portfolio.id p =? pid) (portfolio d) = Some p
               /\ owned_by user p = true
               /\ snd (routes_portfolio.with_own_portfolio user pid next env d)
                  = snd (next p env d).
Proof.
  unfold routes_portfolio.with_own_portfolio. unfold bind at 1 2.
  rewrite getPortfolio_run.
  destruct (find _ (portfolio d)) as [p|] eqn:Ef; [|left; reflexivity].
  destruct (Portfolio.user_id p =? Users.id user) eqn:Eo; [|left; reflexivity].
  right. exists p. split; [reflexivity|]. split; [exact Eo|]. reflexivity.
Qed.

Lemma with_position_of_state pid i next env d :
  snd (routes_portfolio.with_position_of pid i next env d) = d
  \/ exists q, find (fun q => PortfolioPositions.id q =? i) (portfolio_positions d) = Some q
               /\ PortfolioPositions.portfolio_id q = pid
               /\ snd (routes_portfolio.with_position_of pid i next env d)
                  = snd (next q env d).
Proof.
  unfold routes_portfolio.with_position_of. unfold bind at 1 2.
  rewrite getPosition_run.
  destruct (find _ (portfolio_positions d)) as [q|] eqn:Ef; [|left; reflexivity].
  destruct (PortfolioPositions.portfolio_id q =? pid) eqn:Eo; [|left; reflexivity].
  right. exists q. split; [reflexivity|]. split; [apply Z.eqb_eq; exact Eo|]. reflexivity.
Qed.

Lemma find_unique (R : Type) (key : R -> Z) (i : Z) (rows : list R) (r : R) :
  NoDup (map key rows) ->
  find (fun x => key x =? i) rows = Some r ->
  forall x, In x rows -> key x = i -> x = r.
Proof.
  induction rows as [|a rows IH]; intros Hnd Hf x Hin Hk; [contradiction|].
  simpl in Hnd. apply NoDup_cons_iff in Hnd. destruct Hnd as [Hnotin Hnd'].
  simpl in Hf. destruct (key a =? i) eqn:Ea.
  - injection Hf as <-. apply Z.eqb_eq in Ea.
    destruct Hin as [->|Hin]; [reflexivity|].
    exfalso. apply Hnotin. rewrite Ea, <- Hk. apply in_map. exact Hin.
  - destruct Hin as [->|Hin].
    + rewrite Hk, Z.eqb_refl in Ea. discriminate Ea.
    + apply IH; assumption.
Qed.

Lemma find_In (R : Type) (P : R -> bool) rows r :
  find P rows = Some r -> In r rows /\ P r = true.
Proof. apply find_some. Qed.

Lemma filter_map_if (R : Type) (P Q : R -> bool) (f : R -> R) rows :
  (forall r, In r rows -> Q r = true -> P r = false /\ P (f r) = false) ->
  filter P (map (fun r => if Q r then f r else r) rows) = filter P rows.
Proof.
  induction rows as [|a rows IH]; intros H; [reflexivity|].
  simpl. rewrite IH by (intros r Hr; apply H; right; exact Hr).
  destruct (Q a) eqn:Ea; [|reflexivity].
  destruct (H a (or_introl eq_refl) Ea) as [H1 H2]. rewrite H1, H2. reflexivity.
Qed.

Lemma filter_filter_out (R : Type) (P Q : R -> bool) rows :
  (forall r, In r rows -> Q r = false -> P r = false) ->
  filter P (filter Q rows) = filter P rows.
Proof.
  induction rows as [|a rows IH]; intros H; [reflexivity|].
  simpl. destruct (Q a) eqn:Ea; simpl;
    rewrite IH by (intros r Hr; apply H; right; exact Hr); [reflexivity|].
  rewrite (H a (or_introl eq_refl) Ea). reflexivity.
Qed.

Lemma filter_app_last (R : Type) (P : R -> bool) rows x :
  P x = false -> filter P (rows ++ [x]) = filter P rows.
Proof. intros H. rewrite filter_app. simpl. rewrite H. apply app_nil_r. Qed.

Lemma held_by_intro d user p q :
  In p (portfolio d) -> owned_by user p = true ->
  Portfolio.id p = PortfolioPositions.portfolio_id q ->
  held_by d user q = true.
Proof.
  intros Hin Ho Hid. unfold held_by. apply existsb_exists. exists p.
  split; [exact Hin|]. rewrite Hid, Z.eqb_refl, Ho. reflexivity.
Qed.

Lemma owned_by_assign user sets p :
  owned_by user (Portfolio.assign sets p) = owned_by user p.
Proof.
  unfold owned_by. pose proof (ownership_assign sets p) as H.
  unfold ownership in H. injection H as _ -> _. reflexivity.
Qed.

Lemma held_by_assign d user sets q :
  held_by d user (PortfolioPositions.assign sets q) = held_by d user q.
Proof.
  unfold held_by. pose proof (placement_assign sets q) as H.
  unfold placement in H. injection H as _ -> _. reflexivity.
Qed.

Lemma deletePortfolio_state pid env d :
  snd (storage.deletePortfolio pid env d)
  = let d1 := with_portfolio d (filter (fun p => negb (Portfolio.id p =? pid)) (portfolio d)) in
    if existsb (fun p => Portfolio.id p =? pid) (portfolio d)
    then with_portfolio_positions d1
           (filter (fun q => negb (PortfolioPositions.portfolio_id q =? pid))
                   (portfolio_positions d))
    else d1.
Proof.
  unfold storage.deletePortfolio, storage.dbRun, db.update, bind, ret, db.exec.
  cbn [snd fst]. cbv zeta.
  assert (H : (0 <? Z.of_nat (length (filter (fun p => Portfolio.id p =? pid) (portfolio d))))
              = existsb (fun p => Portfolio.id p =? pid) (portfolio d)).
  { induction (portfolio d) as [|a l IH]; [reflexivity|].
    simpl. destruct (Portfolio.id a =? pid); simpl; [|exact IH].
    apply Z.ltb_lt. lia. }
  rewrite H. destruct (existsb _ (portfolio d)); reflexivity.
Qed.

Lemma deletePosition_state i env d :
  snd (storage.deletePosition i env d)
  = with_portfolio_positions d
      (filter (fun q => negb (PortfolioPositions.id q =? i)) (portfolio_positions d)).
Proof. reflexivity. Qed.

Lemma negb_false_eqb a b : negb (a =? b) = false -> a = b.
Proof. intros H. apply negb_false_iff in H. apply Z.eqb_eq. exact H. Qed.

(** X6. A portfolio-scoped request reaches the sender's own portfolios
    only. Where the ids of the two tables are unique, whatever a user
    sends under /api/portfolio/:id, the portfolios of other users and
    the positions outside the user's portfolios are afterwards what they
    were, row for row, and no other table has changed. *)
Theorem portfolio_requests_stay_in_scope :
  forall (env : Env) (d : Db) (user : Users.Row) (portfolioId : option Z)
         (r : routes_portfolio.Scoped),
    NoDup (map Portfolio.id (portfolio d)) ->
    NoDup (map PortfolioPositions.id (portfolio_positions d)) ->
    let d' := state_after (routes_portfolio.handle user portfolioId r) env d in
    filter (fun p => negb (owned_by user p)) (portfolio d')
    = filter (fun p => negb (owned_by user p)) (portfolio d)
    /\ filter (fun q => negb (held_by d user q)) (portfolio_positions d')
       = filter (fun q => negb (held_by d user q)) (portfolio_positions d)
    /\ with_portfolio_positions (with_portfolio d' (portfolio d)) (portfolio_positions d) = d.
Proof.
  intros env d user portfolioId r Hnd Hndq d'.
  assert (Hsame : forall d1, d1 = d ->
    filter (fun p => negb (owned_by user p)) (portfolio d1)
    = filter (fun p => negb (owned_by user p)) (portfolio d)
    /\ filter (fun q => negb (held_by d user q)) (portfolio_positions d1)
       = filter (fun q => negb (held_by d user q)) (portfolio_positions d)
    /\ with_portfolio_positions (with_portfolio d1 (portfolio d)) (portfolio_positions d) = d).
  { intros d1 ->. repeat split. destruct d; reflexivity. }
  unfold state_after in d'.
  destruct portfolioId as [pid|].
  2: { apply Hsame. subst d'. destruct r as [| | | | |[?|] ?|[?|]]; reflexivity. }
  destruct r as [|name description| | |body|positionId body|positionId];
    cbn [routes_portfolio.handle] in d'.
  - (* GET /:id *)
    apply Hsame. subst d'. unfold routes_portfolio.GET_id. rewrite failing_state.
    destruct (with_own_portfolio_state user pid
                (fun portfolio =>
                   positions <- storage.getPortfolioPositions pid ;;
                   ret (express.json 200
                          (Js.JObj (Portfolio.fields portfolio
                                    ++ [("positions"%string,
                                         Js.JArr (map PortfolioPositions.to_json positions))]))))
                env d) as [H|(p & _ & _ & H)]; rewrite H; reflexivity.
  - (* PUT /:id *)
    subst d'. unfold routes_portfolio.PUT_id. rewrite failing_state.
    match goal with
    | |- context [routes_portfolio.with_own_portfolio user pid ?next] =>
        destruct (with_own_portfolio_state user pid next env d) as [H|(p & Hp & Ho & H)];
          rewrite H; clear H
    end; [apply Hsame; reflexivity|].
    rewrite bind_ret_state.
    match goal with
    | |- context [storage.updatePortfolio pid ?data] =>
        destruct (updatePortfolio_state pid data env d) as [H|[sets H]];
          unfold state_after in H; rewrite H; clear H
    end; [apply Hsame; reflexivity|].
    cbn [portfolio portfolio_positions with_portfolio with_portfolio_positions].
    split; [|split; [reflexivity | destruct d; reflexivity]].
    apply filter_map_if. intros x Hin Hx. apply Z.eqb_eq in Hx.
    rewrite (find_unique _ Portfolio.id pid (portfolio d) p Hnd Hp x Hin Hx).
    rewrite owned_by_assign, Ho. split; reflexivity.
  - (* DELETE /:id *)
    subst d'. unfold routes_portfolio.DELETE_id. rewrite failing_state.
    match goal with
    | |- context [routes_portfolio.with_own_portfolio user pid ?next] =>
        destruct (with_own_portfolio_state user pid next env d) as [H|(p & Hp & Ho & H)];
          rewrite H; clear H
    end; [apply Hsame; reflexivity|].
    rewrite bind_ret_state, deletePortfolio_state. cbv zeta.
    destruct (find_In _ _ _ _ Hp) as [Hin Hid]. apply Z.eqb_eq in Hid.
    assert (Hport :
      filter (fun p0 => negb (owned_by user p0))
             (filter (fun p0 => negb (Portfolio.id p0 =? pid)) (portfolio d))
      = filter (fun p0 => negb (owned_by user p0)) (portfolio d)).
    { apply filter_filter_out. intros x Hx Hq. apply negb_false_eqb in Hq.
      rewrite (find_unique _ Portfolio.id pid (portfolio d) p Hnd Hp x Hx Hq), Ho.
      reflexivity. }
    destruct (existsb _ (portfolio d));
      cbn [portfolio portfolio_positions with_portfolio with_portfolio_positions].
    + split; [exact Hport|]. split; [|destruct d; reflexivity].
      apply filter_filter_out. intros q Hq Hpid. apply negb_false_eqb in Hpid.
      rewrite (held_by_intro d user p q Hin Ho); [reflexivity|].
      rewrite Hid, Hpid. reflexivity.
    + split; [exact Hport|]. split; [reflexivity | destruct d; reflexivity].
  - (* GET /:id/positions *)
    apply Hsame. subst d'. unfold routes_portfolio.GET_positions. rewrite failing_state.
    match goal with
    | |- context [routes_portfolio.with_own_portfolio user pid ?next] =>
        destruct (with_own_portfolio_state user pid next env d) as [H|(p & _ & _ & H)];
          rewrite H; reflexivity
    end.
  - (* POST /:id/positions *)
    subst d'. unfold routes_portfolio.POST_positions.
    destruct (negb (Js.truthy (routes_portfolio.symbol body))
              || negb (Js.truthy (routes_portfolio.shares body))
              || negb (Js.truthy (routes_portfolio.purchase_price body)));
      [apply Hsame; reflexivity|].
    rewrite failing_state.
    match goal with
    | |- context [routes_portfolio.with_own_portfolio user pid ?next] =>
        destruct (with_own_portfolio_state user pid next env d) as [H|(p & Hp & Ho & H)];
          rewrite H; clear H
    end; [apply Hsame; reflexivity|].
    destruct (routes_portfolio.symbol body) as [| |b|n|s];
      try (apply Hsame; reflexivity).
    cbn [string_of]. rewrite ret_bind, bind_ret_state, addPosition_run.
    cbn [storage.pd_portfolio_id storage.pd_symbol storage.pd_shares
         storage.pd_purchase_price storage.pd_purchase_date storage.pd_notes].
    match goal with
    | |- context [db.exec (db.INSERT_INTO_portfolio_positions ?a ?b ?c ?dd ?e ?f) _ _] =>
        destruct (exec_INSERT_position a b c dd e f env d) as [[e0 He]|[_ [r0 Hr]]]
    end.
    + rewrite He. apply Hsame. reflexivity.
    + rewrite Hr.
      cbn [snd portfolio portfolio_positions with_portfolio with_portfolio_positions].
      split; [reflexivity|]. split; [|destruct d; reflexivity].
      apply filter_app_last.
      destruct (find_In _ _ _ _ Hp) as [Hin Hid]. apply Z.eqb_eq in Hid.
      rewrite (held_by_intro d user p _ Hin Ho); [reflexivity|exact Hid].
  - (* PUT /:portfolioId/positions/:id *)
    subst d'. unfold routes_portfolio.PUT_position.
    destruct positionId as [i|]; [|apply Hsame; reflexivity].
    rewrite failing_state.
    match goal with
    | |- context [routes_portfolio.with_own_portfolio user pid ?next] =>
        destruct (with_own_portfolio_state user pid next env d) as [H|(p & Hp & Ho & H)];
          rewrite H; clear H
    end; [apply Hsame; reflexivity|].
    match goal with
    | |- context [routes_portfolio.with_position_of pid i ?next] =>
        destruct (with_position_of_state pid i next env d) as [H|(q & Hq & Hqp & H)];
          rewrite H; clear H
    end; [apply Hsame; reflexivity|].
    rewrite bind_ret_state.
    match goal with
    | |- context [storage.updatePosition i ?data] =>
        destruct (updatePosition_state i data env d) as [H|[sets H]];
          unfold state_after in H; rewrite H; clear H
    end; [apply Hsame; reflexivity|].
    cbn [portfolio portfolio_positions with_portfolio with_portfolio_positions].
    split; [reflexivity|]. split; [|destruct d; reflexivity].
    destruct (find_In _ _ _ _ Hp) as [Hin Hid]. apply Z.eqb_eq in Hid.
    apply filter_map_if. intros x Hx Hxi. apply Z.eqb_eq in Hxi.
    rewrite (find_unique _ PortfolioPositions.id i (portfolio_positions d) q Hndq Hq x Hx Hxi).
    rewrite held_by_assign.
    rewrite (held_by_intro d user p q Hin Ho); [split; reflexivity|].
    rewrite Hid, Hqp. reflexivity.
  - (* DELETE /:portfolioId/positions/:id *)
    subst d'. unfold routes_portfolio.DELETE_position.
    destruct positionId as [i|]; [|apply Hsame; reflexivity].
    rewrite failing_state.
    match goal with
    | |- context [routes_portfolio.with_own_portfolio user pid ?next] =>
        destruct (with_own_portfolio_state user pid next env d) as [H|(p & Hp & Ho & H)];
          rewrite H; clear H
    end; [apply Hsame; reflexivity|].
    match goal with
    | |- context [routes_portfolio.with_position_of pid i ?next] =>
        destruct (with_position_of_state pid i next env d) as [H|(q & Hq & Hqp & H)];
          rewrite H; clear H
    end; [apply Hsame; reflexivity|].
    rewrite bind_ret_state, deletePosition_state.
    cbn [portfolio portfolio_positions with_portfolio with_portfolio_positions].
    split; [reflexivity|]. split; [|destruct d; reflexivity].
    destruct (find_In _ _ _ _ Hp) as [Hin Hid]. apply Z.eqb_eq in Hid.
    apply filter_filter_out. intros x Hx Hxi. apply negb_false_eqb in Hxi.
    rewrite (find_unique _ PortfolioPositions.id i (portfolio_positions d) q Hndq Hq x Hx Hxi).
    rewrite (held_by_intro d user p q Hin Ho); [reflexivity|].
    rewrite Hid, Hqp. reflexivity.
Qed.

(** Alice deletes her portfolio 7: Bob's portfolio 8 and his position in
    it are still there. *)
Lemma portfolio_requests_stay_in_scope_witness :
  let d' := state_after
              (routes_portfolio.handle sample.alice (Some 7) routes_portfolio.delete_portfolio)
              sample.env_quote db_two_portfolios in
  map Portfolio.id (portfolio db_two_portfolios) = [7; 8]
  /\ map PortfolioPositions.id (portfolio_positions db_two_portfolios) = [4; 5]
  /\ map Portfolio.id (filter (fun p => negb (owned_by sample.alice p)) (portfolio d')) = [8]
  /\ map PortfolioPositions.id
       (filter (fun q => negb (held_by db_two_portfolios sample.alice q))
               (portfolio_positions d')) = [5].
Proof.
  intros d'.
  assert (H1 : NoDup (map Portfolio.id (portfolio db_two_portfolios))).
  { repeat constructor; simpl; intuition discriminate. }
  assert (H2 : NoDup (map PortfolioPositions.id (portfolio_positions db_two_portfolios))).
  { repeat constructor; simpl; intuition discriminate. }
  destruct (portfolio_requests_stay_in_scope sample.env_quote db_two_portfolios
              sample.alice (Some 7) routes_portfolio.delete_portfolio H1 H2)
    as (Hp & Hq & _).
  split; [reflexivity|]. split; [reflexivity|]. split.
  - unfold d'. rewrite Hp. reflexivity.
  - unfold d'. rewrite Hq. reflexivity.
Defined.

Section Keyed.

Variables (R : Type) (key : R -> Z).

Lemma find_filter_same i rows :
  find (fun x => key x =? i) (filter (fun x => negb (key x =? i)) rows) = None.
Proof.
  induction rows as [|a rows IH]; [reflexivity|].
  simpl. destruct (key a =? i) eqn:E; simpl; [exact IH|]. rewrite E. exact IH.
Qed.

Lemma find_filter_other i j rows :
  j <> i ->
  find (fun x => key x =? j) (filter (fun x => negb (key x =? i)) rows)
  = find (fun x => key x =? j) rows.
Proof.
  intros Hj. induction rows as [|a rows IH]; [reflexivity|].
  simpl. destruct (key a =? i) eqn:E; simpl.
  - apply Z.eqb_eq in E. rewrite E.
    destruct (i =? j) eqn:E'; [apply Z.eqb_eq in E'; congruence | exact IH].
  - destruct (key a =? j); [reflexivity | exact IH].
Qed.

Lemma filter_filter_same i rows :
  filter (fun x => key x =? i) (filter (fun x => negb (key x =? i)) rows) = [].
Proof.
  induction rows as [|a rows IH]; [reflexivity|].
  simpl. destruct (key a =? i) eqn:E; simpl; [exact IH|]. rewrite E. exact IH.
Qed.

Lemma filter_filter_other i j rows :
  j <> i ->
  filter (fun x => key x =? j) (filter (fun x => negb (key x =? i)) rows)
  = filter (fun x => key x =? j) rows.
Proof.
  intros Hj. induction rows as [|a rows IH]; [reflexivity|].
  simpl. destruct (key a =? i) eqn:E; simpl.
  - apply Z.eqb_eq in E. rewrite E.
    destruct (i =? j) eqn:E'; [apply Z.eqb_eq in E'; congruence | exact IH].
  - destruct (key a =? j); [rewrite IH; reflexivity | exact IH].
Qed.

End Keyed.

Lemma find_existsb (R : Type) (P : R -> bool) rows r :
  find P rows = Some r -> existsb P rows = true.
Proof.
  intros H. apply find_some in H. apply existsb_exists. exists r. exact H.
Qed.

Lemma deletePortfolio_run pid env d :
  storage.deletePortfolio pid env d = (Returned true, snd (storage.deletePortfolio pid env d)).
Proof. reflexivity. Qed.

(** X7. When its owner deletes a portfolio the answer is 200, the
    portfolio is gone and so are all its positions, while every other
    portfolio and the positions of every other portfolio are found as
    before. *)
Theorem owner_delete_takes_positions_along :
  forall (env env' : Env) (d : Db) (user : Users.Row) (portfolioId : Z)
         (p : Portfolio.Row),
    storage.getPortfolio (Some portfolioId) env d = (Returned (Some p), d) ->
    Portfolio.user_id p = Users.id user ->
    let d' := state_after (routes_portfolio.DELETE_id user (Some portfolioId)) env d in
    result_of (routes_portfolio.DELETE_id user (Some portfolioId)) env d
    = Returned (express.json 200 (express.success "Portfolio deleted successfully"))
    /\ storage.getPortfolio (Some portfolioId) env' d' = (Returned None, d')
    /\ storage.getPortfolioPositions portfolioId env' d' = (Returned [], d')
    /\ (forall j, j <> portfolioId ->
          result_of (storage.getPortfolio (Some j)) env' d'
          = result_of (storage.getPortfolio (Some j)) env' d
          /\ result_of (storage.getPortfolioPositions j) env' d'
             = result_of (storage.getPortfolioPositions j) env' d).
Proof.
  intros env env' d user pid p Hget Hown d'.
  rewrite getPortfolio_run in Hget. injection Hget as Hfind.
  assert (Hrun : routes_portfolio.DELETE_id user (Some pid) env d
                 = (Returned (express.json 200
                                (express.success "Portfolio deleted successfully")),
                    snd (storage.deletePortfolio pid env d))).
  { unfold routes_portfolio.DELETE_id, routes_portfolio.failing, try_catch,
      routes_portfolio.with_own_portfolio.
    unfold bind at 1. rewrite getPortfolio_run, Hfind, Hown, Z.eqb_refl. cbn [negb].
    unfold bind. rewrite deletePortfolio_run. reflexivity. }
  assert (Hd' : d' = snd (storage.deletePortfolio pid env d)).
  { unfold d', state_after. rewrite Hrun. reflexivity. }
  split; [unfold result_of; rewrite Hrun; reflexivity|].
  rewrite Hd', deletePortfolio_state. cbv zeta.
  rewrite (find_existsb _ _ _ _ Hfind).
  rewrite getPortfolio_run.
  unfold storage.getPortfolioPositions, storage.dbAll, db.query, result_of.
  cbn [fst snd portfolio portfolio_positions with_portfolio with_portfolio_positions].
  split; [rewrite (find_filter_same _ Portfolio.id); reflexivity|].
  split; [rewrite (filter_filter_same _ PortfolioPositions.portfolio_id); reflexivity|].
  intros j Hj. rewrite !getPortfolio_run.
  cbn [fst snd portfolio portfolio_positions with_portfolio with_portfolio_positions].
  rewrite (find_filter_other _ Portfolio.id) by exact Hj.
  rewrite (filter_filter_other _ PortfolioPositions.portfolio_id) by exact Hj.
  split; reflexivity.
Qed.

(** Alice deletes her portfolio 7 while Bob has portfolio 8. *)
Lemma owner_delete_takes_positions_along_witness :
  let d' := state_after (routes_portfolio.DELETE_id sample.alice (Some 7))
                        sample.env_quote db_two_portfolios in
  storage.getPortfolio (Some 7) sample.env_quote d' = (Returned None, d')
  /\ storage.getPortfolioPositions 7 sample.env_quote d' = (Returned [], d')
  /\ length (portfolio_positions d') = 1%nat.
Proof.
  intros d'.
  destruct (owner_delete_takes_positions_along sample.env_quote sample.env_quote
              db_two_portfolios sample.alice 7
              (Portfolio.mkRow 7 1 (Sql.TEXT "Growth") Sql.NULL 130) eq_refl eq_refl)
    as (_ & Hp & Hq & _).
  split; [exact Hp|]. split; [exact Hq|]. reflexivity.
Defined.
(* ===================================================================== *)
(** * More on the watchlist *)
(* ===================================================================== *)

Lemma filter_none (R : Type) (P : R -> bool) rows :
  existsb P rows = false -> filter (fun r => negb (P r)) rows = rows.
Proof.
  induction rows as [|a rows IH]; intros H; [reflexivity|].
  simpl in H. apply orb_false_iff in H. destruct H as [Ha Hr].
  simpl. rewrite Ha, IH by exact Hr. reflexivity.
Qed.

Lemma existsb_filter_out (R : Type) (P : R -> bool) rows :
  existsb P (filter (fun r => negb (P r)) rows) = false.
Proof.
  induction rows as [|a rows IH]; [reflexivity|].
  simpl. destruct (P a) eqn:E; simpl; [exact IH|]. rewrite E. exact IH.
Qed.

(** X8. Adding a symbol to a watchlist and removing it again, in
    whatever spelling: the removal resolves with true, and every table
    then holds the rows it held before the add, the watchlist included.
    (The rowid sequence of the watchlist is not given back: the next
    item added takes a later id.) *)
Theorem add_then_remove_restores_watchlist :
  forall (env env' : Env) (d d1 : Db) (userId : Z) (symbol symbol' : string)
         (item : storage.WatchlistItem),
    Js.toUpperCase symbol' = Js.toUpperCase symbol ->
    storage.addToWatchlist userId symbol env d = (Returned item, d1) ->
    exists d2,
      storage.removeFromWatchlist userId symbol' env' d1 = (Returned true, d2)
      /\ same_rows d d2.
Proof.
  intros env env' d d1 userId symbol symbol' item Hup Hadd.
  rewrite addToWatchlist_run in Hadd.
  destruct (existsb (watches userId (Js.toUpperCase symbol)) (user_watchlist d)) eqn:Ex;
    [discriminate Hadd|].
  destruct (negb (db.user_exists d userId)); [discriminate Hadd|].
  injection Hadd as _ <-.
  rewrite removeFromWatchlist_run, Hup. eexists. split; [reflexivity|].
  unfold same_rows.
  cbn [users user_watchlist portfolio portfolio_positions api_logs
       restricted_stocks featured_stocks with_user_watchlist].
  repeat split.
  rewrite filter_app, filter_none by exact Ex.
  cbn [filter]. unfold watches at 1. cbn [UserWatchlist.user_id UserWatchlist.symbol].
  rewrite Z.eqb_refl, String.eqb_refl. cbn [andb negb].
  apply app_nil_r.
Qed.

(** Alice adds "amzn" and removes "AMZN": she is watching what she was
    watching before. *)
Lemma add_then_remove_restores_watchlist_witness :
  exists d2,
    storage.removeFromWatchlist 1 "AMZN" sample.env_quote
      (snd (storage.addToWatchlist 1 "amzn" sample.env_quote sample.db0))
    = (Returned true, d2)
    /\ user_watchlist d2 = user_watchlist sample.db0.
Proof.
  destruct (add_then_remove_restores_watchlist sample.env_quote sample.env_quote
              sample.db0
              (snd (storage.addToWatchlist 1 "amzn" sample.env_quote sample.db0))
              1 "amzn" "AMZN"
              (storage.mkItem None 1 "AMZN" 1000) eq_refl eq_refl)
    as (d2 & Hrun & Hrows).
  exists d2. split; [exact Hrun|]. apply Hrows.
Defined.

Lemma DELETE_items_run user s env d :
  routes_watchlist.DELETE_items user s env d
  = (Returned (express.json 200 (express.success (s +++ " removed from watchlist"))),
     with_user_watchlist d
       (filter (fun w => negb (watches (Users.id user) (Js.toUpperCase s) w))
               (user_watchlist d))).
Proof.
  unfold routes_watchlist.DELETE_items, try_catch, bind.
  rewrite removeFromWatchlist_run. reflexivity.
Qed.

Lemma GET_check_run user s env d :
  routes_watchlist.GET_check user s env d
  = (Returned (express.json 200
                 (Js.JObj [("symbol", Js.J (Js.str s));
                           ("isInWatchlist",
                            Js.J (Js.boolean
                                    (existsb (watches (Users.id user) (Js.toUpperCase s))
                                             (user_watchlist d))))]%string)), d).
Proof.
  unfold routes_watchlist.GET_check, try_catch, bind.
  rewrite isInWatchlist_run. reflexivity.
Qed.

Lemma filter_watches_other_user uid upper rows :
  filter (fun w => negb (UserWatchlist.user_id w =? uid))
         (filter (fun w => negb (watches uid upper w)) rows)
  = filter (fun w => negb (UserWatchlist.user_id w =? uid)) rows.
Proof.
  apply filter_filter_out. intros w _ H. unfold watches in H.
  apply negb_false_iff, andb_true_iff in H. destruct H as [H _]. rewrite H. reflexivity.
Qed.

(** X9. DELETE /api/watchlist/items/:symbol is answered 200 whether or
    not the symbol was on the list; afterwards the check endpoint says
    it is not on the list, in whatever spelling it is asked, and the
    rows of every other user are what they were. *)
Theorem removal_is_always_200_and_final :
  forall (env env' : Env) (d : Db) (user : Users.Row) (s s' : string),
    Js.toUpperCase s' = Js.toUpperCase s ->
    let d' := state_after (routes_watchlist.DELETE_items user s) env d in
    result_of (routes_watchlist.DELETE_items user s) env d
    = Returned (express.json 200 (express.success (s +++ " removed from watchlist")))
    /\ routes_watchlist.GET_check user s' env' d'
       = (Returned (express.json 200
                      (Js.JObj [("symbol", Js.J (Js.str s'));
                                ("isInWatchlist", Js.J (Js.boolean false))]%string)), d')
    /\ filter (fun w => negb (UserWatchlist.user_id w =? Users.id user)) (user_watchlist d')
       = filter (fun w => negb (UserWatchlist.user_id w =? Users.id user)) (user_watchlist d)
    /\ with_user_watchlist d' (user_watchlist d) = d.
Proof.
  intros env env' d user s s' Hup d'.
  unfold d', state_after, result_of. rewrite DELETE_items_run. cbn [fst snd].
  split; [reflexivity|].
  rewrite GET_check_run, Hup. cbn [user_watchlist with_user_watchlist].
  rewrite existsb_filter_out.
  split; [reflexivity|]. split; [apply filter_watches_other_user|].
  destruct d; reflexivity.
Qed.

(** Bob removes "msft", which is on his list as MSFT. *)
Lemma removal_is_always_200_and_final_witness :
  user_watchlist (state_after (routes_watchlist.DELETE_items sample.bob "msft")
                              sample.env_quote sample.db0) = []
  /\ routes_watchlist.GET_check sample.bob "Msft" sample.env_quote
       (state_after (routes_watchlist.DELETE_items sample.bob "msft")
                    sample.env_quote sample.db0)
     = (Returned (express.json 200
                    (Js.JObj [("symbol", Js.J (Js.str "Msft"));
                              ("isInWatchlist", Js.J (Js.boolean false))]%string)),
        state_after (routes_watchlist.DELETE_items sample.bob "msft")
                    sample.env_quote sample.db0).
Proof.
  destruct (removal_is_always_200_and_final sample.env_quote sample.env_quote sample.db0
              sample.bob "msft" "Msft" eq_refl) as (_ & Hcheck & _).
  split; [reflexivity | exact Hcheck].
Defined.

Lemma fetchStockQuote_same_but_logs symbol userId env d c d1 :
  fmpApi.fetchStockQuote symbol userId env d = (c, d1) -> same_but_logs d d1.
Proof.
  intros H. pose proof (fetchStockQuote_logs symbol userId env d) as L.
  unfold state_after in L. rewrite H in L. exact L.
Qed.

(** X10. A POST /api/watchlist/items that passes every check is
    answered 201: for a symbol the upstream knows, that is not
    restricted and not yet on the list of an existing user, one row is
    appended for that user with the symbol in upper case, the answer
    carries the upper-cased symbol and no id, and the check endpoint
    then finds the symbol. *)
Theorem watchlist_add_succeeds :
  forall (env env' : Env) (d d1 : Db) (user : Users.Row) (s : string) (q : Js.Json),
    fmpApi.fetchStockQuote (Js.str s) (Js.number (Users.id user)) env d = (Returned q, d1) ->
    Js.truthy_json q = true ->
    restricted d s = false ->
    existsb (watches (Users.id user) (Js.toUpperCase s)) (user_watchlist d) = false ->
    db.user_exists d (Users.id user) = true ->
    let o := outcome_of (routes_watchlist.POST_items user (Js.str s)) env d in
    let d' := state_after (routes_watchlist.POST_items user (Js.str s)) env d in
    (exists b, o = express.json 201 b
               /\ Js.get b "symbol" = Js.J (Js.str (Js.toUpperCase s))
               /\ Js.get b "id" = Js.J Js.undefined)
    /\ (exists w, user_watchlist d' = user_watchlist d ++ [w]
                  /\ UserWatchlist.user_id w = Users.id user
                  /\ UserWatchlist.symbol w = Js.toUpperCase s)
    /\ same_but_logs d (with_user_watchlist d' (user_watchlist d))
    /\ storage.isInWatchlist (Users.id user) s env' d' = (Returned true, d').
Proof.
  intros env env' d d1 user s q Hq Htruthy Hres Hnew Huser o d'.
  pose proof (fetchStockQuote_same_but_logs _ _ _ _ _ _ Hq) as Hlogs.
  assert (Hs : Js.truthy (Js.str s) = true).
  { destruct s; [|reflexivity].
    cbn in Hq. injection Hq as <- _. discriminate Htruthy. }
  assert (Hrun : routes_watchlist.POST_items user (Js.str s) env d
                 = (Returned
                      (express.json 201
                         (Js.JObj
                            [("id", Js.J Js.undefined);
                             ("symbol", Js.J (Js.str (Js.toUpperCase s)));
                             ("createdAt", Js.J (Js.number (now env)));
                             ("price", Js.get q "price");
                             ("name", Js.get q "name");
                             ("change", Js.get q "changesPercentage")]%string)),
                    with_user_watchlist d1
                      (user_watchlist d1
                         ++ [UserWatchlist.mkRow
                               (db.next_id (sqlite_sequence env "user_watchlist")
                               (map UserWatchlist.id (user_watchlist d1)))
                               (Users.id user) (Js.toUpperCase s) (now env)]))).
  { rewrite POST_items_run by exact Hs. rewrite Hq, Htruthy. cbn [negb].
    unfold restricted. rewrite (same_but_logs_restricted _ _ Hlogs).
    unfold restricted in Hres. rewrite Hres.
    rewrite addToWatchlist_run.
    rewrite (same_but_logs_watchlist _ _ Hlogs), Hnew.
    unfold db.user_exists. rewrite (same_but_logs_users _ _ Hlogs).
    unfold db.user_exists in Huser. rewrite Huser. cbn [negb].
    reflexivity. }
  unfold o, d', outcome_of, state_after. rewrite Hrun. cbn [fst snd].
  split; [eexists; split; [reflexivity|]; split; reflexivity|].
  cbn [user_watchlist with_user_watchlist].
  rewrite (same_but_logs_watchlist _ _ Hlogs).
  split; [eexists; split; [reflexivity|]; split; reflexivity|].
  split.
  - unfold same_but_logs in *. rewrite Hlogs. destruct d; reflexivity.
  - rewrite isInWatchlist_run. cbn [user_watchlist with_user_watchlist].
    rewrite existsb_app_last; [reflexivity|].
    unfold watches. cbn [UserWatchlist.user_id UserWatchlist.symbol].
    rewrite Z.eqb_refl, String.eqb_refl. reflexivity.
Qed.

(** Alice adds "amzn". *)
Lemma watchlist_add_succeeds_witness :
  express.status_of (outcome_of (routes_watchlist.POST_items sample.alice (Js.str "amzn"))
                                sample.env_quote sample.db0) = Some 201
  /\ storage.isInWatchlist 1 "amzn" sample.env_quote
       (state_after (routes_watchlist.POST_items sample.alice (Js.str "amzn"))
                    sample.env_quote sample.db0)
     = (Returned true,
        state_after (routes_watchlist.POST_items sample.alice (Js.str "amzn"))
                    sample.env_quote sample.db0).
Proof.
  destruct (watchlist_add_succeeds sample.env_quote sample.env_quote sample.db0
              (snd (fmpApi.fetchStockQuote (Js.str "amzn") (Js.number 1)
                      sample.env_quote sample.db0))
              sample.alice "amzn" sample.a_quote
              eq_refl eq_refl eq_refl eq_refl eq_refl) as ([b [Hb _]] & _ & _ & Hin).
  split; [rewrite Hb; reflexivity | exact Hin].
Defined.

Lemma traverse_entries (f : UserWatchlist.Row -> M Js.Json) :
  (forall item env d, exists y d',
      f item env d = (Returned y, d') /\ same_but_logs d d' /\ entry_key y = row_key item) ->
  forall items env d, exists ys d',
    routes_watchlist.traverse f items env d = (Returned ys, d')
    /\ same_but_logs d d' /\ map entry_key ys = map row_key items.
Proof.
  intros Hf items. induction items as [|x rest IH]; intros env d.
  - exists [], d. split; [reflexivity|]. split; [apply same_but_logs_refl|reflexivity].
  - destruct (Hf x env d) as (y & d1 & Hy & L1 & Ky).
    destruct (IH env d1) as (ys & d2 & Hys & L2 & Kys).
    exists (y :: ys), d2. split.
    + cbn [routes_watchlist.traverse]. unfold bind. rewrite Hy, Hys. reflexivity.
    + split; [exact (same_but_logs_trans _ _ _ L1 L2)|].
      simpl. rewrite Ky, Kys. reflexivity.
Qed.

(** X11. GET /api/watchlist/items is answered 200 whatever the upstream
    does: one entry for each row the watchlist query returns, in the
    same order, each with the id, the symbol and the creation time of
    its row, also when a quote cannot be had. Only the request log
    changes. *)
Theorem watchlist_is_listed_whatever_upstream_does :
  forall (env : Env) (d : Db) (user : Users.Row),
    exists entries rows d',
      routes_watchlist.GET_items user env d
      = (Returned (express.json 200 (Js.JArr entries)), d')
      /\ same_but_logs d d'
      /\ storage.getUserWatchlist (Users.id user) env d = (Returned rows, d)
      /\ map entry_key entries = map row_key rows.
Proof.
  intros env d user.
  assert (Hshape : forall f,
    try_catch
      (watchlist <- storage.getUserWatchlist (Users.id user) ;;
       watchlistWithDetails <- routes_watchlist.traverse f watchlist ;;
       ret (express.json 200 (Js.JArr watchlistWithDetails)))
      (fun error => ret (express.Next error)) env d
    = match routes_watchlist.traverse f
              (filter (fun w => UserWatchlist.user_id w =? Users.id user)
                      (user_watchlist d)) env d with
      | (Returned ys, d') => (Returned (express.json 200 (Js.JArr ys)), d')
      | (Thrown e, d') => (Returned (express.Next e), d')
      end).
  { intros f. unfold try_catch, bind, storage.getUserWatchlist, storage.dbAll, db.query.
    destruct (routes_watchlist.traverse f _ env d) as [[ys|e] d']; reflexivity. }
  unfold routes_watchlist.GET_items. rewrite Hshape. clear Hshape.
  match goal with
  | |- context [routes_watchlist.traverse ?f ?its] =>
      assert (Hf : forall item env0 d0, exists y d1,
                 f item env0 d0 = (Returned y, d1)
                 /\ same_but_logs d0 d1 /\ entry_key y = row_key item);
        [|destruct (traverse_entries f Hf its env d) as (ys & d' & Hrun & L & K)]
  end.
  - intros item env0 d0. unfold try_catch, bind.
    destruct (fmpApi.fetchStockQuote (Js.str (UserWatchlist.symbol item))
                (Js.number (Users.id user)) env0 d0) as [[q|e] d1] eqn:Hq;
      pose proof (fetchStockQuote_same_but_logs _ _ _ _ _ _ Hq) as L;
      eexists; exists d1; (split; [reflexivity|]); (split; [exact L|]); reflexivity.
  - exists ys, (filter (fun w => UserWatchlist.user_id w =? Users.id user)
                       (user_watchlist d)), d'.
    rewrite Hrun. split; [reflexivity|].
    split; [exact L|]. split; [reflexivity | exact K].
Qed.
(* ===================================================================== *)
(** * More on the market-data client *)
(* ===================================================================== *)

Lemma logs_only_ret (A : Type) (a : A) : logs_only (ret a).
Proof. intros env d. split; [apply same_but_logs_refl | reflexivity]. Qed.

Lemma logs_only_throw (A : Type) e : logs_only (@throw Env Db A e).
Proof. intros env d. split; [apply same_but_logs_refl | reflexivity]. Qed.

Lemma logs_only_bind (A B : Type) (c : M A) (k : A -> M B) :
  logs_only c -> (forall a, logs_only (k a)) -> logs_only (bind c k).
Proof.
  intros Hc Hk env d. split.
  - unfold bind. destruct (Hc env d) as [L _].
    destruct (c env d) as [[a|e] d1]; cbn [snd] in *; [|exact L].
    destruct (Hk a env d1) as [L1 _].
    exact (same_but_logs_trans _ _ _ L L1).
  - intros d2. unfold bind. destruct (Hc env d) as [_ I]. specialize (I d2).
    destruct (c env d) as [[a|e] d1], (c env d2) as [[a2|e2] d3];
      cbn [fst] in I; try discriminate I.
    + injection I as ->. destruct (Hk a env d1) as [_ I1]. apply I1.
    + injection I as ->. reflexivity.
Qed.

Lemma logs_only_ask (A : Type) (k : Env -> M A) :
  (forall env, logs_only (k env)) -> logs_only (env <- ask ;; k env).
Proof. intros Hk env d. exact (Hk env env d). Qed.

Lemma logs_only_try_catch (A : Type) (c : M A) (h : Js.Error -> M A) :
  logs_only c -> (forall e, logs_only (h e)) -> logs_only (try_catch c h).
Proof.
  intros Hc Hh env d. split.
  - unfold try_catch. destruct (Hc env d) as [L _].
    destruct (c env d) as [[a|e] d1]; cbn [snd] in *; [exact L|].
    destruct (Hh e env d1) as [L1 _].
    exact (same_but_logs_trans _ _ _ L L1).
  - intros d2. unfold try_catch. destruct (Hc env d) as [_ I]. specialize (I d2).
    destruct (c env d) as [[a|e] d1], (c env d2) as [[a2|e2] d3];
      cbn [fst] in I; try discriminate I.
    + injection I as ->. reflexivity.
    + injection I as ->. destruct (Hh e env d1) as [_ I1]. apply I1.
Qed.

Lemma logs_only_get url : logs_only (fmpApi.fmpClient_get url).
Proof.
  intros env d. unfold fmpApi.fmpClient_get.
  destruct (fmp_get env url); (split; [apply same_but_logs_refl | reflexivity]).
Qed.

Lemma logs_only_log userId endpoint success responseTime errorMessage :
  logs_only (fmpApi.logApiRequest userId endpoint success responseTime errorMessage).
Proof.
  intros env d.
  destruct (logApiRequest_run userId endpoint success responseTime errorMessage env d)
    as (d' & H & L).
  rewrite H. split; [exact L|]. intros d2.
  destruct (logApiRequest_run userId endpoint success responseTime errorMessage env d2)
    as (d2' & H2 & _).
  rewrite H2. reflexivity.
Qed.

Lemma logs_only_if (A : Type) (b : bool) (c1 c2 : M A) :
  logs_only c1 -> logs_only c2 -> logs_only (if b then c1 else c2).
Proof. destruct b; auto. Qed.

Lemma logs_only_failed (A : Type) userId endpoint what error :
  logs_only (@fmpApi.failed A userId endpoint what error).
Proof.
  unfold fmpApi.failed. apply logs_only_ask. intros env.
  apply logs_only_bind; [apply logs_only_log|]. intros _.
  apply logs_only_bind.
  - apply logs_only_if; [apply logs_only_ret|].
    destruct (Js.or _ _); first [apply logs_only_ret | apply logs_only_throw].
  - intros limited. apply logs_only_if; apply logs_only_throw.
Qed.

Lemma logs_only_first_of data : logs_only (fmpApi.first_of data).
Proof.
  unfold fmpApi.first_of.
  destruct data as [[| | | |[|c s]]| |]; first [apply logs_only_ret | apply logs_only_throw].
Qed.

Lemma logs_only_toUpperCase_of what v : logs_only (toUpperCase_of what v).
Proof.
  destruct v; first [apply logs_only_ret | apply logs_only_throw].
Qed.

Ltac logs_only_step :=
  lazymatch goal with
  | |- logs_only (try_catch _ _) =>
      apply logs_only_try_catch; [|intros ?; apply logs_only_failed]
  | |- logs_only (bind ask _) => apply logs_only_ask; intros ?
  | |- logs_only (bind _ _) => apply logs_only_bind; [|intros ?]
  | |- logs_only (if _ then _ else _) => apply logs_only_if
  | |- logs_only (ret _) => apply logs_only_ret
  | |- logs_only (throw _) => apply logs_only_throw
  | |- logs_only (fmpApi.fmpClient_get _) => apply logs_only_get
  | |- logs_only (fmpApi.logApiRequest _ _ _ _ _) => apply logs_only_log
  | |- logs_only (fmpApi.first_of _) => apply logs_only_first_of
  | |- logs_only (toUpperCase_of _ _) => apply logs_only_toUpperCase_of
  end.

(** X12. None of the six calls of the market-data client writes to
    anything but the request log, and what a call returns or throws is
    the same whatever the database holds: it depends on the upstream
    answer alone, not on whether the log row could be written. *)
Theorem market_data_client_only_logs :
  forall (c : Call) (userId : Js.Val) (env : Env) (d d2 : Db),
    same_but_logs d (state_after (call c userId) env d)
    /\ result_of (call c userId) env d2 = result_of (call c userId) env d.
Proof.
  intros c userId env d d2.
  assert (H : logs_only (call c userId)).
  { destruct c; cbn [call];
      unfold fmpApi.fetchStockQuote, fmpApi.fetchCompanyProfile,
        fmpApi.fetchHistoricalData, fmpApi.searchStocks, fmpApi.fetchMarketSummary,
        fmpApi.fetchFinancialNews;
      repeat logs_only_step. }
  destruct (H env d) as [L I]. split; [exact L | apply I].
Qed.

(** X13. The market summary and the news endpoints treat a rate limit
    of the upstream as the four read endpoints do: the client's
    rate-limit error has no status, so the error handler of /api
    answers 500 with the rate-limit message. *)
Theorem rate_limit_on_summary_and_news_is_500 :
  forall (env : Env) (d : Db) (user : Users.Row) (error : Js.Error),
    rate_limited error ->
    (fmp_get env ("/quote/" +++ fmpApi.indices) = Axios.Rejected error ->
     result_of (app.under_api (routes_stock_api.GET_market_summary user)) env d
     = Returned (rate_limit_answer env))
    /\ (forall symbol,
          fmp_get env (news_url symbol) = Axios.Rejected error ->
          result_of (app.under_api (routes_stock_api.GET_news user symbol)) env d
          = Returned (rate_limit_answer env)).
Proof.
  intros env d user error Hlim. split.
  - intros Hget.
    unfold result_of, app.under_api, routes_stock_api.GET_market_summary,
      fmpApi.fetchMarketSummary.
    unfold bind at 1; unfold try_catch at 1; unfold bind at 1;
      unfold try_catch at 1; unfold bind at 1, ask; unfold bind at 1, fmpApi.fmpClient_get.
    rewrite Hget.
    destruct (failed_rate_limited Js.Json (Js.number (Users.id user))
                "/api/stocks/market-summary" "Error fetching market summary"
                error env d Hlim) as (d' & -> & _).
    reflexivity.
  - intros symbol Hget.
    unfold result_of, app.under_api, routes_stock_api.GET_news, fmpApi.fetchFinancialNews.
    unfold bind at 1; unfold try_catch at 1; unfold bind at 1;
      unfold try_catch at 1; unfold bind at 1, ask; unfold bind at 1.
    destruct symbol as [s|]; cbn [news_url] in Hget.
    + destruct (Js.truthy (Js.str s)) eqn:Es.
      * cbn [toUpperCase_of]. unfold bind at 1. cbn [ret].
        unfold bind at 1, fmpApi.fmpClient_get. rewrite Hget.
        destruct (failed_rate_limited Js.Json (Js.number (Users.id user))
                    (fmpApi.news_endpoint (Js.str s)) "Error fetching financial news"
                    error env d Hlim) as (d' & -> & _).
        reflexivity.
      * cbn [ret]. unfold bind at 1, fmpApi.fmpClient_get. rewrite Hget.
        destruct (failed_rate_limited Js.Json (Js.number (Users.id user))
                    (fmpApi.news_endpoint (Js.str s)) "Error fetching financial news"
                    error env d Hlim) as (d' & -> & _).
        reflexivity.
    + cbn [Js.truthy ret]. unfold bind at 1, fmpApi.fmpClient_get. rewrite Hget.
      destruct (failed_rate_limited Js.Json (Js.number (Users.id user))
                  (fmpApi.news_endpoint Js.undefined) "Error fetching financial news"
                  error env d Hlim) as (d' & -> & _).
      reflexivity.
Qed.

(** The upstream answers 429 to the request for the five indices. *)
Lemma rate_limit_on_summary_and_news_is_500_witness :
  express.status_of
    (outcome_of (app.under_api (routes_stock_api.GET_market_summary sample.alice))
                sample.env_429 sample.db0) = Some 500
  /\ express.message_of
       (outcome_of (app.under_api (routes_stock_api.GET_news sample.alice (Some "aapl"%string)))
                   sample.env_429 sample.db0)
     = Some fmpApi.rate_limit_message.
Proof.
  destruct (rate_limit_on_summary_and_news_is_500 sample.env_429 sample.db0 sample.alice
              {| Js.message := "Request failed with status code 429";
                 Js.status := None;
                 Js.response := Some (429, Js.undefined) |}
              (or_introl eq_refl)) as [Hs Hn].
  unfold outcome_of. unfold result_of in Hs, Hn.
  rewrite (Hs eq_refl), (Hn (Some "aapl"%string) eq_refl). split; reflexivity.
Defined.
(* ===================================================================== *)
(** * Creating accounts *)
(* ===================================================================== *)

Lemma next_id_above seq ids x : In x ids -> x < db.next_id seq ids.
Proof.
  unfold db.next_id. induction ids as [|a ids IH]; intros H; [contradiction|].
  cbn [fold_right]. destruct H as [->|H]; [lia|]. specialize (IH H). lia.
Qed.

Lemma find_app_none (R : Type) (P : R -> bool) l1 l2 :
  find P l1 = None -> find P (l1 ++ l2) = find P l2.
Proof.
  induction l1 as [|a l1 IH]; intros H; [reflexivity|].
  simpl in *. destruct (P a); [discriminate H | apply IH, H].
Qed.

Lemma find_app_some (R : Type) (P : R -> bool) l1 l2 r :
  find P l1 = Some r -> find P (l1 ++ l2) = Some r.
Proof.
  induction l1 as [|a l1 IH]; intros H; [discriminate H|].
  simpl in *. destruct (P a); [exact H | apply IH, H].
Qed.

Lemma find_none_forall (R : Type) (P : R -> bool) l :
  (forall x, In x l -> P x = false) -> find P l = None.
Proof.
  induction l as [|a l IH]; intros H; [reflexivity|].
  simpl. rewrite (H a (or_introl eq_refl)). apply IH. intros x Hx. apply H. right. exact Hx.
Qed.

Lemma find_fresh seq rows r :
  Users.id r = db.next_id seq (map Users.id rows) ->
  find (db.is_id (Users.id r)) (rows ++ [r]) = Some r.
Proof.
  intros Hid. rewrite find_app_none.
  - simpl. unfold db.is_id. rewrite Z.eqb_refl. reflexivity.
  - apply find_none_forall. intros x Hx. unfold db.is_id. apply Z.eqb_neq.
    pose proof (next_id_above seq (map Users.id rows) (Users.id x) (in_map _ _ _ Hx)). lia.
Qed.

Lemma text_password_column env password :
  Sql.text (password_column env password) = password_column env password.
Proof.
  unfold password_column. destruct (Js.truthy password); [|reflexivity].
  destruct password; reflexivity.
Qed.

Lemma createUser_run userData env d :
  storage.createUser userData env d =
  if Js.truthy (userData Users.c_password) && negb (is_str (userData Users.c_password))
  then (Thrown (bcrypt.Illegal_arguments (Js.typeof (userData Users.c_password)) "string"), d)
  else match db.users_violation (users d) (new_user env d userData) with
       | Some e => (Thrown e, d)
       | None => (Returned (Some (new_user env d userData)),
                  with_users d (users d ++ [new_user env d userData]))
       end.
Proof.
  unfold storage.createUser.
  assert (Hins : forall pw,
    pw = password_column env (userData Users.c_password) ->
    (lastID <- db.insert
       (db.INSERT_INTO_users
          (Sql.bind (userData Users.c_username)) pw
          (Sql.bind (userData Users.c_email))
          (Sql.bind (userData Users.c_full_name))
          (Sql.bind (Js.or (userData Users.c_role) (Js.str "user")))
          (Sql.bind (Js.or (userData Users.c_avatar) Js.null))
          (Sql.bind (Js.or (userData Users.c_address) Js.null))
          (Sql.INTEGER (if Js.truthy (userData Users.c_dark_mode) then 1 else 0))) ;;
     storage.getUser lastID) env d
    = match db.users_violation (users d) (new_user env d userData) with
      | Some e => (Thrown e, d)
      | None => (Returned (Some (new_user env d userData)),
                 with_users d (users d ++ [new_user env d userData]))
      end).
  { intros pw ->. unfold db.insert, bind, ret, db.exec.
    rewrite text_password_column. fold (new_user env d userData).
    destruct (db.users_violation (users d) (new_user env d userData)); [reflexivity|].
    cbn [db.lastID]. unfold storage.getUser, storage.dbGet, db.getOne.
    cbn [users with_users]. f_equal. f_equal.
    apply (find_fresh (sqlite_sequence env "users") (users d) (new_user env d userData)).
    reflexivity. }
  destruct (Js.truthy (userData Users.c_password)) eqn:Et.
  - destruct (userData Users.c_password) as [| |b|n|p] eqn:Ep;
      try discriminate Et; try reflexivity.
    cbn [is_str negb andb].
    unfold bind at 1. unfold bind at 1.
    cbn [bcrypt.genSalt bcrypt.hash bind ask ret].
    apply Hins. unfold password_column. rewrite Et. reflexivity.
  - cbn [andb]. unfold bind at 1. cbn [ret].
    apply Hins. unfold password_column. rewrite Et. reflexivity.
Qed.

(** X14. [createUser] resolves with the very row it has inserted: the
    row is appended to [users] under an id above every id in use, with
    the username of the payload and its role or else 'user', each as
    the TEXT column stores it (a number as its decimal text), a NULL
    last login, and as password the salted hash of a truthy password or
    else NULL. The Google id of the payload is not stored: the column
    is NULL whatever was passed. No other table is touched. *)
Theorem createUser_returns_the_inserted_row :
  forall (env : Env) (d d' : Db) (userData : storage.UserData) (u : option Users.Row),
    storage.createUser userData env d = (Returned u, d') ->
    exists r,
      u = Some r
      /\ users d' = users d ++ [r]
      /\ with_users d' (users d) = d
      /\ (forall o, In o (users d) -> Users.id o < Users.id r)
      /\ Users.username r = Sql.text (Sql.bind (userData Users.c_username))
      /\ Users.role r = Sql.text (Sql.bind (Js.or (userData Users.c_role) (Js.str "user")))
      /\ Users.password r = password_column env (userData Users.c_password)
      /\ Users.google_id r = Sql.NULL
      /\ Users.last_login r = Sql.NULL.
Proof.
  intros env d d' userData u Hrun.
  rewrite createUser_run in Hrun.
  destruct (Js.truthy (userData Users.c_password)
            && negb (is_str (userData Users.c_password))); [discriminate Hrun|].
  destruct (db.users_violation (users d) (new_user env d userData)); [discriminate Hrun|].
  injection Hrun as <- <-.
  exists (new_user env d userData).
  split; [reflexivity|]. split; [reflexivity|].
  split; [destruct d; reflexivity|].
  split.
  - intros o Ho. cbn [new_user Users.id].
    apply next_id_above. apply in_map. exact Ho.
  - repeat split.
Qed.

(** A payload with a Google id and no password, on the sample data. *)
Lemma createUser_returns_the_inserted_row_witness :
  let userData : storage.UserData :=
    fun c => match c with
             | Users.c_username => Js.str "carol_10432"
             | Users.c_email => Js.str "carol@example.com"
             | Users.c_full_name => Js.str "Carol"
             | Users.c_google_id => Js.str "104329"
             | _ => Js.undefined
             end in
  let run := storage.createUser userData sample.env_quote sample.db0 in
  option_map Users.username (match fst run with Returned u => u | Thrown _ => None end)
  = Some (Sql.TEXT "carol_10432")
  /\ map Users.google_id (users (snd run)) = [Sql.NULL; Sql.NULL; Sql.NULL; Sql.NULL].
Proof.
  intros userData run.
  destruct (createUser_returns_the_inserted_row sample.env_quote sample.db0 (snd run)
              userData (match fst run with Returned u => u | Thrown _ => None end)
              eq_refl) as (r & Hu & Hrows & _ & _ & _ & _ & _ & Hg & _).
  split; [reflexivity|]. rewrite Hrows, map_app. cbn [map]. rewrite Hg. reflexivity.
Defined.

(** X15. [createAdminUserIfNeeded] creates the default administrator,
    username "admin" with the hash of the password "admin123", on an
    empty [users] table and only there: on a table with a row it writes
    nothing, so running it a second time changes nothing. *)
Theorem default_admin_is_created_once :
  forall (env env' : Env) (d : Db),
    let d1 := state_after dbSetup.createAdminUserIfNeeded env d in
    result_of dbSetup.createAdminUserIfNeeded env d = Returned tt
    /\ (if (length (users d) =? 0)%nat
        then exists i, users d1 = [default_admin env i]
        else users d1 = users d)
    /\ with_users d1 (users d) = d
    /\ dbSetup.createAdminUserIfNeeded env' d1 = (Returned tt, d1).
Proof.
  intros env env' d d1.
  assert (Hnon : forall e dd, users dd <> [] ->
            dbSetup.createAdminUserIfNeeded e dd = (Returned tt, dd)).
  { intros e dd Hne. unfold dbSetup.createAdminUserIfNeeded, try_catch, db2.count_users.
    unfold bind at 1.
    destruct (users dd) as [|a l] eqn:E; [congruence|].
    replace (Z.of_nat (length (a :: l)) =? 0) with false
      by (symmetry; apply Z.eqb_neq; simpl length; lia).
    reflexivity. }
  destruct (users d) as [|a l] eqn:Eu.
  - assert (Hrun : dbSetup.createAdminUserIfNeeded env d
                   = (Returned tt,
                      with_users d
                        [default_admin env (db.next_id (sqlite_sequence env "users") [])])).
    { cbv beta iota zeta delta
        [dbSetup.createAdminUserIfNeeded try_catch db2.count_users bind ret ask
         bcrypt.genSalt bcrypt.hash db.update db.exec].
      rewrite Eu. change (Z.of_nat (length (@nil Users.Row)) =? 0) with true.
      cbv beta iota. rewrite Eu. reflexivity. }
    unfold d1, state_after, result_of. rewrite Hrun. cbn [fst snd users with_users length].
    split; [reflexivity|]. split; [eexists; reflexivity|].
    split; [destruct d; cbn in *; subst; reflexivity|].
    apply Hnon. cbn [users with_users]. discriminate.
  - assert (Hrun : dbSetup.createAdminUserIfNeeded env d = (Returned tt, d))
      by (apply Hnon; rewrite Eu; discriminate).
    unfold d1, state_after, result_of. rewrite Hrun. cbn [fst snd length].
    split; [reflexivity|]. split; [exact Eu|].
    split; [rewrite <- Eu; destruct d; reflexivity|].
    apply Hnon. rewrite Eu. discriminate.
Qed.

Lemma POST_login_succeeds env d name p u h :
  Js.truthy (Js.str name) = true -> Js.truthy (Js.str p) = true ->
  find (fun r => Sql.same (Users.username r) (Sql.TEXT name)) (users d) = Some u ->
  Users.password u = Sql.TEXT h -> Js.truthy (Js.str h) = true ->
  bcrypt_compare env p h = true ->
  logIn_error env = None ->
  routes_auth.POST_login (Js.str name) (Js.str p) env d
  = (Returned (express.json 200 (routes_auth.success_user (auth.userWithoutPassword u))),
     with_users d
       (db.update_users (Users.set Users.c_last_login (Sql.INTEGER (now env)))
                        (Users.id u) (users d))).
Proof.
  intros Hn Hp Hfind Hpw Hh Hcmp Hlog.
  unfold routes_auth.POST_login, auth.local_authenticate.
  rewrite Hn, Hp. cbn [negb orb].
  unfold auth.local_verify, try_catch.
  unfold bind at 1. unfold bind at 1.
  unfold storage.getUserByUsername, storage.dbGet, db.getOne. cbn [Sql.bind Sql.text].
  rewrite Hfind. unfold bind at 1. rewrite Hpw. cbn [Sql.unbind]. rewrite Hh.
  cbn [bcrypt.compare]. unfold bind at 1, ask. cbn [ret]. rewrite Hcmp.
  cbv beta iota zeta delta [storage.updateLastLogin storage.dbRun db.update bind ret
                            auth.logIn ask try_catch db.exec].
  rewrite Hlog.
  rewrite updateUser_no_fields by (intros c; destruct c; reflexivity).
  reflexivity.
Qed.

(** X16. Whoever has just registered can log in: when a registration
    is answered 200 and the password check accepts the password against
    the hash made of it, a login with the same username and password is
    answered 200 with the same user record as the registration, the
    record of the one row the registration has added, with role
    'user'. *)
Theorem register_then_login :
  forall (env env' : Env) (d d1 : Db) (name p : string) (email fullName : Js.Val)
         (o : express.Outcome),
    routes_auth.POST_register (Js.str name) email (Js.str p) fullName env d
    = (Returned o, d1) ->
    express.status_of o = Some 200 ->
    bcrypt_compare env' p (bcrypt_hash env p (bcrypt_genSalt env)) = true ->
    Js.truthy (Js.str (bcrypt_hash env p (bcrypt_genSalt env))) = true ->
    logIn_error env' = None ->
    exists u,
      o = express.json 200 (routes_auth.success_user (auth.userWithoutPassword u))
      /\ users d1 = users d ++ [u]
      /\ Users.role u = Sql.TEXT "user"
      /\ result_of (routes_auth.POST_login (Js.str name) (Js.str p)) env' d1 = Returned o.
Proof.
  intros env env' d d1 name p email fullName o Hrun Hst Hcmp Hh Hlog.
  unfold routes_auth.POST_register, try_catch in Hrun.
  destruct (Js.truthy (Js.str name)) eqn:Hn;
    [|cbn in Hrun; injection Hrun as <- <-; discriminate Hst].
  destruct (Js.truthy email) eqn:He;
    [|cbn in Hrun; injection Hrun as <- <-; discriminate Hst].
  destruct (Js.truthy (Js.str p)) eqn:Hp;
    [|cbn in Hrun; injection Hrun as <- <-; discriminate Hst].
  destruct (Js.truthy fullName) eqn:Hf;
    [|cbn in Hrun; injection Hrun as <- <-; discriminate Hst].
  cbn [negb orb] in Hrun.
  unfold bind at 1 in Hrun.
  unfold storage.getUserByUsername, storage.dbGet, db.getOne in Hrun.
  cbn [Sql.bind Sql.text] in Hrun.
  destruct (find (fun r => Sql.same (Users.username r) (Sql.TEXT name)) (users d))
    as [u0|] eqn:Ename; [injection Hrun as <- <-; discriminate Hst|].
  unfold bind at 1 in Hrun.
  unfold storage.getUserByEmail, storage.dbGet, db.getOne in Hrun.
  destruct (find (fun r => Sql.same (Users.email r) (Sql.text (Sql.bind email))) (users d))
    as [u0|];
    [injection Hrun as <- <-; discriminate Hst|].
  unfold bind at 1 in Hrun. rewrite createUser_run in Hrun.
  cbn [is_str negb andb] in Hrun. rewrite andb_false_r in Hrun.
  match type of Hrun with
  | context [new_user env d ?ud] => set (userData := ud) in Hrun
  end.
  destruct (db.users_violation (users d) (new_user env d userData));
    [cbv beta iota in Hrun; injection Hrun as <- <-; discriminate Hst|].
  cbv beta iota zeta delta [routes_auth.strip_password bind ret auth.logIn ask] in Hrun.
  destruct (logIn_error env); injection Hrun as <- <-; [discriminate Hst|].
  exists (new_user env d userData).
  split; [reflexivity|]. split; [reflexivity|]. split; [reflexivity|].
  unfold result_of.
  rewrite (POST_login_succeeds env' _ name p (new_user env d userData)
             (bcrypt_hash env p (bcrypt_genSalt env)) Hn Hp); try assumption.
  - reflexivity.
  - cbn [users with_users]. rewrite find_app_none by exact Ename.
    cbn [find new_user Users.username userData Sql.bind Sql.text Sql.same Sql.is_null Sql.eqb negb andb].
    rewrite String.eqb_refl. reflexivity.
  - cbn [new_user Users.password userData]. unfold password_column. rewrite Hp. reflexivity.
Qed.

(** Carol registers and logs in, with the toy hash of the samples. *)
Lemma register_then_login_witness :
  let d1 := state_after
              (routes_auth.POST_register (Js.str "carol") (Js.str "carol@example.com")
                 (Js.str "s3cret") (Js.str "Carol")) sample.env_quote sample.db0 in
  express.status_of
    (outcome_of (routes_auth.POST_login (Js.str "carol") (Js.str "s3cret"))
                sample.env_quote d1) = Some 200
  /\ length (users d1) = 4%nat.
Proof.
  intros d1.
  destruct (register_then_login sample.env_quote sample.env_quote sample.db0 d1
              "carol" "s3cret" (Js.str "carol@example.com") (Js.str "Carol")
              (outcome_of
                 (routes_auth.POST_register (Js.str "carol") (Js.str "carol@example.com")
                    (Js.str "s3cret") (Js.str "Carol")) sample.env_quote sample.db0)
              eq_refl eq_refl eq_refl eq_refl eq_refl) as (u & Ho & Hrows & _ & Hlogin).
  unfold outcome_of. unfold result_of in Hlogin. rewrite Hlogin.
  split; [reflexivity|]. rewrite Hrows, length_app. reflexivity.
Defined.
(* ===================================================================== *)
(** * Google sign-in *)
(* ===================================================================== *)

Lemma updateLastLogin_run i env d :
  storage.updateLastLogin i env d
  = (Returned true,
     with_users d
       (db.update_users (Users.set Users.c_last_login (Sql.INTEGER (now env))) i (users d))).
Proof. reflexivity. Qed.

Lemma length_update_users f i rows : length (db.update_users f i rows) = length rows.
Proof. unfold db.update_users. apply length_map. Qed.

(** X17. A Google sign-in whose Google id is unknown but whose e-mail
    address is that of an existing account signs in as that account and
    links it: the account gets the Google id and a new last login, and
    is otherwise the row it was, password hash and role included; no
    row is added and no other account changes. *)
Theorem google_sign_in_links_by_email :
  forall (env : Env) (d d' : Db) (profile : auth.Profile) (email : Js.Val)
         (u r : Users.Row),
    storage.getUserByGoogleId (Js.str (auth.profile_id profile)) env d = (Returned None, d) ->
    auth.first_email profile = Some email ->
    Js.truthy email = true ->
    storage.getUserByEmail email env d = (Returned (Some u), d) ->
    user_by_id d (Users.id u) = Some u ->
    auth.google_verify profile env d = (Returned (auth.done_user r), d') ->
    r = Users.set Users.c_google_id (Sql.TEXT (auth.profile_id profile)) u
    /\ user_by_id d' (Users.id u)
       = Some (Users.set Users.c_last_login (Sql.INTEGER (now env)) r)
    /\ length (users d') = length (users d)
    /\ (forall j, j <> Users.id u -> user_by_id d' j = user_by_id d j).
Proof.
  intros env d d' profile email u r Hg Hmail Htruthy Hbymail Hu Hrun.
  unfold auth.google_verify, try_catch in Hrun.
  unfold bind at 1 in Hrun. rewrite Hg in Hrun.
  rewrite Hmail in Hrun.
  unfold bind at 1 in Hrun. unfold bind at 1 in Hrun.
  rewrite Htruthy in Hrun.
  unfold bind at 1 in Hrun. rewrite Hbymail in Hrun.
  rewrite updateUser_run in Hrun.
  cbn [Js.truthy andb] in Hrun.
  change (patch.sets env
            (fun c => match c with
                      | Users.c_google_id => Js.str (auth.profile_id profile)
                      | _ => Js.undefined
                      end))
    with [(Users.c_google_id, Sql.TEXT (auth.profile_id profile))] in Hrun.
  cbn [length Nat.eqb] in Hrun.
  destruct (exec_UPDATE_users [(Users.c_google_id, Sql.TEXT (auth.profile_id profile))]
              (Users.id u) env d) as [[e He]|[x Hx]].
  { rewrite He in Hrun. cbv beta iota in Hrun. injection Hrun as Hrun _. discriminate Hrun. }
  rewrite Hx in Hrun. clear Hx.
  assert (Hfound :
    user_by_id
      (with_users d
         (db.update_users
            (Users.assign
               (Users.stored [(Users.c_google_id, Sql.TEXT (auth.profile_id profile))]))
            (Users.id u) (users d))) (Users.id u)
    = Some (Users.set Users.c_google_id (Sql.TEXT (auth.profile_id profile)) u)).
  { unfold user_by_id. cbn [users with_users].
    rewrite find_update_users_same by (intros; apply id_assign).
    unfold user_by_id in Hu. rewrite Hu. reflexivity. }
  rewrite Hfound in Hrun.
  cbv beta iota zeta delta [auth.defined_user bind ret] in Hrun.
  rewrite updateLastLogin_run in Hrun. rewrite id_set in Hrun.
  injection Hrun as <- <-.
  split; [reflexivity|].
  unfold user_by_id in *. cbn [users with_users] in *.
  split.
  - rewrite find_update_users_same by (intros; apply id_set).
    apply (f_equal (option_map (Users.set Users.c_last_login (Sql.INTEGER (now env)))))
      in Hfound.
    exact Hfound.
  - split.
    + rewrite !length_update_users. reflexivity.
    + intros j Hj.
      rewrite find_update_users_other; [|intros; reflexivity|exact Hj].
      rewrite find_update_users_other; [|intros; reflexivity|exact Hj].
      reflexivity.
Qed.

(** Someone signs in with Google under Alice's e-mail address. *)
Lemma google_sign_in_links_by_email_witness :
  let profile := auth.mkProfile "104329" "Alice L" (Some (Js.str "alice@example.com")) None in
  let run := auth.google_verify profile sample.env_quote sample.db0 in
  option_map Users.google_id (user_by_id (snd run) 1) = Some (Sql.TEXT "104329")
  /\ option_map Users.password (user_by_id (snd run) 1)
     = Some (Users.password sample.alice).
Proof.
  intros profile run.
  destruct (google_sign_in_links_by_email sample.env_quote sample.db0 (snd run) profile
              (Js.str "alice@example.com") sample.alice
              (Users.set Users.c_google_id (Sql.TEXT "104329") sample.alice)
              eq_refl eq_refl eq_refl eq_refl eq_refl eq_refl) as (_ & Hrow & _).
  change (Users.id sample.alice) with 1 in Hrow. rewrite Hrow. split; reflexivity.
Defined.

Lemma find_same_update_users (get : Users.Row -> Sql.Value) v f i rows :
  (forall r, get (f r) = get r) ->
  find (fun r => Sql.same (get r) v) rows = None ->
  find (fun r => Sql.same (get r) v) (db.update_users f i rows) = None.
Proof.
  intros Hf Hnone. apply find_none_forall. intros x Hx.
  unfold db.update_users in Hx. apply in_map_iff in Hx. destruct Hx as (r & <- & Hr).
  pose proof (find_none _ _ Hnone r Hr) as H. cbv beta in H.
  destruct (db.is_id i r); [rewrite Hf|]; exact H.
Qed.

Lemma existsb_update_users (P : Users.Row -> bool) f i rows :
  (forall r, P (f r) = P r) ->
  existsb P (db.update_users f i rows) = existsb P rows.
Proof.
  intros Hf. unfold db.update_users. induction rows as [|a rows IH]; [reflexivity|].
  simpl. rewrite IH. destruct (db.is_id i a); [rewrite Hf|]; reflexivity.
Qed.

Lemma existsb_same_NULL (R : Type) (g : R -> Sql.Value) rows :
  existsb (fun o => Sql.same Sql.NULL (g o)) rows = false.
Proof. induction rows as [|a l IH]; [reflexivity | exact IH]. Qed.

Lemma createUser_taken_username userData env d :
  Js.truthy (userData Users.c_password) = false ->
  Sql.is_null (Sql.text (Sql.bind (userData Users.c_username))) = false ->
  Sql.is_null (Sql.text (Sql.bind (userData Users.c_email))) = false ->
  Sql.is_null (Sql.text (Sql.bind (userData Users.c_full_name))) = false ->
  existsb (fun o => Sql.same (Sql.text (Sql.bind (userData Users.c_username)))
                             (Users.username o))
          (users d) = true ->
  exists c, storage.createUser userData env d
            = (Thrown (db.UNIQUE_failed ("users." +++ Users.col_name c)), d).
Proof.
  intros Hpw Hn He Hf Hex. rewrite createUser_run, Hpw. cbn [andb].
  unfold db.users_violation.
  cbn [find Users.not_null_cols Users.get new_user Users.username Users.email
       Users.full_name Users.role].
  rewrite Hn, He, Hf.
  assert (Hrole : Sql.is_null
                    (Sql.text (Sql.bind (Js.or (userData Users.c_role) (Js.str "user"))))
                  = false).
  { unfold Js.or. destruct (Js.truthy (userData Users.c_role)) eqn:E; [|reflexivity].
    destruct (userData Users.c_role); try discriminate E; reflexivity. }
  rewrite Hrole.
  cbn [find Users.unique_cols Users.get Users.username Users.email Users.google_id].
  change (Users.username (new_user env d userData))
    with (Sql.text (Sql.bind (userData Users.c_username))).
  change (Users.google_id (new_user env d userData)) with Sql.NULL.
  rewrite existsb_same_NULL, Hex.
  destruct (existsb (fun o => Sql.same (Users.email (new_user env d userData))
                                       (Users.email o)) (users d)).
  - exists Users.c_email. reflexivity.
  - exists Users.c_username. reflexivity.
Qed.

(** X18. A Google profile without an e-mail address can sign in once
    only. The first sign-in creates an account under a username made of
    the display name and the Google id, but [createUser] does not store
    the Google id; so the second sign-in finds no account, tries to
    create the same one again and fails on a UNIQUE index of [users],
    writing nothing. *)
Theorem google_sign_in_without_email_works_once :
  forall (env env' : Env) (d d1 : Db) (profile : auth.Profile) (r : Users.Row),
    auth.first_email profile = None ->
    storage.getUserByGoogleId (Js.str (auth.profile_id profile)) env d = (Returned None, d) ->
    auth.google_verify profile env d = (Returned (auth.done_user r), d1) ->
    Users.username r = Sql.TEXT (auth.google_username profile)
    /\ Users.google_id r = Sql.NULL
    /\ exists e,
         auth.google_verify profile env' d1 = (Returned (auth.done_error e), d1)
         /\ Js.includes (Js.message e) "UNIQUE constraint failed" = true.
Proof.
  intros env env' d d1 profile r Hmail Hg Hrun.
  assert (Hg' : find (fun x => Sql.same (Users.google_id x)
                                        (Sql.TEXT (auth.profile_id profile))) (users d) = None).
  { unfold storage.getUserByGoogleId, storage.dbGet, db.getOne in Hg.
    injection Hg as Hg. exact Hg. }
  assert (Hsecond : forall dd,
    find (fun x => Sql.same (Users.google_id x) (Sql.TEXT (auth.profile_id profile)))
         (users dd) = None ->
    existsb (fun o => Sql.same (Sql.TEXT (auth.google_username profile)) (Users.username o))
            (users dd) = true ->
    exists e,
      auth.google_verify profile env' dd = (Returned (auth.done_error e), dd)
      /\ Js.includes (Js.message e) "UNIQUE constraint failed" = true).
  { intros dd Hnone Hex.
    unfold auth.google_verify, try_catch.
    unfold bind at 1.
    unfold storage.getUserByGoogleId, storage.dbGet, db.getOne. cbn [Sql.bind Sql.text].
    rewrite Hnone, Hmail.
    unfold bind at 1. unfold bind at 1. cbn [Js.truthy ret].
    match goal with
    | |- context [storage.createUser ?ud env' dd] =>
        destruct (createUser_taken_username ud env' dd) as [c Hc];
          [reflexivity | reflexivity | reflexivity | reflexivity | exact Hex |]
    end.
    rewrite Hc. eexists. split; [reflexivity|]. destruct c; reflexivity. }
  unfold auth.google_verify, try_catch in Hrun.
  unfold bind at 1 in Hrun. rewrite Hg in Hrun. rewrite Hmail in Hrun.
  unfold bind at 1 in Hrun. unfold bind at 1 in Hrun.
  cbn [Js.truthy ret] in Hrun.
  rewrite createUser_run in Hrun. cbn [Js.truthy andb] in Hrun.
  match type of Hrun with
  | context [new_user env d ?ud] => set (userData := ud) in *
  end.
  destruct (db.users_violation (users d) (new_user env d userData)) eqn:Ev.
  { cbv beta iota in Hrun. injection Hrun as Hrun _. discriminate Hrun. }
  cbv beta iota zeta delta [auth.defined_user bind ret] in Hrun.
  rewrite updateLastLogin_run in Hrun. injection Hrun as Hr Hd1. subst r.
  split; [reflexivity|]. split; [reflexivity|].
  apply Hsecond; rewrite <- Hd1; cbn [users with_users].
  - apply (find_same_update_users Users.google_id).
    + intros x. destruct x; reflexivity.
    + rewrite find_app_none by exact Hg'. reflexivity.
  - rewrite existsb_update_users by (intros x; destruct x; reflexivity).
    apply existsb_app_last.
    cbn [Users.username new_user userData Sql.bind Sql.text Sql.same Sql.is_null Sql.eqb negb andb].
    apply String.eqb_refl.
Qed.

(** A profile without e-mail address signs in twice on the sample data. *)
Lemma google_sign_in_without_email_works_once_witness :
  let profile := auth.mkProfile "104329" "Carol Danvers" None None in
  let first := auth.google_verify profile sample.env_quote sample.db0 in
  map Users.username (users (snd first))
  = [Sql.TEXT "alice"; Sql.TEXT "bob"; Sql.TEXT "admin"; Sql.TEXT "caroldanvers_10432"]
  /\ exists e, fst (auth.google_verify profile sample.env_quote (snd first))
               = Returned (auth.done_error e).
Proof.
  intros profile first.
  destruct (google_sign_in_without_email_works_once sample.env_quote sample.env_quote
              sample.db0 (snd first) profile
              (new_user sample.env_quote sample.db0
                 (fun c => match c with
                           | Users.c_username => Js.str (auth.google_username profile)
                           | Users.c_email => Js.str "104329@google.user"
                           | Users.c_full_name => Js.str "Carol Danvers"
                           | Users.c_role => Js.str "user"
                           | _ => Js.undefined
                           end))
              eq_refl eq_refl eq_refl) as (_ & _ & e & Hsecond & _).
  split; [reflexivity|]. exists e. rewrite Hsecond. reflexivity.
Defined.
(* ===================================================================== *)
(** * Restricting a stock *)
(* ===================================================================== *)

Lemma addRestrictedStock_state stockData env d r d' :
  storage.addRestrictedStock stockData env d = (Returned r, d') ->
  exists row,
    d' = with_restricted_stocks d (restricted_stocks d ++ [row])
    /\ RestrictedStocks.symbol row = Js.toUpperCase (storage.rs_symbol stockData)
    /\ Js.get r "symbol" = Js.J (Js.str (Js.toUpperCase (storage.rs_symbol stockData))).
Proof.
  unfold storage.addRestrictedStock, storage.dbRun, db.update, bind, ret, ask, db.exec.
  destruct (existsb _ (restricted_stocks d)); [discriminate|].
  destruct (negb (db.user_exists d (storage.rs_added_by stockData))); [discriminate|].
  intros H. injection H as <- <-.
  eexists. split; [reflexivity|]. split; reflexivity.
Qed.

(** X19. Once an administrator has restricted a symbol (201), nobody
    can add it to a watchlist, in whatever spelling: a POST
    /api/watchlist/items for a symbol the upstream knows is answered
    403 and writes to the request log at most. Restricting is an
    administrator's act, and it removes the symbol from no watchlist
    that already has it. *)
Theorem restricting_blocks_every_spelling :
  forall (env env' : Env) (d d1 d2 : Db) (req_user : option Users.Row) (s s' : string)
         (reason : Js.Val) (body q : Js.Json) (user : Users.Row),
    routes_admin.POST_restricted_stocks req_user (Js.str s) reason env d
    = (Returned (express.json 201 body), d1) ->
    Js.toUpperCase s' = Js.toUpperCase s ->
    fmpApi.fetchStockQuote (Js.str s') (Js.number (Users.id user)) env' d1
    = (Returned q, d2) ->
    Js.truthy_json q = true ->
    routes_watchlist.POST_items user (Js.str s') env' d1
    = (Returned
         (express.json 403
            (express.failure
               ("Stock " +++ s' +++ " is restricted and cannot be added to watchlists."))),
       d2)
    /\ same_but_logs d1 d2
    /\ user_watchlist d1 = user_watchlist d
    /\ (exists admin, req_user = Some admin
                      /\ Sql.eqb (Users.role admin) (Sql.TEXT "admin") = true)
    /\ Js.get body "symbol" = Js.J (Js.str (Js.toUpperCase s)).
Proof.
  intros env env' d d1 d2 req_user s s' reason body q user Hadd Hup Hq Htruthy.
  pose proof (fetchStockQuote_same_but_logs _ _ _ _ _ _ Hq) as Hlogs.
  unfold routes_admin.POST_restricted_stocks, routes_admin.ensureAdmin in Hadd.
  destruct req_user as [admin|]; [|discriminate Hadd].
  destruct (Sql.eqb (Users.role admin) (Sql.TEXT "admin")) eqn:Erole;
    [|discriminate Hadd].
  cbn [negb] in Hadd.
  destruct (Js.truthy (Js.str s)); [|discriminate Hadd].
  cbn [negb] in Hadd. unfold try_catch in Hadd.
  unfold bind at 1 in Hadd. cbn [string_of ret] in Hadd.
  unfold bind at 1 in Hadd.
  destruct (storage.addRestrictedStock
              {| storage.rs_symbol := s; storage.rs_reason := reason;
                 storage.rs_added_by := Users.id admin |} env d) as [[r|e] dd] eqn:Estore;
    [|discriminate Hadd].
  cbn [ret] in Hadd. injection Hadd as -> ->.
  destruct (addRestrictedStock_state _ _ _ _ _ Estore) as (row & -> & Hsym & Hbody).
  cbn [storage.rs_symbol] in Hsym, Hbody.
  assert (Hs' : Js.truthy (Js.str s') = true).
  { destruct s'; [|reflexivity].
    cbn in Hq. injection Hq as <- _. discriminate Htruthy. }
  assert (Hres : restricted d2 s' = true).
  { apply (restricted_In d2 s' row).
    - rewrite (same_but_logs_restricted _ _ Hlogs).
      cbn [restricted_stocks with_restricted_stocks]. apply in_or_app. right. left. reflexivity.
    - rewrite Hsym, Hup. apply toUpperCase_idem. }
  split.
  - rewrite POST_items_run by exact Hs'. rewrite Hq, Htruthy. cbn [negb].
    rewrite Hres. reflexivity.
  - split; [exact Hlogs|]. split; [reflexivity|].
    split; [exists admin; split; [reflexivity | exact Erole] | exact Hbody].
Qed.

(** The administrator restricts "amzn"; Alice then asks for "Amzn". *)
Lemma restricting_blocks_every_spelling_witness :
  let d1 := state_after
              (routes_admin.POST_restricted_stocks (Some sample.root) (Js.str "amzn")
                 (Js.str "under review")) sample.env_quote sample.db0 in
  express.status_of
    (outcome_of (routes_watchlist.POST_items sample.alice (Js.str "Amzn"))
                sample.env_quote d1) = Some 403
  /\ user_watchlist d1 = user_watchlist sample.db0.
Proof.
  intros d1.
  destruct (restricting_blocks_every_spelling sample.env_quote sample.env_quote sample.db0
              d1 (snd (fmpApi.fetchStockQuote (Js.str "Amzn") (Js.number 1)
                         sample.env_quote d1))
              (Some sample.root) "amzn" "Amzn" (Js.str "under review")
              (Js.JObj [("id", Js.J Js.undefined);
                        ("symbol", Js.J (Js.str "AMZN"));
                        ("reason", Js.J (Js.str "under review"));
                        ("added_by", Js.J (Js.number 3));
                        ("added_at", Js.J (Js.number 1000))]%string)
              sample.a_quote sample.alice eq_refl eq_refl eq_refl eq_refl)
    as (Hpost & _ & Hwl & _).
  unfold outcome_of. rewrite Hpost. split; [reflexivity | exact Hwl].
Defined.
